(** * html2pptx: from a rendered HTML slide to deck-library calls

    A shallow embedding of [scripts/pptx/html2pptx.js].  The script has two
    halves, and so has this file:

    - the in-page half ([extractSlideData], run by the browser on the
      rendered document), embedded in [Module Page];
    - the Node.js half (overflow and dimension validation, the emitter
      [addElements] and the orchestration in [html2pptx]), embedded in
      [Module Driver].

    The command-line driver [scripts/pptx/generate_pptx.js], which runs
    [html2pptx] over the slide files of a directory, is embedded in
    [Module Generate].

    Numbers.  JavaScript numbers are embedded as rationals [Q] with exact
    arithmetic; [NaN] and [null], where the script can produce them, are
    [None] of an [option Q].  Rounding done by IEEE doubles is not part of
    the model.

    Strings.  Text is a [string]; character classes such as [\s] are the
    ASCII ones.

    Computed styles.  The browser serialises computed colours, lengths and
    transforms canonically ("rgba(r, g, b, a)", "12px", "matrix(...)").
    The regular expressions of the script only ever pick the components of
    those forms apart, so a computed value is represented by the components
    the script's regular expression captures ([CssColor], a length in
    pixels, [Transform]). *)

From Stdlib Require Import ZArith QArith Qround Qabs Qminmax.
From Stdlib Require Import String Ascii List Bool Lia Lqa.
From Stdlib Require Import Sorted Permutation.
From Stdlib Require DecimalString HexadecimalString.
Import ListNotations.

Set Warnings "-register-all".

Open Scope Q_scope.

(** ** JavaScript primitives *)

(** [Math.round]: the nearest integer, ties towards +infinity. *)
Definition Math_round (v : Q) : Z := Qfloor (v + (1 # 2)).

Definition Math_max (a b : Q) : Q := Qmax a b.
Definition Math_min (a b : Q) : Q := Qmin a b.

Definition Qlt_bool (a b : Q) : bool := negb (Qle_bool b a).

(** A number is truthy when it is not zero. *)
Definition truthy (v : Q) : bool := negb (Qeq_bool v 0).

(** [a || b] where [a] is a number, [null] or [NaN]. *)
Definition or_else (a : option Q) (b : Q) : Q :=
  match a with
  | Some v => if truthy v then v else b
  | None => b
  end.

Definition is_truthy_opt (v : option Q) : bool :=
  match v with Some q => truthy q | None => false end.

(** Truncation towards zero, and the remainder operator [%] built on it:
    the result takes the sign of the dividend. *)
Definition Qtrunc (v : Q) : Z := Z.quot (Qnum v) (Zpos (Qden v)).

Definition js_rem (v m : Q) : Q := v - m * inject_Z (Qtrunc (v / m)).

Definition string_of_nat (n : nat) : string :=
  DecimalString.NilZero.string_of_uint (Nat.to_uint n).

Fixpoint padStart0 (width : nat) (s : string) : string :=
  match width with
  | O => s
  | S k => if Nat.ltb (String.length s) width then padStart0 k ("0" ++ s) else s
  end.

(** [Number.prototype.toFixed(digits)]: the decimal expansion with [digits]
    fractional digits, rounded to nearest with ties to the larger magnitude. *)
Definition toFixed (v : Q) (digits : nat) : string :=
  let scale := Z.pow 10 (Z.of_nat digits) in
  let n := Qfloor (Qabs v * inject_Z scale + (1 # 2)) in
  let sign := if Qlt_bool v 0 then "-"%string else ""%string in
  let int_part := string_of_nat (Z.to_nat (n / scale)) in
  let frac_part := padStart0 digits (string_of_nat (Z.to_nat (n mod scale))) in
  match digits with
  | O => (sign ++ int_part)%string
  | _ => (sign ++ int_part ++ "." ++ frac_part)%string
  end.

(** [Number.prototype.toString(16)] on a non-negative integer. *)
Definition toString16 (n : Z) : string :=
  HexadecimalString.NilZero.string_of_uint (N.to_hex_uint (Z.to_N n)).

(** *** Strings *)

(** The ASCII part of the character class [\s]. *)
Definition is_space (c : ascii) : bool :=
  let n := nat_of_ascii c in
  (Nat.eqb n 32 || (Nat.leb 9 n && Nat.leb n 13))%bool.

Fixpoint trimStart (s : string) : string :=
  match s with
  | EmptyString => EmptyString
  | String c rest => if is_space c then trimStart rest else s
  end.

(** [s.replace(/\s+$/, '')]. *)
Fixpoint trimEnd (s : string) : string :=
  match s with
  | EmptyString => EmptyString
  | String c rest =>
      match trimEnd rest with
      | EmptyString => if is_space c then EmptyString else String c EmptyString
      | kept => String c kept
      end
  end.

Definition trim (s : string) : string := trimEnd (trimStart s).

(** [s.replace(/\s+/g, ' ')]: every maximal run of blanks becomes one space. *)
Fixpoint collapse_from (in_blanks : bool) (s : string) : string :=
  match s with
  | EmptyString => EmptyString
  | String c rest =>
      if is_space c then
        if in_blanks then collapse_from true rest
        else String " " (collapse_from true rest)
      else String c (collapse_from false rest)
  end.

Definition collapse_spaces (s : string) : string := collapse_from false s.

Definition startsWith (s p : string) : bool := prefix p s.

Fixpoint includes (s sub : string) : bool :=
  (prefix sub s ||
   match s with
   | EmptyString => false
   | String _ rest => includes rest sub
   end)%bool.

Definition nonempty (s : string) : bool := negb (String.eqb s "").

(** [s.substring(0, n)]. *)
Definition take (n : nat) (s : string) : string := substring 0 n s.

Definition string_in (s : string) (l : list string) : bool :=
  existsb (String.eqb s) l.

Definition newline : string := String (ascii_of_nat 10) EmptyString.

(** ** Geometry *)

(** A [DOMRect], in CSS pixels. *)
Record Rect := mkRect {
  rect_left : Q;
  rect_top : Q;
  rect_width : Q;
  rect_height : Q
}.

(** The [position] of an extracted element: [{x, y, w, h}]. *)
Record Position := mkPosition {
  pos_x : Q;
  pos_y : Q;
  pos_w : Q;
  pos_h : Q
}.

(** ** Computed styles *)

(** A computed colour, by what the script's regular expressions see in it:
    ["rgb(r, g, b)"], ["rgba(r, g, b, a)"], the keyword ["transparent"], the
    empty string, or any other syntax (named colours, [hsl()], [oklch()]). *)
Inductive CssColor :=
| ColorEmpty
| ColorTransparent
| ColorRgb (r g b : Z)
| ColorRgba (r g b : Z) (alpha : Q)
| ColorOther (css : string).

(** [colorStr === 'rgba(r, g, b, 0)']. *)
Definition is_rgba_zero (r g b : Z) (c : CssColor) : bool :=
  match c with
  | ColorRgba r' g' b' a =>
      (Z.eqb r' r && Z.eqb g' g && Z.eqb b' b && Qeq_bool a 0)%bool
  | _ => false
  end.

Definition is_rgb_black (c : CssColor) : bool :=
  match c with
  | ColorRgb r g b => (Z.eqb r 0 && Z.eqb g 0 && Z.eqb b 0)%bool
  | _ => false
  end.

Definition color_is_empty (c : CssColor) : bool :=
  match c with ColorEmpty => true | _ => false end.

Definition color_is_transparent_kw (c : CssColor) : bool :=
  match c with ColorTransparent => true | _ => false end.

(** A computed [transform]: empty, ["none"], a string in which
    [rotate(<n>deg)] matches, one in which only [matrix(a, b, ...)] matches
    (with its first two entries), or anything else. *)
Inductive Transform :=
| TransformEmpty
| TransformNone
| TransformRotate (deg : Q)
| TransformMatrix (a b : Q)
| TransformOther.

Inductive FontWeight :=
| WeightKeyword (kw : string)
| WeightNumber (n : Z).

Inductive RadiusUnit := UnitPercent | UnitPt | UnitPx.

(** A computed [background-image]: empty or ["none"], or a list of layers,
    of which the script only asks whether one is a [linear-gradient] or
    [radial-gradient] and what the first [url(...)] is. *)
Inductive CssImage :=
| ImageNone
| ImageLayers (has_gradient : bool) (url : option string).

(** A computed [box-shadow]: ["none"] (or empty), a shadow containing the
    word [inset], or an outer shadow with its colour (when one is written in
    [rgb()/rgba()] form) and its lengths in the order they appear. *)
Inductive BoxShadow :=
| ShadowNone
| ShadowInset
| ShadowOuter (color : option CssColor) (lengths : list Q).

Record Computed := mkComputed {
  backgroundColor : CssColor;
  backgroundImage : CssImage;
  borderWidth : Q;
  borderTopWidth : Q;
  borderRightWidth : Q;
  borderBottomWidth : Q;
  borderLeftWidth : Q;
  borderColor : CssColor;
  borderTopColor : CssColor;
  borderRightColor : CssColor;
  borderBottomColor : CssColor;
  borderLeftColor : CssColor;
  borderRadius : Q * RadiusUnit;
  boxShadow : BoxShadow;
  opacity : Q;
  color : CssColor;
  fontSize : Q;
  fontFamily : string;
  fontWeight : FontWeight;
  fontStyle : string;
  textDecoration : string;
  textAlign : string;
  textTransform : string;
  lineHeight : option Q;
  marginTop : Q;
  marginRight : Q;
  marginBottom : Q;
  marginLeft : Q;
  paddingTop : Q;
  paddingRight : Q;
  paddingBottom : Q;
  paddingLeft : Q;
  transform : Transform;
  writingMode : string
}.

(** ** The rendered document *)

(** What the script reads off one DOM element besides its children. *)
Record ElemData := mkElemData {
  uid : nat;                 (* object identity, for the [processed] set *)
  tagName : string;
  className : string;
  elemId : string;
  src : string;
  pptxSpanProcessed : bool;  (* dataset.pptxSpanProcessed === 'true' *)
  innerText : string;
  computed : Computed;
  boundingClientRect : Rect;
  offsetWidth : Q;
  offsetHeight : Q
}.

Inductive Node :=
| TextNode (data : string)
| ElemNode (d : ElemData) (childNodes : list Node).

(** [node.textContent]. *)
Fixpoint textContent (n : Node) : string :=
  match n with
  | TextNode data => data
  | ElemNode _ kids =>
      (fix all (l : list Node) : string :=
         match l with
         | [] => EmptyString
         | k :: rest => (textContent k ++ all rest)%string
         end) kids
  end.

(** An element together with the tag names of its ancestors, nearest first. *)
Record Located := mkLocated {
  ancestors : list string;
  node : Node
}.

Definition parentTag (l : Located) : option string := hd_error (ancestors l).

(** The element descendants of a node in document order, as
    [querySelectorAll('*')] lists them. *)
Fixpoint descendants (above : list string) (n : Node) : list Located :=
  match n with
  | TextNode _ => []
  | ElemNode d kids =>
      (fix all (l : list Node) : list Located :=
         match l with
         | [] => []
         | k :: rest =>
             (match k with
              | TextNode _ => []
              | ElemNode _ _ => [mkLocated (tagName d :: above) k]
              end ++ descendants (tagName d :: above) k ++ all rest)%list
         end) kids
  end.

Definition node_tag (n : Node) : string :=
  match n with
  | TextNode _ => EmptyString
  | ElemNode d _ => tagName d
  end.

Definition node_children (n : Node) : list Node :=
  match n with
  | TextNode _ => []
  | ElemNode _ kids => kids
  end.

(** [el.querySelectorAll('t1, t2, ...')] for a list of tag names. *)
Definition querySelectorAll (tags : list string) (above : list string) (n : Node)
  : list Located :=
  filter (fun l => string_in (node_tag (node l)) tags) (descendants above n).

Definition querySelector (tags : list string) (above : list string) (n : Node)
  : option Located :=
  hd_error (querySelectorAll tags above n).

(** ** The slide object model *)

(** The options object of a text run.  A field is [Some] exactly when the
    JavaScript object has the key. *)
Record RunOptions := mkRunOptions {
  o_bold : option bool;
  o_italic : option bool;
  o_underline : option bool;
  o_color : option string;
  o_transparency : option Z;
  o_fontSize : option Q;
  o_fontFace : option string;
  o_breakLine : option bool;
  o_bullet : option Q         (* bullet: { indent } *)
}.

Definition no_options : RunOptions :=
  mkRunOptions None None None None None None None None None.

Record Run := mkRun {
  run_text : string;
  run_options : RunOptions
}.

Inductive TextContent :=
| PlainText (s : string)
| RunList (runs : list Run).

(** The [style] object of text and list elements. *)
Record Style := mkStyle {
  s_fontSize : Q;
  s_fontFace : string;
  s_color : string;
  s_align : string;
  s_lineSpacing : option Q;
  s_paraSpaceBefore : Q;
  s_paraSpaceAfter : Q;
  s_margin : list Q;
  s_transparency : option Z;
  s_rotate : option Q;
  s_bold : option bool;
  s_italic : option bool;
  s_underline : option bool
}.

Record CellOptions := mkCellOptions {
  c_bold : bool;
  c_color : string;
  c_fontSize : Q;
  c_fontFace : string;
  c_margin : list Q;
  c_fill : option string
}.

Record Cell := mkCell {
  cell_text : TextContent;
  cell_options : CellOptions
}.

Record TableStyle := mkTableStyle {
  t_fontSize : Q;
  t_fontFace : string;
  t_color : string;
  t_transparency : option Z;
  t_borderColor : string;
  t_borderWidth : Q
}.

Record Shadow := mkShadow {
  shadow_angle : Z;
  shadow_blur : Q;
  shadow_color : string;
  shadow_offset : Q;
  shadow_opacity : Q
}.

Record LineStyle := mkLineStyle {
  line_color : string;
  line_width : Q
}.

Record ShapeProps := mkShapeProps {
  shape_fill : option string;
  shape_transparency : option Z;
  shape_line : option LineStyle;
  shape_rectRadius : Q;
  shape_shadow : option Shadow
}.

(** One entry of [slideData.elements].  [TextEl] carries the lower-cased
    tag name as its [type]. *)
Inductive Element :=
| ImageEl (source : string) (position : Position)
| LineEl (x1 y1 x2 y2 : Q) (width : Q) (color : string)
| ShapeEl (position : Position) (shape : ShapeProps)
| ListEl (items : list Run) (position : Position) (style : Style)
| TableEl (data : list (list Cell)) (colWidths : list Q)
          (position : Position) (style : TableStyle)
| TextEl (type : string) (text : TextContent) (position : Position)
         (style : Style).

Record Placeholder := mkPlaceholder {
  ph_id : string;
  ph_x : Q;
  ph_y : Q;
  ph_w : Q;
  ph_h : Q
}.

Inductive Background :=
| BackgroundImage (path : string)
| BackgroundColor (value : string).

Record SlideData := mkSlideData {
  background : Background;
  elements : list Element;
  placeholders : list Placeholder;
  errors : list string
}.

(** What the host supplies and the model does not compute: trigonometry,
    square roots, the colour resolution done by painting one canvas pixel,
    and URI decoding. *)
Record Host := mkHost {
  atan2_degrees : Q -> Q -> Q;   (* Math.atan2(y, x) * (180 / Math.PI) *)
  Math_sqrt : Q -> Q;
  canvas_pixel : string -> Z * Z * Z * Z;
  decodeURIComponent : string -> string   (* the argument itself when it throws *)
}.

(** ** More string helpers used by the extraction *)

Definition lower_ascii (c : ascii) : ascii :=
  let n := nat_of_ascii c in
  if (Nat.leb 65 n && Nat.leb n 90)%bool then ascii_of_nat (n + 32) else c.

Definition upper_ascii (c : ascii) : ascii :=
  let n := nat_of_ascii c in
  if (Nat.leb 97 n && Nat.leb n 122)%bool then ascii_of_nat (n - 32) else c.

(** The character class [\w]. *)
Definition is_word (c : ascii) : bool :=
  let n := nat_of_ascii c in
  ((Nat.leb 48 n && Nat.leb n 57) || (Nat.leb 65 n && Nat.leb n 90) ||
   (Nat.leb 97 n && Nat.leb n 122) || Nat.eqb n 95)%bool.

Fixpoint map_string (f : ascii -> ascii) (s : string) : string :=
  match s with
  | EmptyString => EmptyString
  | String c rest => String (f c) (map_string f rest)
  end.

Definition toLowerCase : string -> string := map_string lower_ascii.
Definition toUpperCase : string -> string := map_string upper_ascii.

(** [text.replace(/\b\w/g, c => c.toUpperCase())]. *)
Fixpoint capitalize_from (after_word : bool) (s : string) : string :=
  match s with
  | EmptyString => EmptyString
  | String c rest =>
      String (if (is_word c && negb after_word)%bool then upper_ascii c else c)
             (capitalize_from (is_word c) rest)
  end.

(** Removal of every single and double quote character, as the script's
    [replace] with a quote character class does. *)
Fixpoint strip_quotes (s : string) : string :=
  match s with
  | EmptyString => EmptyString
  | String c rest =>
      let n := nat_of_ascii c in
      if (Nat.eqb n 34 || Nat.eqb n 39)%bool then strip_quotes rest
      else String c (strip_quotes rest)
  end.

(** [s.split(',')[0]]. *)
Fixpoint before_comma (s : string) : string :=
  match s with
  | EmptyString => EmptyString
  | String c rest =>
      if Ascii.eqb c ","%char then EmptyString else String c (before_comma rest)
  end.

(** [prefix ++ rest = s] for the first of the [prefixes] that [s] starts
    with. *)
Fixpoint strip_one_of (prefixes : list string) (s : string) : option string :=
  match prefixes with
  | [] => None
  | p :: more =>
      if prefix p s then Some (substring (String.length p) (String.length s) s)
      else strip_one_of more s
  end.

Definition starts_with_space (s : string) : bool :=
  match s with
  | EmptyString => false
  | String c _ => is_space c
  end.

(** [list.some(pred)] and [list.every(pred)] are [existsb] and [forallb]. *)

Fixpoint update_last {A : Type} (f : A -> A) (l : list A) : list A :=
  match l with
  | [] => []
  | [a] => [f a]
  | a :: rest => a :: update_last f rest
  end.

Definition update_first {A : Type} (f : A -> A) (l : list A) : list A :=
  match l with
  | [] => []
  | a :: rest => f a :: rest
  end.

Definition is_nil {A : Type} (l : list A) : bool :=
  match l with [] => true | _ => false end.

Definition is_some {A : Type} (o : option A) : bool :=
  match o with Some _ => true | None => false end.

(** The object spread [{ ...a, ...b }] of two run-option objects: the keys
    of [b] win. *)
Definition or_key {A : Type} (b a : option A) : option A :=
  match b with Some _ => b | None => a end.

Definition spread (a b : RunOptions) : RunOptions :=
  mkRunOptions
    (or_key (o_bold b) (o_bold a))
    (or_key (o_italic b) (o_italic a))
    (or_key (o_underline b) (o_underline a))
    (or_key (o_color b) (o_color a))
    (or_key (o_transparency b) (o_transparency a))
    (or_key (o_fontSize b) (o_fontSize a))
    (or_key (o_fontFace b) (o_fontFace a))
    (or_key (o_breakLine b) (o_breakLine a))
    (or_key (o_bullet b) (o_bullet a)).

Definition set_bold (v : bool) (o : RunOptions) : RunOptions :=
  mkRunOptions (Some v) (o_italic o) (o_underline o) (o_color o)
    (o_transparency o) (o_fontSize o) (o_fontFace o) (o_breakLine o) (o_bullet o).

Definition set_italic (v : bool) (o : RunOptions) : RunOptions :=
  mkRunOptions (o_bold o) (Some v) (o_underline o) (o_color o)
    (o_transparency o) (o_fontSize o) (o_fontFace o) (o_breakLine o) (o_bullet o).

Definition set_underline (v : bool) (o : RunOptions) : RunOptions :=
  mkRunOptions (o_bold o) (o_italic o) (Some v) (o_color o)
    (o_transparency o) (o_fontSize o) (o_fontFace o) (o_breakLine o) (o_bullet o).

Definition set_color (v : string) (o : RunOptions) : RunOptions :=
  mkRunOptions (o_bold o) (o_italic o) (o_underline o) (Some v)
    (o_transparency o) (o_fontSize o) (o_fontFace o) (o_breakLine o) (o_bullet o).

Definition set_transparency (v : Z) (o : RunOptions) : RunOptions :=
  mkRunOptions (o_bold o) (o_italic o) (o_underline o) (o_color o)
    (Some v) (o_fontSize o) (o_fontFace o) (o_breakLine o) (o_bullet o).

Definition set_fontSize (v : Q) (o : RunOptions) : RunOptions :=
  mkRunOptions (o_bold o) (o_italic o) (o_underline o) (o_color o)
    (o_transparency o) (Some v) (o_fontFace o) (o_breakLine o) (o_bullet o).

Definition set_breakLine (v : bool) (o : RunOptions) : RunOptions :=
  mkRunOptions (o_bold o) (o_italic o) (o_underline o) (o_color o)
    (o_transparency o) (o_fontSize o) (o_fontFace o) (Some v) (o_bullet o).

Definition set_bullet (indent : Q) (o : RunOptions) : RunOptions :=
  mkRunOptions (o_bold o) (o_italic o) (o_underline o) (o_color o)
    (o_transparency o) (o_fontSize o) (o_fontFace o) (o_breakLine o) (Some indent).

Definition set_text (f : string -> string) (r : Run) : Run :=
  mkRun (f (run_text r)) (run_options r).

Definition set_options (f : RunOptions -> RunOptions) (r : Run) : Run :=
  mkRun (run_text r) (f (run_options r)).

(** ** The in-page half: [extractSlideData] *)

Module Page.

Definition PT_PER_PX : Q := 7 # 10.
Definition PX_PER_IN : Q := 96.

Definition SINGLE_WEIGHT_FONTS : list string := ["impact"%string].

Definition shouldSkipBold (fontFamily : string) : bool :=
  if nonempty fontFamily then
    let normalizedFont := trim (before_comma (strip_quotes (toLowerCase fontFamily))) in
    string_in normalizedFont SINGLE_WEIGHT_FONTS
  else false.

Definition pxToInch (px : Q) : Q := px / PX_PER_IN.

(** [pxToPoints]: a number, a ["<n>px"] string and a ["<n>pt"] string all
    take the same path, [value * PT_PER_PX]. *)
Definition pxToPoints (px : Q) : Q := px * PT_PER_PX.

(** [pxToPoints] on a length that may be a keyword such as ["normal"]:
    [parseFloat] then gives [NaN]. *)
Definition pxToPoints_opt (px : option Q) : option Q := option_map pxToPoints px.

Definition hex2 (n : Z) : string := padStart0 2 (toString16 n).

Definition rgbToHex (rgbStr : CssColor) : string :=
  if (is_rgba_zero 0 0 0 rgbStr || color_is_transparent_kw rgbStr)%bool
  then "FFFFFF"%string
  else match rgbStr with
       | ColorRgb r g b | ColorRgba r g b _ => (hex2 r ++ hex2 g ++ hex2 b)%string
       | _ => "FFFFFF"%string
       end.

Definition extractAlpha (rgbStr : CssColor) : option Z :=
  match rgbStr with
  | ColorRgba _ _ _ alpha => Some (Math_round ((1 - alpha) * 100))
  | _ => None
  end.

Definition applyTextTransform (text textTransform : string) : string :=
  if String.eqb textTransform "uppercase" then toUpperCase text
  else if String.eqb textTransform "lowercase" then toLowerCase text
  else if String.eqb textTransform "capitalize" then capitalize_from false text
  else text.

Section WithHost.

Variable host : Host.

Definition getRotation (transform : Transform) (writingMode : string) : option Q :=
  let angle :=
    if String.eqb writingMode "vertical-rl" then 90
    else if String.eqb writingMode "vertical-lr" then 270
    else 0 in
  let angle :=
    match transform with
    | TransformEmpty | TransformNone | TransformOther => angle
    | TransformRotate deg => angle + deg
    | TransformMatrix a b =>
        let matrixAngle := atan2_degrees host b a in
        angle + inject_Z (Math_round matrixAngle)
    end in
  let angle := js_rem angle 360 in
  let angle := if Qlt_bool angle 0 then angle + 360 else angle in
  if Qeq_bool angle 0 then None else Some angle.

Definition getPositionAndSize (el : ElemData) (rect : Rect) (rotation : option Q)
  : Position :=
  match rotation with
  | None =>
      mkPosition (rect_left rect) (rect_top rect) (rect_width rect) (rect_height rect)
  | Some r =>
      let isVertical := (Qeq_bool r 90 || Qeq_bool r 270)%bool in
      let centerX := rect_left rect + rect_width rect / 2 in
      let centerY := rect_top rect + rect_height rect / 2 in
      if isVertical then
        mkPosition (centerX - rect_height rect / 2) (centerY - rect_width rect / 2)
                   (rect_height rect) (rect_width rect)
      else
        mkPosition (centerX - offsetWidth el / 2) (centerY - offsetHeight el / 2)
                   (offsetWidth el) (offsetHeight el)
  end.

Definition parseBoxShadow (boxShadow : BoxShadow) : option Shadow :=
  match boxShadow with
  | ShadowNone => None
  | ShadowInset => None
  | ShadowOuter colorMatch parts =>
      match parts with
      | offsetX :: offsetY :: more =>
          let blur := match more with b :: _ => b | [] => 0 end in
          let angle :=
            if (negb (Qeq_bool offsetX 0) || negb (Qeq_bool offsetY 0))%bool then
              let a := atan2_degrees host offsetY offsetX in
              if Qlt_bool a 0 then a + 360 else a
            else 0 in
          let offset := Math_sqrt host (offsetX * offsetX + offsetY * offsetY) * PT_PER_PX in
          (* the opacity is whatever number ends the colour: the alpha of an
             rgba(), the blue channel of an rgb() *)
          let opacity :=
            match colorMatch with
            | Some (ColorRgba _ _ _ a) => a
            | Some (ColorRgb _ _ b) => inject_Z b
            | _ => 1 # 2
            end in
          Some (mkShadow (Math_round angle) (blur * (3 # 4))
                  (match colorMatch with
                   | Some c => rgbToHex c
                   | None => "000000"%string
                   end)
                  offset opacity)
      | _ => None
      end
  end.

Definition getComputedRGBColor (colorStr : CssColor) : CssColor :=
  if (color_is_empty colorStr || color_is_transparent_kw colorStr
      || is_rgba_zero 0 0 0 colorStr)%bool
  then ColorRgba 0 0 0 0
  else match colorStr with
       | ColorOther css =>
           let '(r, g, b, a) := canvas_pixel host css in
           ColorRgba r g b (inject_Z a / 255)
       | _ => colorStr
       end.

(** *** Inline formatting *)

(** The two arrays the parser mutates: the [runs] array it is handed, and
    the [errors] array of the enclosing [extractSlideData]. *)
Record ParseState := mkParseState {
  ps_runs : list Run;
  ps_errors : list string
}.

Definition iconMap : list (string * string) :=
  [ ("fa-arrow-right", "→"); ("fa-arrow-left", "←");
    ("fa-arrow-down", "↓"); ("fa-arrow-up", "↑");
    ("fa-chevron-right", "›"); ("fa-chevron-left", "‹");
    ("fa-arrow-circle-right", "→"); ("fa-arrow-circle-left", "←") ]%string.

Fixpoint find_icon (className : string) (entries : list (string * string))
  : option string :=
  match entries with
  | [] => None
  | (faClass, unicodeChar) :: more =>
      if includes className faClass then Some unicodeChar
      else find_icon className more
  end.

Definition inlineTags : list string :=
  ["SPAN"; "B"; "STRONG"; "I"; "EM"; "U"]%string.

Definition isBold (c : Computed) : bool :=
  match fontWeight c with
  | WeightKeyword kw => String.eqb kw "bold"
  | WeightNumber n => Z.leb 600 n
  end.

(** The colour keys an inline element contributes: [color] and, when the
    colour has an alpha channel, [transparency]. *)
Definition with_color (c : Computed) (options : RunOptions) : RunOptions :=
  if (negb (color_is_empty (color c)) && negb (is_rgb_black (color c)))%bool then
    let colorRGB := getComputedRGBColor (color c) in
    let options := set_color (rgbToHex colorRGB) options in
    match extractAlpha colorRGB with
    | Some transparency => set_transparency transparency options
    | None => options
    end
  else options.

(** A text fragment either extends the last run or starts a new one. *)
Definition add_text (prevNodeIsText : bool) (text : string)
    (baseOptions : RunOptions) (st : ParseState) : ParseState :=
  if (prevNodeIsText && negb (is_nil (ps_runs st)))%bool then
    mkParseState
      (update_last (set_text (fun t => (t ++ text)%string)) (ps_runs st))
      (ps_errors st)
  else
    mkParseState (ps_runs st ++ [mkRun text baseOptions])%list (ps_errors st).

Definition add_icon (prevNodeIsText : bool) (replacementChar : string)
    (options : RunOptions) (st : ParseState) : ParseState :=
  if (prevNodeIsText && negb (is_nil (ps_runs st)))%bool then
    mkParseState
      (update_last
         (fun r => mkRun (run_text r ++ " " ++ replacementChar)%string
                         (spread (run_options r) options))
         (ps_runs st))
      (ps_errors st)
  else
    mkParseState (ps_runs st ++ [mkRun replacementChar options])%list (ps_errors st).

Definition margin_error (tag side : string) : string :=
  ("Inline element <" ++ toLowerCase tag ++ "> has margin-" ++ side ++
   " which is not supported in PowerPoint. Remove margin from inline elements.")%string.

Definition margin_errors (tag : string) (c : Computed) : list string :=
  ((if Qlt_bool 0 (marginLeft c) then [margin_error tag "left"] else []) ++
   (if Qlt_bool 0 (marginRight c) then [margin_error tag "right"] else []) ++
   (if Qlt_bool 0 (marginTop c) then [margin_error tag "top"] else []) ++
   (if Qlt_bool 0 (marginBottom c) then [margin_error tag "bottom"] else []))%list.

(** The tail of [parseInlineFormatting]: the first run loses its leading
    blanks, the last run its trailing blanks. *)
Definition trim_ends (runs : list Run) : list Run :=
  update_last (set_text trimEnd) (update_first (set_text trimStart) runs).

Definition nonempty_runs (runs : list Run) : list Run :=
  filter (fun r => Nat.ltb 0 (String.length (run_text r))) runs.

(** One iteration of the [childNodes.forEach] callback: the new value of
    [prevNodeIsText] and the arrays after it.  For an inline element the
    callback calls [parseInlineFormatting] on the same [runs] array and
    drops what it returns; the inner [fix] is that call's loop, followed by
    its trimming of the shared array. *)
Fixpoint parseNode (n : Node) (baseOptions : RunOptions)
    (baseTextTransform : string -> string) (preserveSpaces : bool)
    (prevNodeIsText : bool) (st : ParseState) {struct n} : bool * ParseState :=
  match n with
  | TextNode data =>
      if (preserveSpaces && negb (includes data newline)
          && String.eqb (trim data) "")%bool
      then (prevNodeIsText, st)
      else
        let text :=
          if preserveSpaces then baseTextTransform data
          else baseTextTransform (collapse_spaces data) in
        (true, add_text prevNodeIsText text baseOptions st)
  | ElemNode d kids =>
      if String.eqb (tagName d) "BR" then
        (true, add_text prevNodeIsText newline baseOptions st)
      else if nonempty (trim (textContent n)) then
        let c := computed d in
        if string_in (tagName d) inlineTags then
          let icon :=
            if (String.eqb (tagName d) "I" && includes (className d) "fa-")%bool
            then find_icon (className d) iconMap
            else None in
          match icon with
          | Some replacementChar =>
              let options := with_color c baseOptions in
              let options := set_fontSize (pxToPoints (fontSize c)) options in
              (true, add_icon prevNodeIsText replacementChar options st)
          | None =>
              let options := baseOptions in
              let options :=
                if (isBold c && negb (shouldSkipBold (fontFamily c)))%bool
                then set_bold true options else options in
              let options :=
                if String.eqb (fontStyle c) "italic"
                then set_italic true options else options in
              let options :=
                if includes (textDecoration c) "underline"
                then set_underline true options else options in
              let options := with_color c options in
              let options := set_fontSize (pxToPoints (fontSize c)) options in
              let textTransform :=
                if (nonempty (textTransform c)
                    && negb (String.eqb (textTransform c) "none"))%bool
                then fun text => applyTextTransform text (textTransform c)
                else baseTextTransform in
              let st :=
                mkParseState (ps_runs st)
                  (ps_errors st ++ margin_errors (tagName d) c)%list in
              let st :=
                (fix each (l : list Node) (prev : bool) (st : ParseState)
                   : ParseState :=
                   match l with
                   | [] => st
                   | k :: rest =>
                       let '(prev, st) :=
                         parseNode k options textTransform preserveSpaces prev st in
                       each rest prev st
                   end) kids false st in
              (false, mkParseState (trim_ends (ps_runs st)) (ps_errors st))
          end
        else (false, st)
      else (false, st)
  end.

Fixpoint parseNodes (l : list Node) (baseOptions : RunOptions)
    (baseTextTransform : string -> string) (preserveSpaces : bool)
    (prevNodeIsText : bool) (st : ParseState) : ParseState :=
  match l with
  | [] => st
  | k :: rest =>
      let '(prev, st) :=
        parseNode k baseOptions baseTextTransform preserveSpaces prevNodeIsText st in
      parseNodes rest baseOptions baseTextTransform preserveSpaces prev st
  end.

(** [parseInlineFormatting(element, baseOptions, runs, baseTextTransform,
    preserveSpaces)]: the array it returns (the non-empty runs), and the
    state of the [runs] and [errors] arrays it leaves behind. *)
Definition parseInlineFormatting (element : Node) (baseOptions : RunOptions)
    (runs : list Run) (baseTextTransform : string -> string)
    (preserveSpaces : bool) (errors : list string) : list Run * ParseState :=
  let st :=
    parseNodes (node_children element) baseOptions baseTextTransform
      preserveSpaces false (mkParseState runs errors) in
  let st := mkParseState (trim_ends (ps_runs st)) (ps_errors st) in
  (nonempty_runs (ps_runs st), st).

(** *** The element loop *)

(** The four collections [extractSlideData] fills while it walks the
    document: [elements], [placeholders], [errors] and the [processed] set
    (of element identities). *)
Record ExtractState := mkExtractState {
  st_elements : list Element;
  st_placeholders : list Placeholder;
  st_errors : list string;
  st_processed : list nat
}.

(** How one stage of the [forEach] callback ends: with [return], by falling
    through to the next stage, or with an exception that aborts the whole
    evaluation. *)
Inductive Flow :=
| Return (st : ExtractState)
| Continue (st : ExtractState)
| Throw (exn : string).

Definition and_then (f : Flow) (next : ExtractState -> Flow) : Flow :=
  match f with
  | Continue st => next st
  | _ => f
  end.

Definition push_error (e : string) (st : ExtractState) : ExtractState :=
  mkExtractState (st_elements st) (st_placeholders st)
    (st_errors st ++ [e])%list (st_processed st).

Definition set_errors (es : list string) (st : ExtractState) : ExtractState :=
  mkExtractState (st_elements st) (st_placeholders st) es (st_processed st).

Definition push_elements (els : list Element) (st : ExtractState) : ExtractState :=
  mkExtractState (st_elements st ++ els)%list (st_placeholders st)
    (st_errors st) (st_processed st).

Definition push_placeholder (p : Placeholder) (st : ExtractState) : ExtractState :=
  mkExtractState (st_elements st) (st_placeholders st ++ [p])%list
    (st_errors st) (st_processed st).

Definition add_processed (ids : list nat) (st : ExtractState) : ExtractState :=
  mkExtractState (st_elements st) (st_placeholders st) (st_errors st)
    (ids ++ st_processed st)%list.

Definition is_processed (id : nat) (st : ExtractState) : bool :=
  existsb (Nat.eqb id) (st_processed st).

Definition textTags : list string :=
  ["P"; "H1"; "H2"; "H3"; "H4"; "H5"; "H6"; "UL"; "OL"; "LI"; "SPAN"; "I";
   "PRE"; "CODE"]%string.

Definition node_uid (n : Node) : list nat :=
  match n with
  | TextNode _ => []
  | ElemNode d _ => [uid d]
  end.

Definition node_computed (n : Node) : option Computed :=
  match n with
  | TextNode _ => None
  | ElemNode d _ => Some (computed d)
  end.

Definition node_width (n : Node) : Q :=
  match n with
  | TextNode _ => 0
  | ElemNode d _ => rect_width (boundingClientRect d)
  end.

(** [l.querySelectorAll(tags)] on a located element. *)
Definition within (tags : list string) (l : Located) : list Located :=
  querySelectorAll tags (ancestors l) (node l).

Definition hasBackground (c : Computed) : bool :=
  (negb (color_is_empty (backgroundColor c))
   && negb (is_rgba_zero 0 0 0 (backgroundColor c)))%bool.

Definition hasAnyBorderWidth (c : Computed) : bool :=
  (Qlt_bool 0 (borderWidth c) || Qlt_bool 0 (borderTopWidth c)
   || Qlt_bool 0 (borderRightWidth c) || Qlt_bool 0 (borderBottomWidth c)
   || Qlt_bool 0 (borderLeftWidth c))%bool.

Definition hasBoxShadow (c : Computed) : bool :=
  match boxShadow c with ShadowNone => false | _ => true end.

Definition imageIsSet (i : CssImage) : bool :=
  match i with ImageNone => false | ImageLayers _ _ => true end.

(** The offset of the slide container: the top-left corner of the first
    element matched by the container selectors, else the origin. *)
Variable containerOffset : Q * Q.

Definition adjustRect (rect : Rect) : Rect :=
  mkRect (Math_max 0 (rect_left rect - fst containerOffset))
         (Math_max 0 (rect_top rect - snd containerOffset))
         (rect_width rect)
         (rect_height rect).

Definition position_of (rect : Rect) : Position :=
  mkPosition (pxToInch (rect_left rect)) (pxToInch (rect_top rect))
             (pxToInch (rect_width rect)) (pxToInch (rect_height rect)).

(** [{ x: pxToInch(x), y: pxToInch(y), w: pxToInch(w), h: pxToInch(h) }]. *)
Definition inInches (box : Position) : Position :=
  mkPosition (pxToInch (pos_x box)) (pxToInch (pos_y box))
             (pxToInch (pos_w box)) (pxToInch (pos_h box)).

Definition fontFaceOf (fontFamily : string) : string :=
  trim (strip_quotes (before_comma fontFamily)).

(** Text elements may not carry a background, a border or a shadow. *)
Definition checkTextTag (d : ElemData) (st : ExtractState) : Flow :=
  if string_in (tagName d) textTags then
    let c := computed d in
    let hasBg := hasBackground c in
    let hasBorder := hasAnyBorderWidth c in
    let hasShadow := hasBoxShadow c in
    if (hasBg || hasBorder || hasShadow)%bool then
      if negb (String.eqb (tagName d) "CODE") then
        Return (push_error
          ("Text element <" ++ toLowerCase (tagName d) ++ "> has " ++
           (if hasBg then "background" else if hasBorder then "border" else "shadow") ++
           ". " ++
           "Backgrounds, borders, and shadows are only supported on <div> elements, not text elements.")%string
          st)
      else Return st
    else Continue st
  else Continue st.

Definition extractPlaceholder (d : ElemData) (st : ExtractState) : Flow :=
  if includes (className d) "placeholder" then
    let rect := adjustRect (boundingClientRect d) in
    let st :=
      if (Qeq_bool (rect_width rect) 0 || Qeq_bool (rect_height rect) 0)%bool then
        push_error
          ("Placeholder " ++ String (ascii_of_nat 34) "" ++
           (if nonempty (elemId d) then elemId d else "unnamed") ++
           String (ascii_of_nat 34) "" ++ " has " ++
           (if Qeq_bool (rect_width rect) 0 then "width: 0" else "height: 0") ++
           ". Check the layout CSS.")%string st
      else
        push_placeholder
          (mkPlaceholder
             (if nonempty (elemId d) then elemId d
              else ("placeholder-" ++ string_of_nat (length (st_placeholders st)))%string)
             (pxToInch (rect_left rect)) (pxToInch (rect_top rect))
             (pxToInch (rect_width rect)) (pxToInch (rect_height rect)))
          st in
    Return (add_processed [uid d] st)
  else Continue st.

Definition extractImage (d : ElemData) (st : ExtractState) : Flow :=
  if String.eqb (tagName d) "IMG" then
    let rect := adjustRect (boundingClientRect d) in
    if (Qlt_bool 0 (rect_width rect) && Qlt_bool 0 (rect_height rect))%bool then
      Return (add_processed [uid d]
                (push_elements [ImageEl (src d) (position_of rect)] st))
    else Continue st
  else Continue st.

Definition unwrapped_text_errors (kids : list Node) : list string :=
  flat_map
    (fun k =>
       match k with
       | TextNode data =>
           let text := trim data in
           if nonempty text then
             [("DIV element contains unwrapped text " ++ String (ascii_of_nat 34) "" ++
               take 50 text ++ (if Nat.ltb 50 (String.length text) then "..." else "") ++
               String (ascii_of_nat 34) "" ++ ". " ++
               "All text must be wrapped in <p>, <h1>-<h6>, <ul>, or <ol> tags to appear in PowerPoint.")%string]
           else []
       | ElemNode _ _ => []
       end)
    kids.

(** One line per bordered edge of a non-uniform border, inset by half the
    stroke width. *)
Definition borderLinesOf (c : Computed) (rect : Rect) : list Element :=
  let x := pxToInch (rect_left rect) in
  let y := pxToInch (rect_top rect) in
  let w := pxToInch (rect_width rect) in
  let h := pxToInch (rect_height rect) in
  let inset_of widthPt := (widthPt / 72) / 2 in
  ((if Qlt_bool 0 (borderTopWidth c) then
      let widthPt := pxToPoints (borderTopWidth c) in
      let inset := inset_of widthPt in
      [LineEl x (y + inset) (x + w) (y + inset) widthPt (rgbToHex (borderTopColor c))]
    else []) ++
   (if Qlt_bool 0 (borderRightWidth c) then
      let widthPt := pxToPoints (borderRightWidth c) in
      let inset := inset_of widthPt in
      [LineEl (x + w - inset) y (x + w - inset) (y + h) widthPt
         (rgbToHex (borderRightColor c))]
    else []) ++
   (if Qlt_bool 0 (borderBottomWidth c) then
      let widthPt := pxToPoints (borderBottomWidth c) in
      let inset := inset_of widthPt in
      [LineEl x (y + h - inset) (x + w) (y + h - inset) widthPt
         (rgbToHex (borderBottomColor c))]
    else []) ++
   (if Qlt_bool 0 (borderLeftWidth c) then
      let widthPt := pxToPoints (borderLeftWidth c) in
      let inset := inset_of widthPt in
      [LineEl (x + inset) y (x + inset) (y + h) widthPt (rgbToHex (borderLeftColor c))]
    else []))%list.

(** The [transparency] of a shape with a background. *)
Definition shapeTransparency (c : Computed) : option Z :=
  let colorAlpha := extractAlpha (getComputedRGBColor (backgroundColor c)) in
  let elementOpacity := or_else (Some (opacity c)) 1 in
  match colorAlpha with
  | Some a =>
      if negb (Z.eqb a 0) then Some (Math_round ((1 - inject_Z a) * 100))
      else if Qlt_bool elementOpacity 1
           then Some (Math_round ((1 - elementOpacity) * 100))
           else None
  | None =>
      if Qlt_bool elementOpacity 1
      then Some (Math_round ((1 - elementOpacity) * 100))
      else None
  end.

Definition rectRadiusOf (c : Computed) (rect : Rect) : Q :=
  let '(radiusValue, unit) := borderRadius c in
  if Qeq_bool radiusValue 0 then 0
  else match unit with
       | UnitPercent =>
           if Qle_bool 50 radiusValue then 1
           else
             let minDim := Math_min (rect_width rect) (rect_height rect) in
             (radiusValue / 100) * pxToInch minDim
       | UnitPt => radiusValue / 72
       | UnitPx => radiusValue / PX_PER_IN
       end.

Definition extractContainer (d : ElemData) (kids : list Node) (st : ExtractState)
  : Flow :=
  let isContainer :=
    (String.eqb (tagName d) "DIV" && negb (string_in (tagName d) textTags))%bool in
  if isContainer then
    let c := computed d in
    let hasBg := hasBackground c in
    let st := set_errors (st_errors st ++ unwrapped_text_errors kids)%list st in
    if imageIsSet (backgroundImage c) then
      Return (push_error
        ("Background images on DIV elements are not supported. " ++
         "Use solid colors or borders for shapes, or use slide.addImage() in PptxGenJS to layer images.")%string
        st)
    else
      let borders :=
        [borderTopWidth c; borderRightWidth c; borderBottomWidth c; borderLeftWidth c] in
      let hasBorder := existsb (fun b => Qlt_bool 0 b) borders in
      let hasUniformBorder :=
        (hasBorder && forallb (fun b => Qeq_bool b (borderTopWidth c)) borders)%bool in
      let borderLines :=
        if (hasBorder && negb hasUniformBorder)%bool
        then borderLinesOf c (adjustRect (boundingClientRect d))
        else [] in
      if (hasBg || hasBorder)%bool then
        let rect := adjustRect (boundingClientRect d) in
        if (Qlt_bool 0 (rect_width rect) && Qlt_bool 0 (rect_height rect))%bool then
          let shadow := parseBoxShadow (boxShadow c) in
          let st :=
            if (hasBg || hasUniformBorder)%bool then
              push_elements
                [ShapeEl (position_of rect)
                   (mkShapeProps
                      (if hasBg
                       then Some (rgbToHex (getComputedRGBColor (backgroundColor c)))
                       else None)
                      (if hasBg then shapeTransparency c else None)
                      (if hasUniformBorder
                       then Some (mkLineStyle
                                    (rgbToHex (getComputedRGBColor (borderColor c)))
                                    (pxToPoints (borderWidth c)))
                       else None)
                      (rectRadiusOf c rect)
                      shadow)]
                st
            else st in
          Return (add_processed [uid d] (push_elements borderLines st))
        else Continue st
      else Continue st
  else Continue st.

Definition listBullets : list string := ["•"; "-"; "*"; "▪"; "▸"]%string.

Definition textBullets : list string :=
  ["•"; "-"; "*"; "▪"; "▸"; "○"; "●"; "◆"; "◇"; "■"; "□"]%string.

(** Removal of a leading manual bullet and the blanks after it. *)
Definition stripListBullet (text : string) : string :=
  match strip_one_of listBullets text with
  | Some rest => trimStart rest
  | None => text
  end.

(** A bullet glyph followed by a blank, at the start of the text. *)
Definition startsWithBullet (text : string) : bool :=
  match strip_one_of textBullets text with
  | Some rest => starts_with_space rest
  | None => false
  end.

(** The runs of the list items, in order; every item but the last ends in a
    line break. *)
Fixpoint listItems (liElements : list Located) (errors : list string)
  : list Run * list string :=
  match liElements with
  | [] => ([], errors)
  | li :: rest =>
      let isLast := is_nil rest in
      let '(runs, ps) :=
        parseInlineFormatting (node li) (set_breakLine false no_options) []
          (fun text => text) false errors in
      let runs :=
        update_first
          (fun r => mkRun (stripListBullet (run_text r)) (set_bullet 3 (run_options r)))
          runs in
      let runs :=
        if negb isLast then update_last (set_options (set_breakLine true)) runs
        else runs in
      let '(items, errors) := listItems rest (ps_errors ps) in
      ((runs ++ items)%list, errors)
  end.

Definition alignOf (c : Computed) : string :=
  if String.eqb (textAlign c) "start" then "left"%string else textAlign c.

Definition extractList (loc : Located) (d : ElemData) (st : ExtractState) : Flow :=
  if (String.eqb (tagName d) "UL" || String.eqb (tagName d) "OL")%bool then
    let rect := adjustRect (boundingClientRect d) in
    if (Qeq_bool (rect_width rect) 0 || Qeq_bool (rect_height rect) 0)%bool
    then Return st
    else
      let liElements := within ["LI"%string] loc in
      let ulComputed := computed d in
      let ulPaddingLeftPt := pxToPoints (paddingLeft ulComputed) in
      let marginLeft := ulPaddingLeftPt * (7 # 10) in
      let '(items, errors) := listItems liElements (st_errors st) in
      let st := set_errors errors st in
      let c :=
        match liElements with
        | li :: _ =>
            match node_computed (node li) with Some c => c | None => computed d end
        | [] => computed d
        end in
      let st :=
        push_elements
          [ListEl items (position_of rect)
             (mkStyle
                (Math_max (pxToPoints (fontSize c)) 6)
                (fontFaceOf (fontFamily c))
                (rgbToHex (getComputedRGBColor (color c)))
                (alignOf c)
                (match lineHeight c with
                 | Some lh => Some (pxToPoints lh)
                 | None => None
                 end)
                0
                (pxToPoints (marginBottom c))
                [marginLeft; 0; 0; 0]
                (extractAlpha (color c))
                None None None None)]
          st in
      Return (add_processed
                (flat_map (fun li => node_uid (node li)) liElements ++ [uid d])%list st)
  else Continue st.

(** *** Tables *)

Definition isVisibleColor (c : CssColor) : bool :=
  (negb (color_is_empty c) && negb (color_is_transparent_kw c)
   && negb (is_rgba_zero 0 0 0 c))%bool.

Definition cellPadding (c : Computed) : list Q :=
  [pxToPoints (paddingTop c); pxToPoints (paddingRight c);
   pxToPoints (paddingBottom c); pxToPoints (paddingLeft c)].

Definition cellFontSize (c : Computed) : Q :=
  Math_max (pxToPoints (fontSize c) * (85 # 100)) 6.

Definition tagIs (t : string) (l : Located) : bool := String.eqb (node_tag (node l)) t.

(** The ratios of the header cells' (or first row's cells') rendered widths
    to the table's width. *)
Definition columnWidths (headerRow : option Located) (dataRows : list Located)
    (tableWidth : Q) : list Q :=
  match headerRow with
  | Some hr =>
      map (fun th => node_width (node th) / tableWidth) (within ["TH"%string] hr)
  | None =>
      match dataRows with
      | first :: _ =>
          let firstRowCells := within ["TH"; "TD"]%string first in
          let thElements := filter (tagIs "TH") firstRowCells in
          if negb (is_nil thElements) then
            map (fun th => node_width (node th) / tableWidth) thElements
          else
            map (fun td => node_width (node td) / tableWidth)
                (within ["TD"%string] first)
      | [] => []
      end
  end.

Definition headerCell (theadComputed : option Computed) (rowComputed : Computed)
    (th : Located) : list Cell :=
  match node th with
  | TextNode _ => []
  | ElemNode d _ =>
      let c := computed d in
      let bgColorToUse :=
        if (isVisibleColor (backgroundColor c)
            && negb (is_rgba_zero 255 255 255 (backgroundColor c)))%bool
        then Some (backgroundColor c)
        else match theadComputed with
             | Some tc =>
                 if (isVisibleColor (backgroundColor tc)
                     && negb (is_rgba_zero 255 255 255 (backgroundColor tc)))%bool
                 then Some (backgroundColor tc)
                 else None
             | None => None
             end in
      let rowBgColor := backgroundColor rowComputed in
      let bgColorToUse :=
        match bgColorToUse with
        | Some _ => bgColorToUse
        | None =>
            if (isVisibleColor rowBgColor
                && negb (is_rgba_zero 255 255 255 rowBgColor))%bool
            then Some rowBgColor
            else None
        end in
      [mkCell (PlainText (trim (textContent (node th))))
         (mkCellOptions
            (isBold c && negb (shouldSkipBold (fontFamily c)))%bool
            (rgbToHex (getComputedRGBColor (color c)))
            (cellFontSize c)
            (fontFaceOf (fontFamily c))
            (cellPadding c)
            (option_map rgbToHex bgColorToUse))]
  end.

(** The keys of a run's options other than [fontSize] and [fontFace]. *)
Definition hasStyleKey (o : RunOptions) : bool :=
  (is_some (o_bold o) || is_some (o_italic o) || is_some (o_underline o)
   || is_some (o_color o) || is_some (o_transparency o)
   || is_some (o_breakLine o) || is_some (o_bullet o))%bool.

(** The state a table threads through its cells, or the exception that
    ended the extraction. *)
Inductive Cells :=
| CellsOk (cells : list Cell) (st : ExtractState)
| CellsThrow (exn : string).

Definition tdIsNotDefined : string := "ReferenceError: td is not defined".

(** One data cell.  A cell with inline markup whose parse yields no run
    reaches a branch that reads the unbound identifier [td]. *)
Definition dataCell (rowBgColor : CssColor) (cell : Located) (st : ExtractState)
  : Cells :=
  match node cell with
  | TextNode _ => CellsOk [] st
  | ElemNode d _ =>
      let c := computed d in
      let hasInlineFormatting :=
        negb (is_nil (within ["SPAN"; "B"; "STRONG"; "I"; "EM"; "U"]%string cell)) in
      let color := rgbToHex (getComputedRGBColor (color c)) in
      let fontSize := cellFontSize c in
      let fontFace := fontFaceOf (fontFamily c) in
      let fill :=
        if isVisibleColor (backgroundColor c) then Some (rgbToHex (backgroundColor c))
        else if isVisibleColor rowBgColor then Some (rgbToHex rowBgColor)
        else None in
      if hasInlineFormatting then
        let '(runs, ps) :=
          parseInlineFormatting (node cell)
            (mkRunOptions None None None (Some color) None (Some fontSize)
               (Some fontFace) None None)
            [] (fun str => str) false (st_errors st) in
        let st := set_errors (ps_errors ps) st in
        if (negb (is_nil runs) && existsb (fun r => hasStyleKey (run_options r)) runs)%bool
        then
          CellsOk
            [mkCell (RunList runs)
               (mkCellOptions false color fontSize fontFace (cellPadding c) fill)]
            st
        else CellsThrow tdIsNotDefined
      else
        let cellText := trim (textContent (node cell)) in
        let bold := (isBold c && negb (shouldSkipBold (fontFamily c)))%bool in
        let st := if nonempty cellText then add_processed [uid d] st else st in
        CellsOk
          [mkCell (PlainText cellText)
             (mkCellOptions bold color fontSize fontFace (cellPadding c) fill)]
          st
  end.

Fixpoint dataCells (rowBgColor : CssColor) (cells : list Located)
    (st : ExtractState) : Cells :=
  match cells with
  | [] => CellsOk [] st
  | cell :: rest =>
      match dataCell rowBgColor cell st with
      | CellsThrow exn => CellsThrow exn
      | CellsOk here st =>
          match dataCells rowBgColor rest st with
          | CellsThrow exn => CellsThrow exn
          | CellsOk there st => CellsOk (here ++ there)%list st
          end
      end
  end.

Inductive Rows :=
| RowsOk (rows : list (list Cell)) (st : ExtractState)
| RowsThrow (exn : string).

Definition rowCells (row : Located) : list Located :=
  let rowCells := within ["TH"; "TD"]%string row in
  let hasThElements := existsb (tagIs "TH") rowCells in
  if hasThElements then filter (tagIs "TH") rowCells
  else within ["TD"%string] row.

Fixpoint dataRowsData (dataRows : list Located) (st : ExtractState) : Rows :=
  match dataRows with
  | [] => RowsOk [] st
  | row :: rest =>
      let rowBgColor :=
        match node_computed (node row) with
        | Some rc => backgroundColor rc
        | None => ColorEmpty
        end in
      match dataCells rowBgColor (rowCells row) st with
      | CellsThrow exn => RowsThrow exn
      | CellsOk rowData st =>
          match dataRowsData rest st with
          | RowsThrow exn => RowsThrow exn
          | RowsOk more st => RowsOk (rowData :: more) st
          end
      end
  end.

Definition isHeadRow (l : Located) : bool :=
  string_in "THEAD"%string (ancestors l).

Definition extractTable (loc : Located) (d : ElemData) (st : ExtractState) : Flow :=
  if String.eqb (tagName d) "TABLE" then
    let rect := adjustRect (boundingClientRect d) in
    if (Qeq_bool (rect_width rect) 0 || Qeq_bool (rect_height rect) 0)%bool
    then Return st
    else
      let tableComputed := computed d in
      let rows := within ["TR"%string] loc in
      let dataRows :=
        filter (fun row => negb (match parentTag row with
                                 | Some t => String.eqb t "THEAD"
                                 | None => false
                                 end)) rows in
      let headerRow := hd_error (filter isHeadRow rows) in
      let colWidths := columnWidths headerRow dataRows (rect_width rect) in
      let '(headerData, st) :=
        match headerRow with
        | Some hr =>
            let headerCells := within ["TH"%string] hr in
            let theadComputed :=
              match hd_error (within ["THEAD"%string] loc) with
              | Some t => node_computed (node t)
              | None => None
              end in
            let rowComputed :=
              match node_computed (node hr) with
              | Some rc => rc
              | None => tableComputed
              end in
            ([flat_map (headerCell theadComputed rowComputed) headerCells],
             add_processed (flat_map (fun th => node_uid (node th)) headerCells) st)
        | None => ([], st)
        end in
      match dataRowsData dataRows st with
      | RowsThrow exn => Throw exn
      | RowsOk bodyData st =>
          let tableData := (headerData ++ bodyData)%list in
          let st := add_processed [uid d] st in
          let st :=
            push_elements
              [TableEl tableData colWidths (position_of rect)
                 (mkTableStyle
                    (pxToPoints (fontSize tableComputed))
                    (fontFaceOf (fontFamily tableComputed))
                    (rgbToHex (color tableComputed))
                    (extractAlpha (color tableComputed))
                    (rgbToHex (borderColor tableComputed))
                    (pxToPoints (borderWidth tableComputed)))]
              st in
          Return (add_processed
                    (flat_map
                       (fun tr =>
                          node_uid (node tr) ++
                          flat_map
                            (fun cell =>
                               node_uid (node cell) ++
                               flat_map (fun desc => node_uid (node desc))
                                        (descendants (ancestors cell) (node cell)))
                            (within ["TD"; "TH"]%string tr))
                       rows)%list
                    st)
      end
  else Continue st.

(** *** Text elements *)

Definition with_lineSpacing (v : option Q) (s : Style) : Style :=
  mkStyle (s_fontSize s) (s_fontFace s) (s_color s) (s_align s) v
    (s_paraSpaceBefore s) (s_paraSpaceAfter s) (s_margin s) (s_transparency s)
    (s_rotate s) (s_bold s) (s_italic s) (s_underline s).

Definition with_emphasis (bold italic underline : bool) (s : Style) : Style :=
  mkStyle (s_fontSize s) (s_fontFace s) (s_color s) (s_align s) (s_lineSpacing s)
    (s_paraSpaceBefore s) (s_paraSpaceAfter s) (s_margin s) (s_transparency s)
    (s_rotate s) (Some bold) (Some italic) (Some underline).

Definition baseStyleOf (c : Computed) (rotation : option Q) : Style :=
  mkStyle
    (Math_max (pxToPoints (fontSize c)) 6)
    (fontFaceOf (fontFamily c))
    (rgbToHex (getComputedRGBColor (color c)))
    (alignOf c)
    (pxToPoints_opt (lineHeight c))
    (pxToPoints (marginTop c))
    (pxToPoints (marginBottom c))
    [pxToPoints (paddingLeft c); pxToPoints (paddingRight c);
     pxToPoints (paddingBottom c); pxToPoints (paddingTop c)]
    (extractAlpha (color c))
    rotation
    None None None.

(** The line spacing of a paragraph with runs, scaled up to its largest
    run. *)
Definition scaledLineSpacing (baseStyle : Style) (runs : list Run) : option Q :=
  match s_lineSpacing baseStyle with
  | Some lineSpacing =>
      if truthy lineSpacing then
        let maxFontSize :=
          fold_left Math_max
            (map (fun r => or_else (o_fontSize (run_options r)) 0) runs)
            (s_fontSize baseStyle) in
        if Qlt_bool (s_fontSize baseStyle) maxFontSize then
          let lineHeightMultiplier := lineSpacing / s_fontSize baseStyle in
          Some (maxFontSize * lineHeightMultiplier)
        else Some lineSpacing
      else Some lineSpacing
  | None => None
  end.

Definition extractText (loc : Located) (d : ElemData) (st : ExtractState) : Flow :=
  let tag := tagName d in
  if negb (string_in tag textTags) then Return st
  else if ((String.eqb tag "SPAN" || String.eqb tag "CODE")
           && match parentTag loc with
              | Some parent => string_in parent textTags
              | None => false
              end)%bool
  then Return (add_processed [uid d] st)
  else if (String.eqb tag "P" && pptxSpanProcessed d)%bool
  then Return (add_processed [uid d] st)
  else
    let rect := adjustRect (boundingClientRect d) in
    let text := trim (textContent (node loc)) in
    if (Qeq_bool (rect_width rect) 0 || Qeq_bool (rect_height rect) 0
        || negb (nonempty text))%bool
    then Return st
    else if (negb (String.eqb tag "LI") && negb (String.eqb tag "SPAN")
             && startsWithBullet (trimStart text))%bool
    then
      Return (push_error
        ("Text element <" ++ toLowerCase tag ++ "> starts with bullet symbol " ++
         String (ascii_of_nat 34) "" ++ take 20 text ++ "..." ++
         String (ascii_of_nat 34) "" ++ ". " ++
         "Use <ul> or <ol> lists instead of manual bullet symbols.")%string
        st)
    else
      let c := computed d in
      let rotation := getRotation (transform c) (writingMode c) in
      let box := getPositionAndSize d rect rotation in
      let position := inInches box in
      let baseStyle := baseStyleOf c rotation in
      let hasFormatting :=
        negb (is_nil (within ["B"; "I"; "U"; "STRONG"; "EM"; "SPAN"; "BR"]%string loc)) in
      let isPreElement := (String.eqb tag "PRE" || String.eqb tag "CODE")%bool in
      let st :=
        if (hasFormatting && isPreElement)%bool then
          let hasBR := negb (is_nil (within ["BR"%string] loc)) in
          let '(content, st) :=
            if (hasBR && is_nil (within ["SPAN"%string] loc))%bool then
              (PlainText (trim (innerText d)), st)
            else
              let '(runs, ps) :=
                parseInlineFormatting (node loc) no_options [] (fun str => str)
                  true (st_errors st) in
              (RunList runs, set_errors (ps_errors ps) st) in
          let adjustedStyle :=
            if is_truthy_opt (s_lineSpacing baseStyle)
            then with_lineSpacing (Some (s_fontSize baseStyle * (5 # 4))) baseStyle
            else baseStyle in
          push_elements [TextEl (toLowerCase tag) content position adjustedStyle] st
        else if hasFormatting then
          let transformStr := textTransform c in
          let '(runs, ps) :=
            parseInlineFormatting (node loc) no_options []
              (fun str => applyTextTransform str transformStr) false (st_errors st) in
          let st := set_errors (ps_errors ps) st in
          let adjustedStyle :=
            with_lineSpacing (scaledLineSpacing baseStyle runs) baseStyle in
          push_elements
            [TextEl (toLowerCase tag) (RunList runs) position adjustedStyle] st
        else
          let transformedText :=
            if isPreElement then text else applyTextTransform text (textTransform c) in
          push_elements
            [TextEl (toLowerCase tag) (PlainText transformedText) position
               (with_emphasis
                  (isBold c && negb (shouldSkipBold (fontFamily c)))%bool
                  (String.eqb (fontStyle c) "italic")
                  (includes (textDecoration c) "underline")
                  baseStyle)]
            st in
      Return (add_processed [uid d] st).

(** The body of [document.querySelectorAll('*').forEach]. *)
Definition visit (loc : Located) (st : ExtractState) : Flow :=
  match node loc with
  | TextNode _ => Return st
  | ElemNode d kids =>
      if is_processed (uid d) st then Return st
      else
        and_then (checkTextTag d st) (fun st =>
        and_then (extractPlaceholder d st) (fun st =>
        and_then (extractImage d st) (fun st =>
        and_then (extractContainer d kids st) (fun st =>
        and_then (extractList loc d st) (fun st =>
        and_then (extractTable loc d st) (fun st =>
        extractText loc d st))))))
  end.

(** The loop over all elements: either the final collections or the
    exception that ended it. *)
Fixpoint visitAll (all : list Located) (st : ExtractState) : ExtractState + string :=
  match all with
  | [] => inl st
  | loc :: rest =>
      match visit loc st with
      | Return st | Continue st => visitAll rest st
      | Throw exn => inr exn
      end
  end.

End WithHost.

(** The rendered document as [extractSlideData] sees it, after the
    rewriting of styled spans: the root element, the computed style of
    [document.body], and the bounding rectangle of the first element matched
    by the slide-container selectors, if any. *)
Record Document := mkDocument {
  documentElement : Node;
  bodyStyle : Computed;
  slideContainer : option Rect
}.

Definition allElements (doc : Document) : list Located :=
  (match documentElement doc with
   | TextNode _ => []
   | ElemNode _ _ => [mkLocated [] (documentElement doc)]
   end ++ descendants [] (documentElement doc))%list.

Definition gradientError : string :=
  ("CSS gradients are not supported. Use Sharp to rasterize gradients as PNG images first, " ++
   "then reference with background-image: url('gradient.png')")%string.

Definition bodyBackground (c : Computed) : Background :=
  match backgroundImage c with
  | ImageLayers _ (Some url) => BackgroundImage url
  | _ => BackgroundColor (rgbToHex (backgroundColor c))
  end.

Definition containerOffsetOf (doc : Document) : Q * Q :=
  match slideContainer doc with
  | Some rect => (rect_left rect, rect_top rect)
  | None => (0, 0)
  end.

(** [extractSlideData(page)]: the value the evaluation resolves to, or the
    exception it rejects with. *)
Definition extractSlideData (host : Host) (doc : Document) : SlideData + string :=
  let bgImage := backgroundImage (bodyStyle doc) in
  let errors :=
    match bgImage with
    | ImageLayers true _ => [gradientError]
    | _ => []
    end in
  let background := bodyBackground (bodyStyle doc) in
  match visitAll host (containerOffsetOf doc) (allElements doc)
          (mkExtractState [] [] errors []) with
  | inl st =>
      inl (mkSlideData background (st_elements st) (st_placeholders st) (st_errors st))
  | inr exn => inr exn
  end.

End Page.

(** ** The Node.js half: validation, emission and [html2pptx] *)

Module Driver.

Definition PT_PER_PX : Q := 1 # 2.
Definition PX_PER_IN : Q := 96.
Definition EMU_PER_IN : Q := 914400.

Definition dq : string := String (ascii_of_nat 34) EmptyString.

(** What the in-page half of [getBodyDimensions] returns. *)
Record BodyMetrics := mkBodyMetrics {
  width : Q;
  height : Q;
  scrollWidth : Q;
  scrollHeight : Q;
  containerWidth : option Q;
  containerHeight : option Q
}.

Record BodyDimensions := mkBodyDimensions {
  metrics : BodyMetrics;
  bd_errors : list string
}.

Definition overflowMessage (overflowExcess heightOverflowTolerance : Q) : string :=
  ("HTML content overflows by " ++ toFixed overflowExcess 1 ++
   "pt vertically (exceeds " ++ toFixed heightOverflowTolerance 0 ++
   "pt padding tolerance)")%string.

Definition heightOverflowTolerance : Q := 100.

(** The vertical overflow in points, after one pixel of slack. *)
Definition heightOverflowPt (m : BodyMetrics) : Q :=
  let effectiveHeight := or_else (containerHeight m) (height m) in
  let heightOverflowPx := Math_max 0 (scrollHeight m - effectiveHeight - 1) in
  heightOverflowPx * PT_PER_PX.

Definition widthOverflowPt (m : BodyMetrics) : Q :=
  let effectiveWidth := or_else (containerWidth m) (width m) in
  let widthOverflowPx := Math_max 0 (scrollWidth m - effectiveWidth - 1) in
  widthOverflowPx * PT_PER_PX.

(** [getBodyDimensions], from the measured body on.  The horizontal
    overflow is computed and never looked at. *)
Definition getBodyDimensions (result : BodyMetrics) : BodyDimensions :=
  let widthOverflowPt := widthOverflowPt result in
  let heightOverflowPt := heightOverflowPt result in
  let errors :=
    if Qlt_bool heightOverflowTolerance heightOverflowPt then
      let overflowExcess := heightOverflowPt - heightOverflowTolerance in
      [overflowMessage overflowExcess heightOverflowTolerance]
    else [] in
  mkBodyDimensions result errors.

(** [pres.presLayout], in EMU. *)
Record Layout := mkLayout {
  layout_width : Q;
  layout_height : Q
}.

Definition validateDimensions (bodyDimensions : BodyDimensions)
    (presLayout : option Layout) : list string :=
  let m := metrics bodyDimensions in
  let widthInches := width m / PX_PER_IN in
  let heightInches := height m / PX_PER_IN in
  match presLayout with
  | Some layout =>
      let layoutWidth := layout_width layout / EMU_PER_IN in
      let layoutHeight := layout_height layout / EMU_PER_IN in
      let effectiveWidth :=
        if is_truthy_opt (containerWidth m)
        then or_else (containerWidth m) 0 / PX_PER_IN else widthInches in
      let effectiveHeight :=
        if is_truthy_opt (containerHeight m)
        then or_else (containerHeight m) 0 / PX_PER_IN else heightInches in
      let widthToCheck :=
        if Qlt_bool (Qabs (effectiveWidth - layoutWidth)) (Qabs (widthInches - layoutWidth))
        then effectiveWidth else widthInches in
      let heightToCheck :=
        if Qlt_bool (Qabs (effectiveHeight - layoutHeight))
                    (Qabs (heightInches - layoutHeight))
        then effectiveHeight else heightInches in
      if (Qlt_bool 1 (Qabs (layoutWidth - widthToCheck))
          || Qlt_bool 1 (Qabs (layoutHeight - heightToCheck)))%bool
      then
        [("HTML effective dimensions (" ++ toFixed widthToCheck 1 ++ dq ++ " × " ++
          toFixed heightToCheck 1 ++ dq ++ ") " ++
          "don't match presentation layout (" ++ toFixed layoutWidth 1 ++ dq ++ " × " ++
          toFixed layoutHeight 1 ++ dq ++ ")")%string]
      else []
  | None => []
  end.

Definition firstText (runs : list Run) : string :=
  match find (fun r => nonempty (run_text r)) runs with
  | Some r => run_text r
  | None => EmptyString
  end.

Definition bottomMarginError (getText : string) (distanceFromBottom : Q) : string :=
  let textPrefix :=
    (take 50 getText ++ (if Nat.ltb 50 (String.length getText) then "..." else ""))%string in
  ("Text box " ++ dq ++ textPrefix ++ dq ++ " ends too close to bottom edge " ++
   "(" ++ toFixed distanceFromBottom 2 ++ dq ++ " from bottom, minimum 0.5" ++ dq ++
   " required)")%string.

Definition validateTextBoxPosition (slideData : SlideData)
    (bodyDimensions : BodyDimensions) : list string :=
  let slideHeightInches := height (metrics bodyDimensions) / PX_PER_IN in
  let minBottomMargin := 1 # 2 in
  let check (position : Position) (style : Style) (getText : string) : list string :=
    let fontSize := s_fontSize style in
    let bottomEdge := pos_y position + pos_h position in
    let distanceFromBottom := slideHeightInches - bottomEdge in
    if (Qlt_bool 12 fontSize && Qlt_bool distanceFromBottom minBottomMargin)%bool
    then [bottomMarginError getText distanceFromBottom]
    else [] in
  flat_map
    (fun el =>
       match el with
       | TextEl type text position style =>
           if string_in type ["p"; "h1"; "h2"; "h3"; "h4"; "h5"; "h6"; "list"]%string
           then check position style
                  (match text with
                   | PlainText s => s
                   | RunList runs => firstText runs
                   end)
           else []
       | ListEl items position style => check position style (firstText items)
       | _ => []
       end)
    (elements slideData).

(** The table checks of [html2pptx]. *)
Definition tablePlace (position : Position) : string :=
  ("Table at position (" ++ toFixed (pos_x position) 2 ++ dq ++ ", " ++
   toFixed (pos_y position) 2 ++ dq ++ ")")%string.

Fixpoint rowErrors (expectedCols : nat) (rowIdx : nat) (data : list (list Cell))
  : list string :=
  match data with
  | [] => []
  | row :: rest =>
      ((if negb (Nat.eqb (length row) expectedCols) then
          [("Table has inconsistent column count: " ++ dq ++ "Header" ++ dq ++ " has " ++
            string_of_nat expectedCols ++ " columns " ++
            "but " ++ dq ++ "Row " ++ string_of_nat (rowIdx + 1) ++ dq ++ " has " ++
            string_of_nat (length row) ++ " columns.")%string]
        else []) ++ rowErrors expectedCols (S rowIdx) rest)%list
  end.

Definition tableErrors (el : Element) : list string :=
  match el with
  | TableEl data colWidths position _ =>
      ((if is_nil colWidths then
          [(tablePlace position ++ " has no column widths. " ++
            "Possible cause: table without <thead> and first row doesn't contain <td> elements. " ++
            "Add <thead> wrapper around header row or ensure data rows contain <td> elements.")%string]
        else []) ++
       (if is_nil data then [(tablePlace position ++ " has no data.")%string] else []) ++
       (if (negb (is_nil data) && negb (is_nil colWidths))%bool
        then rowErrors (length colWidths) 0 data
        else []))%list
  | _ => []
  end.

(** Everything [html2pptx] pushes on [validationErrors], in its order. *)
Definition validationErrors (bodyDimensions : BodyDimensions) (slideData : SlideData)
    (presLayout : option Layout) : list string :=
  (bd_errors bodyDimensions ++
   validateDimensions bodyDimensions presLayout ++
   validateTextBoxPosition slideData bodyDimensions ++
   errors slideData ++
   flat_map tableErrors (elements slideData))%list.

Fixpoint numbered (i : nat) (es : list string) : list string :=
  match es with
  | [] => []
  | e :: rest => ("  " ++ string_of_nat (i + 1) ++ ". " ++ e)%string :: numbered (S i) rest
  end.

(** The message of the error thrown for a non-empty list of findings. *)
Definition errorMessage (validationErrors : list string) : string :=
  match validationErrors with
  | [only] => only
  | _ =>
      ("Multiple validation errors found:" ++ newline ++
       String.concat newline (numbered 0 validationErrors))%string
  end.

(** *** The deck *)

Inductive ShapeType := ShapeRect | ShapeRoundRect | ShapeLine.

Record ImageOptions := mkImageOptions {
  img_path : string;
  img_x : Q; img_y : Q; img_w : Q; img_h : Q
}.

Record LineOptions := mkLineOptions {
  ln_x : Q; ln_y : Q; ln_w : Q; ln_h : Q;
  ln_line : LineStyle
}.

Record ShapeOptions := mkShapeOptions {
  sh_x : Q; sh_y : Q; sh_w : Q; sh_h : Q;
  sh_shape : ShapeType;
  sh_align : string;
  sh_valign : string;
  sh_fill : option (string * option Z);
  sh_line : option LineStyle;
  sh_rectRadius : option Q;
  sh_shadow : option Shadow
}.

Record ListOptions := mkListOptions {
  li_x : Q; li_y : Q; li_w : Q; li_h : Q;
  li_fontSize : Q;
  li_fontFace : string;
  li_color : string;
  li_align : string;
  li_valign : string;
  li_lineSpacing : option Q;
  li_paraSpaceBefore : Q;
  li_paraSpaceAfter : Q;
  li_margin : list Q
}.

Record TableOptions := mkTableOptions {
  tb_x : Q; tb_y : Q; tb_w : Q; tb_h : Q;
  tb_colW : list Q;
  tb_autoPage : bool;
  tb_align : string;
  tb_valign : string
}.

Record TextOptions := mkTextOptions {
  tx_x : Q; tx_y : Q; tx_w : Q; tx_h : Q;
  tx_fontSize : Q;
  tx_fontFace : string;
  tx_color : string;
  tx_bold : option bool;
  tx_italic : option bool;
  tx_underline : option bool;
  tx_valign : string;
  tx_lineSpacing : option Q;
  tx_paraSpaceBefore : Q;
  tx_paraSpaceAfter : Q;
  tx_inset : Q;
  tx_align : option string;
  tx_margin : option (list Q);
  tx_rotate : option Q;
  tx_transparency : option Z
}.

(** The slide a call acts on: the one the caller passed in [options.slide],
    or the one [pres.addSlide()] has just made. *)
Inductive Target := CallerSlide | AddedSlide.

(** One mutation of the deck object. *)
Inductive Call :=
| AddSlide
| SetBackgroundPath (on : Target) (path : string)
| SetBackgroundColor (on : Target) (color : string)
| AddImage (on : Target) (opts : ImageOptions)
| AddShape (on : Target) (shape : ShapeType) (opts : LineOptions)
| AddShapeText (on : Target) (text : string) (opts : ShapeOptions)
| AddListText (on : Target) (items : list Run) (opts : ListOptions)
| AddTable (on : Target) (tableData : list (list Cell)) (opts : TableOptions)
| AddText (on : Target) (text : TextContent) (opts : TextOptions).

(** The deck object, as the sequence of mutations it has received. *)
Definition Deck := list Call.

Definition stripFileScheme (p : string) : string :=
  if startsWith p "file://" then substring 7 (String.length p) p else p.

Section WithHost.

Variable host : Host.

Definition addBackground (slideData : SlideData) (targetSlide : Target) (deck : Deck)
  : Deck :=
  match background slideData with
  | BackgroundImage path =>
      if nonempty path then
        let imagePath := decodeURIComponent host (stripFileScheme path) in
        (deck ++ [SetBackgroundPath targetSlide imagePath])%list
      else deck
  | BackgroundColor value =>
      if nonempty value then (deck ++ [SetBackgroundColor targetSlide value])%list
      else deck
  end.

(** The text box of a plain or run-list text element: a box no higher
    than one and a half lines is taken to hold a single line and is made
    2% wider, on the side its alignment leaves free. *)
Definition textBox (position : Position) (style : Style) : Q * Q :=
  let lineHeight := or_else (s_lineSpacing style) (s_fontSize style * (12 # 10)) in
  let isSingleLine := Qle_bool (pos_h position) (lineHeight * (15 # 10)) in
  if isSingleLine then
    let widthIncrease := pos_w position * (2 # 100) in
    let align := s_align style in
    if String.eqb align "center" then
      (pos_x position - widthIncrease / 2, pos_w position + widthIncrease)
    else if String.eqb align "right" then
      (pos_x position - widthIncrease, pos_w position + widthIncrease)
    else
      (pos_x position, pos_w position + widthIncrease)
  else (pos_x position, pos_w position).

(** The call [addElements] makes for one element. *)
Definition addElement (targetSlide : Target) (el : Element) : Call :=
  match el with
  | ImageEl source position =>
      let imagePath := decodeURIComponent host (stripFileScheme source) in
      AddImage targetSlide
        (mkImageOptions imagePath (pos_x position) (pos_y position)
           (pos_w position) (pos_h position))
  | LineEl x1 y1 x2 y2 width color =>
      AddShape targetSlide ShapeLine
        (mkLineOptions x1 y1 (x2 - x1) (y2 - y1) (mkLineStyle color width))
  | ShapeEl position shape =>
      let rounded := Qlt_bool 0 (shape_rectRadius shape) in
      AddShapeText targetSlide ""
        (mkShapeOptions (pos_x position) (pos_y position) (pos_w position)
           (pos_h position)
           (if rounded then ShapeRoundRect else ShapeRect)
           "center" "middle"
           (match shape_fill shape with
            | Some fill =>
                if nonempty fill then Some (fill, shape_transparency shape) else None
            | None => None
            end)
           (shape_line shape)
           (if rounded then Some (shape_rectRadius shape) else None)
           (shape_shadow shape))
  | ListEl items position style =>
      AddListText targetSlide items
        (mkListOptions (pos_x position) (pos_y position) (pos_w position)
           (pos_h position)
           (s_fontSize style) (s_fontFace style) (s_color style) (s_align style)
           "top" (s_lineSpacing style) (s_paraSpaceBefore style)
           (s_paraSpaceAfter style) (s_margin style))
  | TableEl data colWidths position _ =>
      AddTable targetSlide data
        (mkTableOptions (pos_x position) (pos_y position) (pos_w position)
           (pos_h position)
           (map (fun w => pos_w position * w) colWidths)
           false "left" "middle")
  | TextEl _ text position style =>
      let '(adjustedX, adjustedW) := textBox position style in
      AddText targetSlide text
        (mkTextOptions adjustedX (pos_y position) adjustedW (pos_h position)
           (s_fontSize style) (s_fontFace style) (s_color style)
           (s_bold style) (s_italic style) (s_underline style)
           "top" (s_lineSpacing style) (s_paraSpaceBefore style)
           (s_paraSpaceAfter style) 0
           (if nonempty (s_align style) then Some (s_align style) else None)
           (Some (s_margin style))
           (s_rotate style)
           (s_transparency style))
  end.

Definition addElements (slideData : SlideData) (targetSlide : Target) (deck : Deck)
  : Deck :=
  (deck ++ map (addElement targetSlide) (elements slideData))%list.

(** *** [html2pptx] *)

(** What the browser session yields before validation starts: the measured
    body and the rendered document, or the exception of a launch or page
    load that failed. *)
Inductive Rendering :=
| Rendered (result : BodyMetrics) (doc : Page.Document)
| RenderFault (exn : string).

Record Options := mkOptions {
  slide : bool;       (* a slide was passed in [options.slide] *)
  checkMode : bool
}.

Record Returned := mkReturned {
  ret_slide : option Target;
  ret_placeholders : list Placeholder;
  ret_checkMode : bool
}.

Inductive Outcome :=
| Ok (value : Returned)
| Error (message : string).

(** The outer [catch]: every message is prefixed with the file name once. *)
Definition rethrow (htmlFile message : string) : Outcome :=
  if negb (startsWith message htmlFile)
  then Error (htmlFile ++ ": " ++ message)%string
  else Error message.

(** [html2pptx], after the browser has been closed. *)
Definition html2pptx (htmlFile : string) (presLayout : option Layout)
    (options : Options) (rendering : Rendering) (deck : Deck) : Outcome * Deck :=
  match rendering with
  | RenderFault exn => (rethrow htmlFile exn, deck)
  | Rendered result doc =>
      let bodyDimensions := getBodyDimensions result in
      match Page.extractSlideData host doc with
      | inr exn => (rethrow htmlFile exn, deck)
      | inl slideData =>
          let validationErrors :=
            validationErrors bodyDimensions slideData presLayout in
          if negb (is_nil validationErrors) then
            (rethrow htmlFile (errorMessage validationErrors), deck)
          else if checkMode options then
            (Ok (mkReturned None (placeholders slideData) true), deck)
          else
            let '(targetSlide, deck) :=
              if slide options then (CallerSlide, deck)
              else (AddedSlide, (deck ++ [AddSlide])%list) in
            let deck := addBackground slideData targetSlide deck in
            let deck := addElements slideData targetSlide deck in
            (Ok (mkReturned (Some targetSlide) (placeholders slideData) false), deck)
      end
  end.

End WithHost.

End Driver.

(** ** The command-line driver: [generate_pptx.js] *)

Module Generate.

(** [s.endsWith(suffix)]. *)
Definition endsWith (s suffix : string) : bool :=
  (Nat.leb (String.length suffix) (String.length s)
   && String.eqb
        (substring (String.length s - String.length suffix) (String.length suffix) s)
        suffix)%bool.

(** [!value] for a string or [null]: [null] and the empty string are
    falsy. *)
Definition is_unset (value : option string) : bool :=
  match value with
  | None => true
  | Some v => String.eqb v ""
  end.

Record Args := mkArgs {
  checkMode : bool;
  workDir : option string;
  singleFile : option string;
  outputFile : option string
}.

(** The body of the loop of [parseArgs]. *)
Definition parseArg (result : Args) (arg : string) : Args :=
  if (String.eqb arg "--check" || String.eqb arg "--dry-run")%bool then
    mkArgs true (workDir result) (singleFile result) (outputFile result)
  else if endsWith arg ".html" then
    mkArgs (checkMode result) (workDir result) (Some arg) (outputFile result)
  else if is_unset (workDir result) then
    mkArgs (checkMode result) (Some arg) (singleFile result) (outputFile result)
  else if is_unset (outputFile result) then
    mkArgs (checkMode result) (workDir result) (singleFile result) (Some arg)
  else result.

Definition parseArgs (args : list string) : Args :=
  fold_left parseArg args (mkArgs false None None None).

(** *** Slide files *)

Definition is_digit (c : ascii) : bool :=
  let n := nat_of_ascii c in (Nat.leb 48 n && Nat.leb n 57)%bool.

(** The ASCII line terminators, which [.] does not match. *)
Definition is_line_terminator (c : ascii) : bool :=
  let n := nat_of_ascii c in (Nat.eqb n 10 || Nat.eqb n 13)%bool.

Fixpoint no_line_terminator (s : string) : bool :=
  match s with
  | EmptyString => true
  | String c rest => (negb (is_line_terminator c) && no_line_terminator rest)%bool
  end.

(** What follows the digits in [FILE_PATTERN]: an underscore, any
    characters of one line, and [.html] at the very end. *)
Definition matchTail (s : string) : bool :=
  match s with
  | String c rest =>
      (Ascii.eqb c "_"%char
       && endsWith rest ".html"
       && no_line_terminator (take (String.length rest - 5) rest))%bool
  | EmptyString => false
  end.

(** [file.match(FILE_PATTERN)] for [/^(\d{2,3})_.*\.html$/]: the captured
    digits.  The quantifier first tries three digits, then two. *)
Definition matchFilePattern (file : string) : option string :=
  match file with
  | String a (String b rest) =>
      if (is_digit a && is_digit b)%bool then
        match rest with
        | String c after =>
            if (is_digit c && matchTail after)%bool
            then Some (String a (String b (String c EmptyString)))
            else if matchTail rest
                 then Some (String a (String b EmptyString))
                 else None
        | EmptyString => None
        end
      else None
  | _ => None
  end.

(** [parseInt(digits, 10)] on a string of decimal digits. *)
Fixpoint parseDigits (acc : nat) (digits : string) : nat :=
  match digits with
  | EmptyString => acc
  | String c rest => parseDigits (10 * acc + (nat_of_ascii c - 48)) rest
  end.

Record Slide := mkSlide {
  pageNum : nat;
  file : string;
  path : string
}.

(** [Array.prototype.sort] with the comparator [a.pageNum - b.pageNum]:
    a stable sort, here by insertion. *)
Fixpoint insertSlide (s : Slide) (sorted : list Slide) : list Slide :=
  match sorted with
  | [] => [s]
  | x :: rest =>
      if Nat.leb (pageNum s) (pageNum x) then s :: sorted
      else x :: insertSlide s rest
  end.

Definition sortSlides (slides : list Slide) : list Slide :=
  fold_right insertSlide [] slides.

(** The file system and the browser as [generatePPTX] meets them. *)
Record World := mkWorld {
  existsSync : string -> bool;
  readdirSync : string -> list string;
  path_join : string -> string -> string;
  render : string -> Driver.Rendering   (* what loading a file yields *)
}.

Section WithWorld.

Variable host : Host.
Variable world : World.

(** [pptx.presLayout] once [pptx.layout] is set, as the deck library
    defines it. *)
Variable presLayout : option Driver.Layout.

(** The slides of [collectSlides] before they are sorted: one per file of
    the directory whose name matches, in directory order. *)
Definition matchedSlides (workDir : string) : list Slide :=
  let files := readdirSync world workDir in
  flat_map
    (fun file =>
       match matchFilePattern file with
       | None => []
       | Some digits =>
           [mkSlide (parseDigits 0 digits) file (path_join world workDir file)]
       end)
    files.

Definition collectSlides (workDir : string) : list Slide :=
  sortSlides (matchedSlides workDir).

Record CheckError := mkCheckError {
  ce_slide : string;
  ce_error : string
}.

(** How [generatePPTX] ends: it returns ([null] in check mode, the output
    file name otherwise), throws, or exits the process. *)
Inductive Finished :=
| Returns (value : option string)
| Throws (message : string)
| Exits (code : nat).

Record Result := mkResult {
  finished : Finished;
  deck : Driver.Deck;                       (* the presentation object *)
  written : option (string * Driver.Deck);  (* [pptx.writeFile], if called *)
  checkErrors : list CheckError
}.

(** The conversion loop in generation mode: the deck after the slides, or
    the first failing file with its message. *)
Fixpoint convertAll (slides : list Slide) (deck : Driver.Deck)
  : Driver.Deck * option (string * string) :=
  match slides with
  | [] => (deck, None)
  | slide :: rest =>
      match Driver.html2pptx host (path slide) presLayout (Driver.mkOptions false false)
              (render world (path slide)) deck with
      | (Driver.Ok _, deck) => convertAll rest deck
      | (Driver.Error message, deck) => (deck, Some (file slide, message))
      end
  end.

(** The same loop in check mode: every slide is tried and the failures are
    collected. *)
Fixpoint checkAll (slides : list Slide) (deck : Driver.Deck)
  : Driver.Deck * list CheckError :=
  match slides with
  | [] => (deck, [])
  | slide :: rest =>
      match Driver.html2pptx host (path slide) presLayout (Driver.mkOptions false true)
              (render world (path slide)) deck with
      | (Driver.Ok _, deck) => checkAll rest deck
      | (Driver.Error message, deck) =>
          let '(deck, errors) := checkAll rest deck in
          (deck, mkCheckError (file slide) message :: errors)
      end
  end.

Definition generatePPTX (workDir outputFile : string) (checkMode : bool) : Result :=
  if negb (existsSync world workDir) then
    mkResult (Throws ("Work directory not found: " ++ workDir)%string) [] None []
  else
    let slides := collectSlides workDir in
    if is_nil slides then
      mkResult (Throws ("No slide files found in " ++ workDir ++
                     ". Files must match pattern: 01_*.html")%string) [] None []
    else if checkMode then
      let '(deck, checkErrors) := checkAll slides [] in
      if is_nil checkErrors then mkResult (Returns None) deck None []
      else mkResult (Exits 1) deck None checkErrors
    else
      match convertAll slides [] with
      | (deck, Some (failed, message)) =>
          mkResult (Throws ("Failed to convert " ++ failed ++ ": " ++ message)%string)
                deck None []
      | (deck, None) =>
          mkResult (Returns (Some outputFile)) deck (Some (outputFile, deck)) []
      end.

End WithWorld.

End Generate.

(** ** The specification's wording, and sample documents *)

(** The overflow as the specification words it: the scroll height minus
    the effective height, converted to points, with no slack. *)
Definition spec_heightOverflowPt (m : Driver.BodyMetrics) : Q :=
  (Driver.scrollHeight m - or_else (Driver.containerHeight m) (Driver.height m))
  * Driver.PT_PER_PX.

(** The two contributions to a rotation, before normalization: the one of
    the writing mode and the one of the transform. *)
Definition writingModeAngle (writingMode : string) : Q :=
  if String.eqb writingMode "vertical-rl" then 90
  else if String.eqb writingMode "vertical-lr" then 270
  else 0.

Definition transformAngle (host : Host) (transform : Transform) : Q :=
  match transform with
  | TransformRotate deg => deg
  | TransformMatrix a b => inject_Z (Math_round (atan2_degrees host b a))
  | _ => 0
  end.

(** The composite message as the specification words it: always a
    numbered list of the findings. *)
Definition spec_compositeMessage (findings : list string) : string :=
  ("Multiple validation errors found:" ++ newline ++
   String.concat newline (Driver.numbered 0 findings))%string.

(** The calls that prepare a slide, as opposed to those that add an
    element to it. *)
Definition is_setup_call (c : Driver.Call) : bool :=
  match c with
  | Driver.AddSlide | Driver.SetBackgroundPath _ _ | Driver.SetBackgroundColor _ _ => true
  | _ => false
  end.

Module Sample.

(** A body 200px high whose content scrolls over [scrolled] pixels. *)
Definition body_scrolling (scrolled : Q) : Driver.BodyMetrics :=
  Driver.mkBodyMetrics 960 200 960 scrolled None None.

(** A host whose canvas paints everything opaque black. *)
Definition host : Host :=
  mkHost (fun _ _ => 0) (fun v => v) (fun _ => (0, 0, 0, 255)%Z) (fun s => s).

(** Black 16px Arial on a transparent background, no box decoration; the
    parameters are the properties the samples vary. *)
Definition styled (background : CssColor) (fontSizePx : Q) (writingMode : string)
  : Computed :=
  mkComputed background ImageNone 0 0 0 0 0
    (ColorRgb 0 0 0) (ColorRgb 0 0 0) (ColorRgb 0 0 0) (ColorRgb 0 0 0)
    (ColorRgb 0 0 0) (0, UnitPx) ShadowNone 1 (ColorRgb 0 0 0) fontSizePx "Arial"
    (WeightNumber 400) "normal" "none" "start" "none" None
    0 0 0 0 0 0 0 0 TransformNone writingMode.

Definition plain : Computed := styled (ColorRgba 0 0 0 0) 16 "horizontal-tb".

Definition bold : Computed :=
  mkComputed (ColorRgba 0 0 0 0) ImageNone 0 0 0 0 0
    (ColorRgb 0 0 0) (ColorRgb 0 0 0) (ColorRgb 0 0 0) (ColorRgb 0 0 0)
    (ColorRgb 0 0 0) (0, UnitPx) ShadowNone 1 (ColorRgb 0 0 0) 16 "Arial"
    (WeightNumber 700) "normal" "none" "start" "none" None
    0 0 0 0 0 0 0 0 TransformNone "horizontal-tb".

Definition element (id : nat) (tag : string) (c : Computed) (box : Rect)
    (kids : list Node) : Node :=
  ElemNode
    (mkElemData id tag "" "" "" false "" c box (rect_width box) (rect_height box))
    kids.

Definition page : Rect := mkRect 0 0 960 540.

(** [<html><body> content </body></html>], with no slide container. *)
Definition document (content : list Node) : Page.Document :=
  Page.mkDocument
    (element 0 "HTML" plain page [element 1 "BODY" plain page content])
    plain None.

Definition tall_box : Rect := mkRect 100 40 20 200.

Definition paragraph : ElemData :=
  mkElemData 2 "P" "" "" "" false "" plain tall_box 20 200.

(** [<div style="background: rgba(255, 0, 0, 0.7)"></div>]. *)
Definition translucent_div : Page.Document :=
  document
    [element 2 "DIV" (styled (ColorRgba 255 0 0 (7 # 10)) 16 "horizontal-tb")
       (mkRect 10 10 100 50) []].

(** [<table style="font-size: 8px"><thead><tr><th>A</th></tr></thead>
    <tbody><tr><td>1</td></tr></tbody></table>]. *)
Definition small_print_table : Page.Document :=
  let c := styled (ColorRgba 0 0 0 0) 8 "horizontal-tb" in
  document
    [element 2 "TABLE" c (mkRect 10 10 200 60)
       [element 3 "THEAD" c (mkRect 10 10 200 30)
          [element 4 "TR" c (mkRect 10 10 200 30)
             [element 5 "TH" c (mkRect 10 10 200 30) [TextNode "A"]]];
        element 6 "TBODY" c (mkRect 10 40 200 30)
          [element 7 "TR" c (mkRect 10 40 200 30)
             [element 8 "TD" c (mkRect 10 40 200 30) [TextNode "1"]]]]].

(** [<p>a<span></span>b</p>]: two text nodes around an empty span. *)
Definition split_paragraph : Node :=
  element 2 "P" plain (mkRect 10 10 200 20)
    [TextNode "a"; element 3 "SPAN" plain (mkRect 20 10 0 20) []; TextNode "b"].

(** [<p>a<b>b </b>c</p>]: the bold text ends in a blank. *)
Definition bold_inside : Node :=
  element 2 "P" plain (mkRect 10 10 200 20)
    [TextNode "a";
     element 3 "B" bold (mkRect 20 10 20 20) [TextNode "b "];
     TextNode "c"].

(** A two-column table 200px wide whose cells are 97px wide each, as the
    default [border-spacing] of 2px lays them out. *)
Definition spaced_table : Page.Document :=
  document
    [element 2 "TABLE" plain (mkRect 10 10 200 64)
       [element 3 "THEAD" plain (mkRect 12 12 196 30)
          [element 4 "TR" plain (mkRect 12 12 196 30)
             [element 5 "TH" plain (mkRect 12 12 97 30) [TextNode "A"];
              element 6 "TH" plain (mkRect 111 12 97 30) [TextNode "B"]]];
        element 7 "TBODY" plain (mkRect 12 44 196 30)
          [element 8 "TR" plain (mkRect 12 44 196 30)
             [element 9 "TD" plain (mkRect 12 44 97 30) [TextNode "1"];
              element 10 "TD" plain (mkRect 111 44 97 30) [TextNode "2"]]]]].


(** A body of 960 by 540 pixels that does not scroll. *)
Definition fitting_body : Driver.BodyMetrics :=
  Driver.mkBodyMetrics 960 540 960 540 None None.

Definition fresh_slide : Driver.Options := Driver.mkOptions false false.

(** [<p>one <br> two</p>]. *)
Definition two_lines : Node :=
  element 2 "P" plain (mkRect 10 10 200 40)
    [TextNode "one "; element 3 "BR" plain (mkRect 0 0 0 0) []; TextNode " two"].




End Sample.

(** What a test reads off an extraction. *)
Definition extracted_elements (r : SlideData + string) : list Element :=
  match r with
  | inl slideData => elements slideData
  | inr _ => []
  end.

Definition text_runs (els : list Element) : list (list (string * RunOptions)) :=
  flat_map (fun el => match el with
                      | TextEl _ (RunList runs) _ _ =>
                          [map (fun r => (run_text r, run_options r)) runs]
                      | _ => []
                      end) els.

Fixpoint ends_with_space (s : string) : bool :=
  match s with
  | EmptyString => false
  | String c EmptyString => is_space c
  | String _ rest => ends_with_space rest
  end.

(** A text node or a [<br>]: the nodes the parser treats as text. *)
Definition is_text_like (n : Node) : bool :=
  match n with
  | TextNode _ => true
  | ElemNode d _ => String.eqb (tagName d) "BR"
  end.

(** The text a text-like node contributes to its run. *)
Definition fragment (textTransform : string -> string) (preserveSpaces : bool)
    (n : Node) : string :=
  match n with
  | TextNode data =>
      if (preserveSpaces && negb (includes data newline)
          && String.eqb (trim data) "")%bool
      then EmptyString
      else if preserveSpaces then textTransform data
           else textTransform (collapse_spaces data)
  | ElemNode _ _ => newline
  end.

(** The [runs] array while only text-like siblings have been seen: empty
    until the first fragment, one run from then on. *)
Definition merged (base : RunOptions) (acc : string) (started : bool) : list Run :=
  if started then [mkRun acc base] else [].

(** *** What the extraction maintains *)

(** A position whose left and top are not negative. *)
Definition anchored (p : Position) : Prop := 0 <= pos_x p /\ 0 <= pos_y p.

(** A cell whose font size respects the 6pt floor. *)
Definition floored_cell (c : Cell) : Prop := 6 <= c_fontSize (cell_options c).

(** Column-width ratios that are rendered cell widths over one non-zero
    table width. *)
Definition ratios_of_widths (colWidths : list Q) : Prop :=
  exists (widths : list Q) (tableWidth : Q),
    ~ tableWidth == 0
    /\ colWidths = map (fun w => w / tableWidth) widths.

Definition total (l : list Q) : Q := fold_right Qplus 0 l.

(** The properties every stage of the element loop maintains on what it
    pushes: positions taken from [adjustRect] are anchored (a text
    element's only when it is not rotated), the font sizes of text blocks,
    list blocks and table cells are floored, and the column-width ratios
    of a table are cell widths over the table's width. *)
Definition well_formed (el : Element) : Prop :=
  match el with
  | ImageEl _ position => anchored position
  | LineEl _ _ _ _ _ _ => True
  | ShapeEl position _ => anchored position
  | ListEl _ position style => anchored position /\ 6 <= s_fontSize style
  | TableEl data colWidths position _ =>
      anchored position /\ Forall (Forall floored_cell) data
      /\ ratios_of_widths colWidths
  | TextEl _ _ position style =>
      (s_rotate style = None -> anchored position) /\ 6 <= s_fontSize style
  end.

Definition anchored_placeholder (p : Placeholder) : Prop :=
  0 <= ph_x p /\ 0 <= ph_y p.

(** The invariant of the element loop. *)
Definition sound (st : Page.ExtractState) : Prop :=
  Forall well_formed (Page.st_elements st)
  /\ Forall anchored_placeholder (Page.st_placeholders st).

Definition flow_sound (f : Page.Flow) : Prop :=
  match f with
  | Page.Return st | Page.Continue st => sound st
  | Page.Throw _ => True
  end.

(** A stage that left [elements] and [placeholders] alone. *)
Definition same_output (st st' : Page.ExtractState) : Prop :=
  Page.st_elements st' = Page.st_elements st
  /\ Page.st_placeholders st' = Page.st_placeholders st.

Definition floored_element (el : Element) : Prop :=
  match el with
  | ListEl _ _ style | TextEl _ _ _ style => 6 <= s_fontSize style
  | TableEl data _ _ _ => Forall (Forall floored_cell) data
  | _ => True
  end.


Definition join (l : list string) : string :=
  fold_right String.append EmptyString l.

Definition column_ratio_sums (els : list Element) : list Q :=
  flat_map (fun el => match el with
                      | TableEl _ colWidths _ _ => [total colWidths]
                      | _ => []
                      end) els.

Definition shape_transparencies (els : list Element) : list (option Z) :=
  flat_map (fun el => match el with
                      | ShapeEl _ shape => [shape_transparency shape]
                      | _ => []
                      end) els.

Definition table_fontSizes (els : list Element) : list Q :=
  flat_map (fun el => match el with
                      | TableEl _ _ _ style => [t_fontSize style]
                      | _ => []
                      end) els.

Definition cell_fontSizes (els : list Element) : list Q :=
  flat_map (fun el => match el with
                      | TableEl data _ _ _ =>
                          map (fun c => c_fontSize (cell_options c)) (concat data)
                      | _ => []
                      end) els.

(** *** Vocabulary of the properties of the driver and of the batch *)

(** The arguments with check mode switched on. *)
Definition with_check (r : Generate.Args) : Generate.Args :=
  Generate.mkArgs true (Generate.workDir r) (Generate.singleFile r)
    (Generate.outputFile r).

Definition is_check_flag (arg : string) : bool :=
  (String.eqb arg "--check" || String.eqb arg "--dry-run")%bool.

Definition by_page (a b : Generate.Slide) : Prop :=
  (Generate.pageNum a <= Generate.pageNum b)%nat.

Definition on_page (n : nat) (s : Generate.Slide) : bool :=
  Nat.eqb (Generate.pageNum s) n.

Definition is_add_slide (c : Driver.Call) : bool :=
  match c with Driver.AddSlide => true | _ => false end.

(** How many slides a deck has been asked to create. *)
Definition slides_added (deck : Driver.Deck) : nat :=
  length (filter is_add_slide deck).

(** What converting one slide file alone yields. *)
Definition outcome_of (host : Host) (world : Generate.World)
    (presLayout : option Driver.Layout) (checkMode : bool) (s : Generate.Slide)
  : Driver.Outcome :=
  fst (Driver.html2pptx host (Generate.path s) presLayout
         (Driver.mkOptions false checkMode)
         (Generate.render world (Generate.path s)) []).

Definition passes (host : Host) (world : Generate.World)
    (presLayout : option Driver.Layout) (checkMode : bool) (s : Generate.Slide)
  : bool :=
  match outcome_of host world presLayout checkMode s with
  | Driver.Ok _ => true
  | Driver.Error _ => false
  end.

Definition failure_of (host : Host) (world : Generate.World)
    (presLayout : option Driver.Layout) (s : Generate.Slide)
  : list Generate.CheckError :=
  match outcome_of host world presLayout true s with
  | Driver.Ok _ => []
  | Driver.Error message => [Generate.mkCheckError (Generate.file s) message]
  end.

(** A work directory of two slide files and a stray one; the second page
    scrolls too far when [overflowing] is set. *)
Definition sample_world (overflowing : bool) : Generate.World :=
  Generate.mkWorld
    (fun _ => true)
    (fun _ => ["02_b.html"; "notes.txt"; "01_a.html"]%string)
    (fun dir file => (dir ++ "/" ++ file)%string)
    (fun path =>
       if (overflowing && String.eqb path "deck/02_b.html")%bool
       then Driver.Rendered (Sample.body_scrolling 501) (Sample.document [])
       else Driver.Rendered Sample.fitting_body (Sample.document [])).

(** The slide a call acts on; [pres.addSlide()] acts on the deck. *)
Definition call_target (c : Driver.Call) : option Driver.Target :=
  match c with
  | Driver.AddSlide => None
  | Driver.SetBackgroundPath on _ | Driver.SetBackgroundColor on _
  | Driver.AddImage on _ | Driver.AddShape on _ _ | Driver.AddShapeText on _ _
  | Driver.AddListText on _ _ | Driver.AddTable on _ _ | Driver.AddText on _ _ =>
      Some on
  end.

(** How far, in inches, a measure of the body is from the layout's: the
    distance of the container's measure when there is one and it is
    closer, else the distance of the body's own. *)
Definition inches_off (body : Q) (container : option Q) (layoutEmu : Q) : Q :=
  let target := layoutEmu / Driver.EMU_PER_IN in
  let own := Qabs (body / Driver.PX_PER_IN - target) in
  if is_truthy_opt container
  then Qmin (Qabs (or_else container 0 / Driver.PX_PER_IN - target)) own
  else own.

(** The cells whose rendered widths give a table its column widths: the
    header row's [th], else the first data row's [th], else its [td]. *)
Definition columnCells (table : Located) : list Located :=
  let rows := Page.within ["TR"%string] table in
  let dataRows :=
    filter (fun row => negb (match parentTag row with
                             | Some t => String.eqb t "THEAD"
                             | None => false
                             end)) rows in
  match hd_error (filter Page.isHeadRow rows) with
  | Some hr => Page.within ["TH"%string] hr
  | None =>
      match dataRows with
      | first :: _ =>
          let thElements :=
            filter (Page.tagIs "TH") (Page.within ["TH"; "TD"]%string first) in
          if negb (is_nil thElements) then thElements
          else Page.within ["TD"%string] first
      | [] => []
      end
  end.

(** The options of a run: a property of each run of a list. *)
Definition each_run (P : RunOptions -> Prop) (runs : list Run) : Prop :=
  Forall (fun r => P (run_options r)) runs.

(** The runs of one list item: the first carries the bullet, and the last
    ends the line exactly when another item follows. *)
Definition item_runs (isLast : bool) (group : list Run) : Prop :=
  (group = []
   \/ exists front last,
        group = (front ++ [last])%list
        /\ each_run (fun o => o_breakLine o = Some false) front
        /\ o_breakLine (run_options last) = Some (negb isLast))
  /\ (group = []
      \/ exists first others,
           group = first :: others
           /\ o_bullet (run_options first) = Some 3
           /\ each_run (fun o => o_bullet o = None) others).

(** The runs of the items of a list, item by item. *)
Fixpoint list_runs (groups : list (list Run)) : Prop :=
  match groups with
  | [] => True
  | group :: rest => item_runs (is_nil rest) group /\ list_runs rest
  end.

(** [<table><tbody><tr><td><span> </span></td></tr></tbody></table>]: a
    data cell whose inline markup holds no text. *)
Definition blank_markup_cell : Located :=
  mkLocated ["TR"; "TBODY"; "TABLE"; "BODY"; "HTML"]%string
    (Sample.element 5 "TD" Sample.plain (mkRect 10 10 200 30)
       [Sample.element 6 "SPAN" Sample.plain (mkRect 10 10 0 0) [TextNode " "]]).

Definition blank_markup_table : Page.Document :=
  Sample.document
    [Sample.element 2 "TABLE" Sample.plain (mkRect 10 10 200 30)
       [Sample.element 3 "TBODY" Sample.plain (mkRect 10 10 200 30)
          [Sample.element 4 "TR" Sample.plain (mkRect 10 10 200 30)
             [node blank_markup_cell]]]].

(** A colour whose channels, if it has any, are within a byte. *)
Definition byte_channels (c : CssColor) : Prop :=
  match c with
  | ColorRgb r g b | ColorRgba r g b _ =>
      (0 <= r <= 255 /\ 0 <= g <= 255 /\ 0 <= b <= 255)%Z
  | _ => True
  end.

(** The collections of [st'] extend those of [st]: what was collected is
    still there, in place, and what was processed still is. *)
Definition extends (st st' : Page.ExtractState) : Prop :=
  (exists els, Page.st_elements st' = (Page.st_elements st ++ els)%list)
  /\ (exists ps, Page.st_placeholders st' = (Page.st_placeholders st ++ ps)%list)
  /\ (exists es, Page.st_errors st' = (Page.st_errors st ++ es)%list)
  /\ incl (Page.st_processed st) (Page.st_processed st').

Definition flow_extends (st : Page.ExtractState) (f : Page.Flow) : Prop :=
  match f with
  | Page.Return st' | Page.Continue st' => extends st st'
  | Page.Throw _ => True
  end.

(** [<div class="placeholder" id="chart">] with a background, 300 by 200
    pixels. *)
Definition chart_placeholder : Located :=
  mkLocated ["BODY"; "HTML"]%string
    (ElemNode
       (mkElemData 2 "DIV" "chart placeholder" "chart" "" false ""
          (Sample.styled (ColorRgb 200 200 200) 16 "horizontal-tb")
          (mkRect 30 40 300 200) 300 200)
       []).

(** The second item of the list below, as the document locates it. *)
Definition second_item : Located :=
  mkLocated ["UL"; "BODY"; "HTML"]%string
    (Sample.element 4 "LI" Sample.plain (mkRect 10 40 200 30) [TextNode "two"]).

(** [<ul><li>one</li><li>two</li></ul>]. *)
Definition two_item_list : Located :=
  mkLocated ["BODY"; "HTML"]%string
    (Sample.element 2 "UL" Sample.plain (mkRect 10 10 200 60)
       [Sample.element 3 "LI" Sample.plain (mkRect 10 10 200 30) [TextNode "one"];
        Sample.element 4 "LI" Sample.plain (mkRect 10 40 200 30) [TextNode "two"]]).

(** A table of one header row with a 120px and an 80px column. *)
Definition two_column_table : Located :=
  mkLocated ["BODY"; "HTML"]%string
    (Sample.element 2 "TABLE" Sample.plain (mkRect 10 10 200 30)
       [Sample.element 3 "THEAD" Sample.plain (mkRect 10 10 200 30)
          [Sample.element 4 "TR" Sample.plain (mkRect 10 10 200 30)
             [Sample.element 5 "TH" Sample.plain (mkRect 10 10 120 30) [TextNode "A"];
              Sample.element 6 "TH" Sample.plain (mkRect 130 10 80 30) [TextNode "B"]]]]).





(** What an argument of the command line is taken for. *)
Definition is_html_name (arg : string) : bool := Generate.endsWith arg ".html".

Definition is_positional (arg : string) : bool :=
  (negb (is_check_flag arg) && negb (is_html_name arg))%bool.

(** A body painted with a gradient over a picture. *)
Definition gradient_body : Page.Document :=
  Page.mkDocument (Page.documentElement (Sample.document []))
    (mkComputed (ColorRgb 255 255 255) (ImageLayers true (Some "bg.png"%string))
       0 0 0 0 0
       (ColorRgb 0 0 0) (ColorRgb 0 0 0) (ColorRgb 0 0 0) (ColorRgb 0 0 0)
       (ColorRgb 0 0 0) (0, UnitPx) ShadowNone 1 (ColorRgb 0 0 0) 16 "Arial"
       (WeightNumber 400) "normal" "none" "start" "none" None
       0 0 0 0 0 0 0 0 TransformNone "horizontal-tb")
    None.

(** Whether the parser takes a text-like node into a run: a line break
    always, a text node unless spaces are preserved and it is blank
    without a line feed. *)
Definition contributes (preserveSpaces : bool) (n : Node) : bool :=
  match n with
  | TextNode data =>
      negb (preserveSpaces && negb (includes data newline)
            && String.eqb (trim data) "")%bool
  | ElemNode _ _ => true
  end.

(** [<p> <b> x</b></p>]: a blank, then bold text that starts with one. *)
Definition blank_before_bold : Node :=
  Sample.element 2 "P" Sample.plain (mkRect 10 10 200 20)
    [TextNode " ";
     Sample.element 3 "B" Sample.bold (mkRect 20 10 20 20) [TextNode " x"]].

(** *** Where an extracted block was read *)


(** [el] is what the element loop makes of the geometry of the element
    [d] found at [loc]. *)
Definition read_from (host : Host) (offset : Q * Q) (loc : Located) (d : ElemData)
    (el : Element) : Prop :=
  let rect := Page.adjustRect offset (boundingClientRect d) in
  match el with
  | ImageEl _ position | ShapeEl position _ | ListEl _ position _ =>
      position = Page.position_of rect
  | LineEl _ _ _ _ _ _ => In el (Page.borderLinesOf (computed d) rect)
  | TableEl _ colWidths position _ =>
      tagName d = "TABLE"%string
      /\ position = Page.position_of rect
      /\ ~ rect_width (boundingClientRect d) == 0
      /\ colWidths
         = map (fun cell =>
                  Page.node_width (node cell) / rect_width (boundingClientRect d))
               (columnCells loc)
  | TextEl _ _ position style =>
      s_rotate style
      = Page.getRotation host (transform (computed d)) (writingMode (computed d))
      /\ position = Page.inInches (Page.getPositionAndSize d rect (s_rotate style))
  end.

Definition extracted_from (host : Host) (offset : Q * Q) (all : list Located)
    (el : Element) : Prop :=
  exists loc d kids,
    In loc all /\ node loc = ElemNode d kids /\ read_from host offset loc d el.

Definition placeholder_from (offset : Q * Q) (all : list Located) (p : Placeholder)
  : Prop :=
  exists loc d kids,
    In loc all /\ node loc = ElemNode d kids
    /\ mkPosition (ph_x p) (ph_y p) (ph_w p) (ph_h p)
       = Page.position_of (Page.adjustRect offset (boundingClientRect d)).

(** The invariant of the element loop over the elements [all]: whatever
    has been pushed was read from one of them. *)
Definition traced (host : Host) (offset : Q * Q) (all : list Located)
    (st : Page.ExtractState) : Prop :=
  Forall (extracted_from host offset all) (Page.st_elements st)
  /\ Forall (placeholder_from offset all) (Page.st_placeholders st).

Definition flow_traced (host : Host) (offset : Q * Q) (all : list Located)
    (f : Page.Flow) : Prop :=
  match f with
  | Page.Return st | Page.Continue st => traced host offset all st
  | Page.Throw _ => True
  end.

Definition is_line (el : Element) : Prop :=
  match el with
  | LineEl _ _ _ _ _ _ => True
  | _ => False
  end.


(** A vertical paragraph 20px wide and 200px high that starts 10px to
    the left of a slide container placed at x = 50. *)
Definition clipped_vertical : Page.Document :=
  Page.mkDocument
    (Sample.element 0 "HTML" Sample.plain Sample.page
       [Sample.element 1 "BODY" Sample.plain Sample.page
          [Sample.element 2 "P" (Sample.styled (ColorRgba 0 0 0 0) 16 "vertical-rl")
             (mkRect 40 100 20 200) [TextNode "Vertical"]]])
    Sample.plain (Some (mkRect 50 0 860 540)).

(** The same paragraph 60px further right, inside the container. *)
Definition inner_vertical : Page.Document :=
  Page.mkDocument
    (Sample.element 0 "HTML" Sample.plain Sample.page
       [Sample.element 1 "BODY" Sample.plain Sample.page
          [Sample.element 2 "P" (Sample.styled (ColorRgba 0 0 0 0) 16 "vertical-rl")
             (mkRect 100 100 20 200) [TextNode "Vertical"]]])
    Sample.plain (Some (mkRect 50 0 860 540)).

(** A string of decimal digits. *)
Fixpoint all_digits (s : string) : bool :=
  match s with
  | EmptyString => true
  | String c rest => (Generate.is_digit c && all_digits rest)%bool
  end.

(** The runs the parser returns for one list item. *)
Definition item_parse (host : Host) (li : Located) : list Run :=
  fst (Page.parseInlineFormatting host (node li) (set_breakLine false no_options) []
         (fun text => text) false []).

(** A run without the two keys the list branch sets: [breakLine] and
    [bullet]. *)
Definition unmarked (r : Run) : Run :=
  let o := run_options r in
  mkRun (run_text r)
    (mkRunOptions (o_bold o) (o_italic o) (o_underline o) (o_color o)
       (o_transparency o) (o_fontSize o) (o_fontFace o) None None).

(** * Properties *)

(** ** Arithmetic of the embedded primitives *)

Lemma Qlt_bool_iff a b : Qlt_bool a b = true <-> a < b.
Proof.
  unfold Qlt_bool. rewrite negb_true_iff. split; intro H.
  - destruct (Qlt_le_dec a b) as [L|L]; [exact L|].
    apply Qle_bool_iff in L. congruence.
  - destruct (Qle_bool b a) eqn:E; [|reflexivity].
    apply Qle_bool_iff in E. lra.
Qed.

Lemma Qlt_bool_false a b : Qlt_bool a b = false <-> b <= a.
Proof.
  unfold Qlt_bool. rewrite negb_false_iff. apply Qle_bool_iff.
Qed.


Lemma Qeq_bool_false a b : Qeq_bool a b = false <-> ~ a == b.
Proof.
  split.
  - apply Qeq_bool_neq.
  - intro H. destruct (Qeq_bool a b) eqn:E; [|reflexivity].
    apply Qeq_bool_iff in E. contradiction.
Qed.

(** Truncation agrees with the floor on non-negative numbers and mirrors
    it on negative ones. *)
Lemma Qtrunc_nonneg v :
  0 <= v -> inject_Z (Qtrunc v) <= v /\ v < inject_Z (Qtrunc v) + 1.
Proof.
  intro H.
  assert (E : Qtrunc v = Qfloor v).
  { destruct v as [n d]. unfold Qtrunc, Qle in *. simpl in *.
    apply Z.quot_div_nonneg; lia. }
  rewrite E. split; [apply Qfloor_le|].
  pose proof (Qlt_floor v) as L. rewrite inject_Z_plus in L. exact L.
Qed.

Lemma Qtrunc_nonpos v :
  v <= 0 -> v <= inject_Z (Qtrunc v) /\ inject_Z (Qtrunc v) - 1 < v.
Proof.
  intro H.
  assert (E : Qtrunc v = (- Qtrunc (- v))%Z).
  { unfold Qtrunc. simpl. rewrite Z.quot_opp_l by lia. lia. }
  destruct (Qtrunc_nonneg (- v)) as [A B]; [lra|].
  rewrite E, inject_Z_opp. split; lra.
Qed.

(** The remainder by 360 keeps the sign of the dividend and is smaller
    than 360 in magnitude. *)
Lemma js_rem_360 v :
  (0 <= v -> 0 <= js_rem v 360 /\ js_rem v 360 < 360) /\
  (v <= 0 -> -360 < js_rem v 360 /\ js_rem v 360 <= 0).
Proof.
  unfold js_rem.
  assert (E : v == 360 * (v / 360)) by field.
  split; intro H.
  - destruct (Qtrunc_nonneg (v / 360)) as [A B]; [|lra].
    apply Qle_shift_div_l; lra.
  - destruct (Qtrunc_nonpos (v / 360)) as [A B]; [|lra].
    apply Qle_shift_div_r; lra.
Qed.

(** ** Overflow (getBodyDimensions) *)

Lemma getBodyDimensions_errors m :
  Driver.bd_errors (Driver.getBodyDimensions m) =
  if Qlt_bool 100 (Driver.heightOverflowPt m)
  then [Driver.overflowMessage (Driver.heightOverflowPt m - 100) 100]
  else [].
Proof. reflexivity. Qed.

(** C3, as stated, fails: a body whose scroll height exceeds its height by
    201px, that is by 100.5pt, raises no finding, and one that exceeds it by
    300px, that is by 150pt, reports an excess of 49.5pt, not 50pt. *)
Lemma C3_overflow_counterexample :
  (100 < spec_heightOverflowPt (Sample.body_scrolling 401)
   /\ Driver.bd_errors (Driver.getBodyDimensions (Sample.body_scrolling 401)) = [])
  /\ (spec_heightOverflowPt (Sample.body_scrolling 500) == 150
      /\ Driver.bd_errors (Driver.getBodyDimensions (Sample.body_scrolling 500)) =
         ["HTML content overflows by 49.5pt vertically (exceeds 100pt padding tolerance)"%string]).
Proof.
  repeat split; try reflexivity.
Qed.

(** C3 (amended): the vertical overflow is measured after one pixel of
    slack, [max(0, scrollHeight - effectiveHeight - 1)] pixels at 0.5pt per
    pixel.  A finding is produced exactly when that overflow exceeds 100pt,
    and it reports the overflow minus 100pt; an overflow of 150pt reports
    50.0pt and one of 90pt reports nothing.  The finding does not depend on
    any horizontal measure. *)
Theorem C3_overflow_finding :
  forall m : Driver.BodyMetrics,
    let overflow := Driver.heightOverflowPt m in
    overflow ==
      Qmax 0 (Driver.scrollHeight m
              - or_else (Driver.containerHeight m) (Driver.height m) - 1) * (1 # 2)
    /\ (100 < overflow <-> Driver.bd_errors (Driver.getBodyDimensions m) <> [])
    /\ (100 < overflow ->
        Driver.bd_errors (Driver.getBodyDimensions m) =
        [Driver.overflowMessage (overflow - 100) 100])
    /\ Driver.bd_errors (Driver.getBodyDimensions (Sample.body_scrolling 501)) =
       ["HTML content overflows by 50.0pt vertically (exceeds 100pt padding tolerance)"%string]
    /\ Driver.bd_errors (Driver.getBodyDimensions (Sample.body_scrolling 381)) = []
    /\ (forall w sw cw w' sw' cw',
          Driver.bd_errors
            (Driver.getBodyDimensions
               (Driver.mkBodyMetrics w (Driver.height m) sw (Driver.scrollHeight m)
                  cw (Driver.containerHeight m))) =
          Driver.bd_errors
            (Driver.getBodyDimensions
               (Driver.mkBodyMetrics w' (Driver.height m) sw' (Driver.scrollHeight m)
                  cw' (Driver.containerHeight m)))).
Proof.
  intros m overflow. subst overflow.
  split; [reflexivity|].
  rewrite getBodyDimensions_errors.
  destruct (Qlt_bool 100 (Driver.heightOverflowPt m)) eqn:E.
  - apply Qlt_bool_iff in E.
    repeat split; intros; try reflexivity; try assumption; try discriminate.
  - apply Qlt_bool_false in E.
    repeat split; intros; try reflexivity; try congruence; try lra.
Qed.

Lemma C3_overflow_finding_witness :
  Driver.bd_errors (Driver.getBodyDimensions (Sample.body_scrolling 501)) =
  [Driver.overflowMessage
     (Driver.heightOverflowPt (Sample.body_scrolling 501) - 100) 100].
Proof.
  destruct (C3_overflow_finding (Sample.body_scrolling 501))
    as [_ [_ [Reported _]]].
  apply Reported. vm_compute. reflexivity.
Defined.

(** ** Rotation (getRotation, getPositionAndSize) *)

Lemma normalized_angle_range v :
  let r := js_rem v 360 in
  let a := if Qlt_bool r 0 then r + 360 else r in
  0 <= a /\ a < 360.
Proof.
  cbv zeta.
  destruct (js_rem_360 v) as [P N].
  destruct (Qlt_bool (js_rem v 360) 0) eqn:E.
  - apply Qlt_bool_iff in E.
    destruct (Qlt_le_dec v 0) as [L|L].
    + destruct N as [A B]; [lra|]. lra.
    + destruct P as [A B]; [lra|]. lra.
  - apply Qlt_bool_false in E.
    destruct (Qlt_le_dec v 0) as [L|L].
    + destruct N as [A B]; [lra|]. lra.
    + destruct P as [A B]; [lra|]. lra.
Qed.

(** C4: the rotation is the sum of the writing mode's and the transform's
    contributions brought into [0, 360) by adding a whole number of turns;
    when that normalized angle is exactly 0 the rotation is [null], and
    otherwise it is the angle, so a reported rotation is strictly between 0
    and 360.  [vertical-rl] alone gives 90, [vertical-lr] alone gives 270,
    and [vertical-rl] with [rotate(10deg)] gives 100. *)
Theorem C4_rotation_normalized :
  (forall (host : Host) (transform : Transform) (writingMode : string),
      exists turns : Z,
        let angle :=
          writingModeAngle writingMode + transformAngle host transform
          + 360 * inject_Z turns in
        0 <= angle /\ angle < 360
        /\ (angle == 0 -> Page.getRotation host transform writingMode = None)
        /\ (~ angle == 0 ->
            exists reported,
              Page.getRotation host transform writingMode = Some reported
              /\ reported == angle))
  /\ (forall (host : Host) (transform : Transform) (writingMode : string),
      match Page.getRotation host transform writingMode with
      | None => True
      | Some angle => 0 < angle /\ angle < 360
      end)
  /\ (forall host, Page.getRotation host TransformNone "vertical-rl" = Some 90)
  /\ (forall host, Page.getRotation host TransformNone "vertical-lr" = Some 270)
  /\ (forall host,
        Page.getRotation host (TransformRotate 10) "vertical-rl" = Some 100).
Proof.
  assert (Shape : forall host transform writingMode,
    exists sum,
      sum == writingModeAngle writingMode + transformAngle host transform
      /\ Page.getRotation host transform writingMode =
         let r := js_rem sum 360 in
         let a := if Qlt_bool r 0 then r + 360 else r in
         if Qeq_bool a 0 then None else Some a).
  { intros host transform writingMode. unfold Page.getRotation.
    fold (writingModeAngle writingMode).
    destruct transform; eexists; (split; [|reflexivity]);
      unfold transformAngle; ring. }
  split; [|split; [|repeat split; intro; reflexivity]].
  - intros host transform writingMode.
    destruct (Shape host transform writingMode) as [sum [E ->]].
    pose proof (normalized_angle_range sum) as R. cbv zeta in R |- *.
    unfold js_rem in *.
    destruct (Qlt_bool (sum - 360 * inject_Z (Qtrunc (sum / 360))) 0) eqn:Neg.
    + exists (1 + - Qtrunc (sum / 360))%Z.
      rewrite inject_Z_plus, inject_Z_opp.
      assert (A : writingModeAngle writingMode + transformAngle host transform
                  + 360 * (inject_Z 1 + - inject_Z (Qtrunc (sum / 360)))
                  == sum - 360 * inject_Z (Qtrunc (sum / 360)) + 360).
      { rewrite <- E. change (inject_Z 1) with 1. ring. }
      rewrite A. split; [tauto|]. split; [tauto|]. split.
      * intro Z. apply Qeq_bool_iff in Z. rewrite Z. reflexivity.
      * intro NZ. apply Qeq_bool_false in NZ. rewrite NZ.
        eexists. split; [reflexivity|]. symmetry. exact A.
    + exists (- Qtrunc (sum / 360))%Z.
      rewrite inject_Z_opp.
      assert (A : writingModeAngle writingMode + transformAngle host transform
                  + 360 * - inject_Z (Qtrunc (sum / 360))
                  == sum - 360 * inject_Z (Qtrunc (sum / 360))).
      { rewrite <- E. ring. }
      rewrite A. split; [tauto|]. split; [tauto|]. split.
      * intro Z. apply Qeq_bool_iff in Z. rewrite Z. reflexivity.
      * intro NZ. apply Qeq_bool_false in NZ. rewrite NZ.
        eexists. split; [reflexivity|]. symmetry. exact A.
  - intros host transform writingMode.
    destruct (Shape host transform writingMode) as [sum [_ ->]].
    pose proof (normalized_angle_range sum) as R. cbv zeta in R |- *.
    destruct (Qeq_bool _ 0) eqn:Z; [exact I|].
    apply Qeq_bool_false in Z. lra.
Qed.

(** For a rotation of exactly 90 or 270 degrees [getPositionAndSize]
    swaps the width and the height of the rectangle it is given around
    that rectangle's centre, in pixels and in the inches of the position. *)
Lemma quarter_turn_box (el : ElemData) (rect : Rect) (rotation : Q) :
  rotation == 90 \/ rotation == 270 ->
  let box := Page.getPositionAndSize el rect (Some rotation) in
  let reported := Page.inInches box in
  (pos_w box == rect_height rect
   /\ pos_h box == rect_width rect
   /\ pos_x box + pos_w box / 2 == rect_left rect + rect_width rect / 2
   /\ pos_y box + pos_h box / 2 == rect_top rect + rect_height rect / 2)
  /\ (pos_w reported == Page.pxToInch (rect_height rect)
      /\ pos_h reported == Page.pxToInch (rect_width rect)
      /\ pos_x reported + pos_w reported / 2
         == Page.pxToInch (rect_left rect + rect_width rect / 2)
      /\ pos_y reported + pos_h reported / 2
         == Page.pxToInch (rect_top rect + rect_height rect / 2)).
Proof.
  intros H. unfold Page.getPositionAndSize.
  assert (V : (Qeq_bool rotation 90 || Qeq_bool rotation 270)%bool = true).
  { apply orb_true_iff. destruct H as [H|H]; [left|right];
      apply Qeq_bool_iff; exact H. }
  rewrite V. unfold Page.inInches, Page.pxToInch, Page.PX_PER_IN. simpl.
  repeat split; try reflexivity; field.
Qed.

(** ** The emitter (addElements) *)




(** ** Transparency of shapes *)

(** Whenever the background's alpha rounds to a transparency [t] other
    than 0, the shape gets [(1 - t) * 100]: the transparency is converted a
    second time, as if it were still an alpha. *)
Lemma shapeTransparency_converts_twice host c r g b alpha :
  backgroundColor c = ColorRgba r g b alpha ->
  Page.hasBackground c = true ->
  Math_round ((1 - alpha) * 100) <> 0%Z ->
  Page.shapeTransparency host c =
  Some (Math_round ((1 - inject_Z (Math_round ((1 - alpha) * 100))) * 100)).
Proof.
  intros B H T. unfold Page.shapeTransparency, Page.getComputedRGBColor.
  unfold Page.hasBackground in H. rewrite B in *. simpl in *.
  apply negb_true_iff in H. rewrite H. simpl.
  apply Z.eqb_neq in T. rewrite T. reflexivity.
Qed.

(** C2 (the code departs from it): a [div] whose background is
    [rgba(255, 0, 0, 0.7)] is extracted as a shape of transparency -2900,
    although [extractAlpha] turns the alpha 0.7 into the transparency 30. *)
Theorem C2_alpha_background_transparency :
  Page.extractAlpha (ColorRgba 255 0 0 (7 # 10)) = Some 30%Z
  /\ shape_transparencies
       (extracted_elements (Page.extractSlideData Sample.host Sample.translucent_div))
     = [Some (-2900)%Z].
Proof.
  split; vm_compute; reflexivity.
Qed.

(** ** Inline runs (parseInlineFormatting) *)

(** *** Blanks at the two ends *)

Lemma trimStart_no_leading s : starts_with_space (trimStart s) = false.
Proof.
  induction s as [|c rest IH]; simpl; [reflexivity|].
  destruct (is_space c) eqn:E; [exact IH|]. simpl. exact E.
Qed.

Lemma trimEnd_no_trailing s : ends_with_space (trimEnd s) = false.
Proof.
  induction s as [|c rest IH]; simpl; [reflexivity|].
  destruct (trimEnd rest) as [|k kept] eqn:T.
  - destruct (is_space c) eqn:E; simpl; [reflexivity|exact E].
  - simpl in *. exact IH.
Qed.

Lemma trimEnd_keeps_start s :
  starts_with_space s = false -> starts_with_space (trimEnd s) = false.
Proof.
  destruct s as [|c rest]; simpl; [reflexivity|].
  intro E. destruct (trimEnd rest); [rewrite E|]; simpl; exact E.
Qed.

Lemma update_last_snoc {A} (f : A -> A) l front x :
  update_last f l = (front ++ [x])%list -> exists y, x = f y /\ In y l.
Proof.
  revert front. induction l as [|a rest IH]; intros front H.
  - destruct front; discriminate.
  - destruct rest as [|b rest'].
    + simpl in H. destruct front as [|f0 front'].
      * injection H as <-. exists a. split; [reflexivity|left; reflexivity].
      * destruct front'; discriminate.
    + change (update_last f (a :: b :: rest')) with (a :: update_last f (b :: rest')) in H.
      destruct front as [|f0 front'].
      * simpl in H. injection H as _ H. destruct rest'; discriminate.
      * simpl in H. injection H as _ H.
        destruct (IH _ H) as [y [E I]]. exists y. split; [exact E|right; exact I].
Qed.

Lemma trim_ends_first runs first rest :
  Page.trim_ends runs = first :: rest -> starts_with_space (run_text first) = false.
Proof.
  unfold Page.trim_ends. destruct runs as [|a [|b l]]; simpl; intro H.
  - discriminate.
  - injection H as <- _. simpl. apply trimEnd_keeps_start, trimStart_no_leading.
  - injection H as <- _. simpl. apply trimStart_no_leading.
Qed.

Lemma trim_ends_last runs front last :
  Page.trim_ends runs = (front ++ [last])%list -> ends_with_space (run_text last) = false.
Proof.
  unfold Page.trim_ends. intro H.
  apply update_last_snoc in H. destruct H as [y [-> _]].
  simpl. apply trimEnd_no_trailing.
Qed.

Lemma nonempty_runs_nonempty runs :
  Forall (fun r => run_text r <> ""%string) (Page.nonempty_runs runs).
Proof.
  unfold Page.nonempty_runs. apply Forall_forall. intros r I.
  apply filter_In in I. destruct I as [_ L].
  apply Nat.ltb_lt in L. intro E. rewrite E in L. simpl in L. lia.
Qed.

(** *** Text-like siblings share one run *)

Lemma append_empty_r (s : string) : (s ++ "")%string = s.
Proof. induction s as [|c rest IH]; simpl; [reflexivity|]. rewrite IH. reflexivity. Qed.

Lemma append_assoc3 (a b c : string) : ((a ++ b) ++ c)%string = (a ++ (b ++ c))%string.
Proof. induction a as [|x rest IH]; simpl; [reflexivity|]. rewrite IH. reflexivity. Qed.

Lemma parseNode_text_like host n base tt preserve prev st :
  is_text_like n = true ->
  Page.parseNode host n base tt preserve prev st =
  match n with
  | TextNode data =>
      if (preserve && negb (includes data newline) && String.eqb (trim data) "")%bool
      then (prev, st)
      else (true, Page.add_text prev (fragment tt preserve n) base st)
  | ElemNode _ _ => (true, Page.add_text prev newline base st)
  end.
Proof.
  destruct n as [data|d kids]; simpl; intro T.
  - destruct (preserve && negb (includes data newline) && String.eqb (trim data) "")%bool;
      [reflexivity|]. destruct preserve; reflexivity.
  - rewrite T. reflexivity.
Qed.


Lemma parseNodes_text_like host kids base tt preserve :
  forallb is_text_like kids = true ->
  forall errors acc started,
    (started = false -> acc = ""%string) ->
    Page.parseNodes host kids base tt preserve started
      (Page.mkParseState (merged base acc started) errors) =
    Page.mkParseState
      (merged base (acc ++ join (map (fragment tt preserve) kids))
         (started || existsb (contributes preserve) kids))
      errors.
Proof.
  induction kids as [|k rest IH]; intros T errors acc started A.
  - simpl. rewrite append_empty_r, orb_false_r. reflexivity.
  - simpl in T. apply andb_true_iff in T. destruct T as [Tk Trest].
    simpl Page.parseNodes. rewrite (parseNode_text_like _ _ _ _ _ _ _ Tk).
    assert (Step : forall frag,
      Page.add_text started frag base (Page.mkParseState (merged base acc started) errors)
      = Page.mkParseState (merged base (acc ++ frag) true) errors).
    { intro frag. unfold Page.add_text. destruct started; simpl; [reflexivity|].
      rewrite (A eq_refl). reflexivity. }
    cbn [map existsb]. unfold join. cbn [fold_right]. fold (join (map (fragment tt preserve) rest)).
    destruct k as [data|d kids'].
    + unfold contributes, fragment.
      destruct (preserve && negb (includes data newline) && String.eqb (trim data) "")%bool.
      * cbn [negb orb]. rewrite (IH Trest errors acc started A). reflexivity.
      * rewrite Step, IH by (exact Trest || discriminate).
        cbn [negb orb]. rewrite orb_true_r, append_assoc3. reflexivity.
    + rewrite Step, IH by (exact Trest || discriminate).
      cbn [contributes fragment orb]. rewrite orb_true_r, append_assoc3. reflexivity.
Qed.

(** An element with only text-like children: one run, holding the trimmed
    concatenation of what the children contribute, unless every child is
    skipped. *)
Lemma parseInlineFormatting_text_like host d kids base tt preserve errors :
  forallb is_text_like kids = true ->
  Page.ps_runs
    (snd (Page.parseInlineFormatting host (ElemNode d kids) base [] tt preserve
            errors))
  = if existsb (contributes preserve) kids
    then [mkRun (trim (join (map (fragment tt preserve) kids))) base]
    else [].
Proof.
  intro T. unfold Page.parseInlineFormatting. cbn [node_children snd Page.ps_runs].
  change (Page.mkParseState [] errors)
    with (Page.mkParseState (merged base ""%string false) errors).
  rewrite (parseNodes_text_like host kids base tt preserve T errors ""%string false)
    by reflexivity.
  cbn [Page.ps_runs orb append]. destruct (existsb _ kids); reflexivity.
Qed.

(** A text-like node whose previous sibling was text-like extends the last
    run with its fragment, or is skipped; it never starts a run. *)
Lemma parseNode_extends_last_run host n base tt preserve st :
  is_text_like n = true ->
  Page.ps_runs st <> [] ->
  Page.parseNode host n base tt preserve true st
  = (true,
     if contributes preserve n
     then Page.mkParseState
            (update_last (set_text (fun t => (t ++ fragment tt preserve n)%string))
               (Page.ps_runs st))
            (Page.ps_errors st)
     else st).
Proof.
  intros T N. rewrite (parseNode_text_like _ _ _ _ _ _ _ T).
  assert (Step : forall text,
             Page.add_text true text base st
             = Page.mkParseState
                 (update_last (set_text (fun t => (t ++ text)%string)) (Page.ps_runs st))
                 (Page.ps_errors st)).
  { intro text. unfold Page.add_text.
    destruct (Page.ps_runs st) as [|r rs] eqn:R; [contradiction|]. reflexivity. }
  destruct n as [data|d kids]; [|rewrite Step; reflexivity].
  unfold contributes.
  destruct (preserve && _ && _)%bool; [reflexivity|].
  rewrite Step. reflexivity.
Qed.

Lemma nonempty_runs_first first rest :
  run_text first <> ""%string ->
  Page.nonempty_runs (first :: rest) = first :: Page.nonempty_runs rest.
Proof.
  intro N. unfold Page.nonempty_runs. cbn [filter].
  destruct (run_text first); [contradiction|reflexivity].
Qed.

Lemma nonempty_runs_last front last :
  run_text last <> ""%string ->
  Page.nonempty_runs (front ++ [last]) = (Page.nonempty_runs front ++ [last])%list.
Proof.
  intro N. unfold Page.nonempty_runs. rewrite filter_app. cbn [filter].
  destruct (run_text last); [contradiction|reflexivity].
Qed.

(** C7, as stated, fails, in three ways.  Two text fragments separated by
    an empty [<span>] come out as two adjacent runs with identical (empty)
    options: merging follows the adjacency of sibling nodes, not the
    equality of options.  The blank that ends the bold text of
    [a<b>b </b>c] is gone although its run is an interior one.  And the
    only run returned for [<p> <b> x</b></p>] starts with a blank: the
    run before it was emptied by the trimming and then dropped. *)
Lemma C7_runs_counterexample :
  text_runs (extracted_elements
               (Page.extractSlideData Sample.host
                  (Sample.document [Sample.split_paragraph])))
  = [[("a"%string, no_options); ("b"%string, no_options)]]
  /\ map (map fst)
       (text_runs (extracted_elements
                     (Page.extractSlideData Sample.host
                        (Sample.document [Sample.bold_inside]))))
     = [["a"; "b"; "c"]%string]
  /\ map run_text
       (fst (Page.parseInlineFormatting Sample.host blank_before_bold no_options []
               (fun s => s) false []))
     = [" x"%string].
Proof.
  repeat split; vm_compute; reflexivity.
Qed.

(** C7 (amended): text-like siblings (text nodes and line breaks) that
    follow one another share a single run, whatever the options: an
    element with only such children yields exactly one run, carrying the
    base options and the trimmed concatenation of what the children
    contribute, or none when every child is skipped; in general a
    text-like node whose previous sibling was text-like extends the last
    run with its text, or is skipped, and starts no run.  When the parser
    finishes, the first run of its working array has no leading blank and
    its last run no trailing blank.  The parser returns the runs of the
    working array that have text, so no run of the result is empty, and
    the first (last) working run is also the first (last) of the result
    unless the trimming has emptied it. *)
Theorem C7_inline_runs :
  forall (host : Host) (element : Node) (baseOptions : RunOptions)
         (textTransform : string -> string) (preserveSpaces : bool)
         (errors : list string),
    let parsed :=
      Page.parseInlineFormatting host element baseOptions [] textTransform
        preserveSpaces errors in
    let result := fst parsed in
    let working := Page.ps_runs (snd parsed) in
    result = Page.nonempty_runs working
    /\ Forall (fun r => run_text r <> ""%string) result
    /\ (forall first rest,
          working = first :: rest ->
          starts_with_space (run_text first) = false
          /\ (run_text first <> ""%string -> exists rest', result = first :: rest'))
    /\ (forall front last,
          working = (front ++ [last])%list ->
          ends_with_space (run_text last) = false
          /\ (run_text last <> ""%string ->
              exists front', result = (front' ++ [last])%list))
    /\ (forallb is_text_like (node_children element) = true ->
        working =
        if existsb (contributes preserveSpaces) (node_children element)
        then [mkRun (trim (join (map (fragment textTransform preserveSpaces)
                                     (node_children element))))
                    baseOptions]
        else [])
    /\ (forall (sibling : Node) (st : Page.ParseState),
          is_text_like sibling = true ->
          Page.ps_runs st <> [] ->
          Page.parseNode host sibling baseOptions textTransform preserveSpaces true st
          = (true,
             if contributes preserveSpaces sibling
             then Page.mkParseState
                    (update_last
                       (set_text
                          (fun t => (t ++ fragment textTransform preserveSpaces
                                            sibling)%string))
                       (Page.ps_runs st))
                    (Page.ps_errors st)
             else st)).
Proof.
  intros host element baseOptions textTransform preserveSpaces errors
         parsed result working.
  assert (R : result = Page.nonempty_runs working) by reflexivity.
  split; [exact R|].
  split; [apply nonempty_runs_nonempty|].
  split; [|split; [|split]].
  - intros first rest W. split; [exact (trim_ends_first _ _ _ W)|].
    intro N. rewrite R, W, (nonempty_runs_first _ _ N). eexists. reflexivity.
  - intros front last W. split; [exact (trim_ends_last _ _ _ W)|].
    intro N. rewrite R, W, (nonempty_runs_last _ _ N). eexists. reflexivity.
  - intro T. destruct element as [data|d kids]; [reflexivity|].
    apply (parseInlineFormatting_text_like host d kids baseOptions textTransform
             preserveSpaces errors T).
  - intros sibling st. apply parseNode_extends_last_run.
Qed.

Lemma C7_inline_runs_witness :
  Page.ps_runs
    (snd (Page.parseInlineFormatting Sample.host Sample.two_lines no_options []
            (fun s => s) false []))
  = [mkRun (trim (join (map (fragment (fun s => s) false)
                            (node_children Sample.two_lines))))
           no_options].
Proof.
  destruct (C7_inline_runs Sample.host Sample.two_lines no_options (fun s => s)
              false []) as [_ [_ [_ [_ [Merged _]]]]].
  exact (Merged eq_refl).
Defined.

(** ** The element loop: anchored positions and floored font sizes *)

Lemma pxToInch_nonneg v : 0 <= v -> 0 <= Page.pxToInch v.
Proof.
  intro H. unfold Page.pxToInch, Page.PX_PER_IN.
  apply Qle_shift_div_l; lra.
Qed.

Lemma adjustRect_anchored offset rect :
  0 <= rect_left (Page.adjustRect offset rect)
  /\ 0 <= rect_top (Page.adjustRect offset rect)
  /\ rect_width (Page.adjustRect offset rect) = rect_width rect
  /\ rect_height (Page.adjustRect offset rect) = rect_height rect.
Proof.
  unfold Page.adjustRect, Math_max. simpl.
  repeat split; apply Q.le_max_l.
Qed.

Lemma position_of_adjustRect offset rect :
  anchored (Page.position_of (Page.adjustRect offset rect)).
Proof.
  destruct (adjustRect_anchored offset rect) as [L [T _]].
  split; simpl; apply pxToInch_nonneg; assumption.
Qed.

Section Soundness.

Variable host : Host.
Variable offset : Q * Q.

Lemma sound_push_error e st : sound st -> sound (Page.push_error e st).
Proof. intro H. exact H. Qed.

Lemma sound_set_errors es st : sound st -> sound (Page.set_errors es st).
Proof. intro H. exact H. Qed.

Lemma sound_add_processed ids st : sound st -> sound (Page.add_processed ids st).
Proof. intro H. exact H. Qed.

Lemma sound_push_elements els st :
  Forall well_formed els -> sound st -> sound (Page.push_elements els st).
Proof.
  intros E [A B]. split; [|exact B]. simpl. apply Forall_app. split; assumption.
Qed.

Lemma sound_push_placeholder p st :
  anchored_placeholder p -> sound st -> sound (Page.push_placeholder p st).
Proof.
  intros P [A B]. split; [exact A|]. simpl. apply Forall_app. split; [exact B|].
  constructor; [exact P|constructor].
Qed.

Create HintDb sound.

#[local] Hint Resolve sound_push_error sound_set_errors sound_add_processed
  sound_push_elements sound_push_placeholder : sound.

Lemma checkTextTag_sound d st : sound st -> flow_sound (Page.checkTextTag d st).
Proof.
  intro S. unfold Page.checkTextTag.
  repeat match goal with |- context [if ?c then _ else _] => destruct c end;
    simpl; auto with sound.
Qed.

Lemma extractPlaceholder_sound d st :
  sound st -> flow_sound (Page.extractPlaceholder offset d st).
Proof.
  intro S. unfold Page.extractPlaceholder.
  destruct (includes _ _); [|exact S].
  destruct (adjustRect_anchored offset (boundingClientRect d)) as [L [T _]].
  simpl. apply sound_add_processed.
  destruct (_ || _)%bool; [apply sound_push_error; exact S|].
  apply sound_push_placeholder; [|exact S].
  split; simpl; apply pxToInch_nonneg; assumption.
Qed.

Lemma extractImage_sound d st :
  sound st -> flow_sound (Page.extractImage offset d st).
Proof.
  intro S. unfold Page.extractImage.
  destruct (String.eqb _ _); [|exact S].
  destruct (_ && _)%bool; [|exact S].
  simpl. apply sound_add_processed, sound_push_elements; [|exact S].
  constructor; [|constructor]. apply position_of_adjustRect.
Qed.

Lemma borderLinesOf_well_formed c rect :
  Forall well_formed (Page.borderLinesOf c rect).
Proof.
  unfold Page.borderLinesOf.
  repeat (apply Forall_app; split);
    match goal with |- context [if ?c then _ else _] => destruct c end;
    repeat constructor.
Qed.

Lemma extractContainer_sound d kids st :
  sound st -> flow_sound (Page.extractContainer host offset d kids st).
Proof.
  intro S. unfold Page.extractContainer.
  destruct (_ && _)%bool; [|exact S].
  destruct (Page.imageIsSet _) eqn:?; [simpl; auto with sound|].
  match goal with |- context [if (?a || ?b)%bool then _ else Page.Continue _] =>
    destruct (a || b)%bool end; [|simpl; auto with sound].
  match goal with |- context [if (?a && ?b)%bool then Page.Return _ else _] =>
    destruct (a && b)%bool end; [|simpl; auto with sound].
  simpl. apply sound_add_processed, sound_push_elements.
  - match goal with |- context [if ?c then Page.borderLinesOf _ _ else _] =>
      destruct c end; [apply borderLinesOf_well_formed|constructor].
  - match goal with |- context [if ?c then Page.push_elements _ _ else _] =>
      destruct c end; [|auto with sound].
    apply sound_push_elements; [|auto with sound].
    constructor; [|constructor]. apply position_of_adjustRect.
Qed.


Lemma extractList_sound loc d st :
  sound st -> flow_sound (Page.extractList host offset loc d st).
Proof.
  intro S. unfold Page.extractList.
  destruct (_ || _)%bool; [|exact S].
  destruct (_ || _)%bool; [exact S|].
  destruct (Page.listItems _ _ _) as [items errors].
  simpl. apply sound_add_processed, sound_push_elements; [|auto with sound].
  constructor; [|constructor]. split; [apply position_of_adjustRect|].
  simpl. apply Q.le_max_r.
Qed.

Lemma same_output_sound st st' : same_output st st' -> sound st -> sound st'.
Proof. intros [E P] [A B]. split; [rewrite E|rewrite P]; assumption. Qed.

Lemma cellFontSize_floor c : 6 <= Page.cellFontSize c.
Proof. apply Q.le_max_r. Qed.

Lemma headerCell_floored tc rc th :
  Forall floored_cell (Page.headerCell host tc rc th).
Proof.
  unfold Page.headerCell. destruct (node th); constructor; [|constructor].
  apply cellFontSize_floor.
Qed.

Lemma Forall_flat_map {A B} (P : B -> Prop) (f : A -> list B) l :
  (forall a, Forall P (f a)) -> Forall P (flat_map f l).
Proof.
  intro H. induction l as [|a rest IH]; simpl; [constructor|].
  apply Forall_app. split; [apply H|exact IH].
Qed.

Lemma dataCell_sound bg cell st cells st' :
  Page.dataCell host bg cell st = Page.CellsOk cells st' ->
  Forall floored_cell cells /\ same_output st st'.
Proof.
  unfold Page.dataCell. destruct (node cell) as [data|d kids].
  - intro H. injection H as <- <-. split; [constructor|split; reflexivity].
  - destruct (negb _).
    + destruct (Page.parseInlineFormatting _ _ _ _ _ _ _) as [runs ps].
      destruct (_ && _)%bool; [|discriminate].
      intro H. injection H as <- <-.
      split; [|split; reflexivity].
      constructor; [apply cellFontSize_floor|constructor].
    + intro H. injection H as <- <-.
      split; [constructor; [apply cellFontSize_floor|constructor]|].
      destruct (nonempty _); split; reflexivity.
Qed.

Lemma dataCells_sound bg cells st out st' :
  Page.dataCells host bg cells st = Page.CellsOk out st' ->
  Forall floored_cell out /\ same_output st st'.
Proof.
  revert st out st'. induction cells as [|cell rest IH]; intros st out st' H.
  - simpl in H. injection H as <- <-. split; [constructor|split; reflexivity].
  - simpl in H.
    destruct (Page.dataCell host bg cell st) as [here st1|] eqn:Here; [|discriminate].
    destruct (Page.dataCells host bg rest st1) as [there st2|] eqn:There; [|discriminate].
    injection H as <- <-.
    destruct (dataCell_sound _ _ _ _ _ Here) as [F1 [E1 P1]].
    destruct (IH _ _ _ There) as [F2 [E2 P2]].
    split; [apply Forall_app; split; assumption|].
    split; congruence.
Qed.

Lemma dataRowsData_sound rows st out st' :
  Page.dataRowsData host rows st = Page.RowsOk out st' ->
  Forall (Forall floored_cell) out /\ same_output st st'.
Proof.
  revert st out st'. induction rows as [|row rest IH]; intros st out st' H.
  - simpl in H. injection H as <- <-. split; [constructor|split; reflexivity].
  - simpl in H.
    destruct (Page.dataCells host _ _ st) as [here st1|] eqn:Here; [|discriminate].
    destruct (Page.dataRowsData host rest st1) as [there st2|] eqn:There; [|discriminate].
    injection H as <- <-.
    destruct (dataCells_sound _ _ _ _ _ Here) as [F1 [E1 P1]].
    destruct (IH _ _ _ There) as [F2 [E2 P2]].
    split; [constructor; assumption|].
    split; congruence.
Qed.

Lemma columnWidths_ratios headerRow dataRows tableWidth :
  ~ tableWidth == 0 ->
  ratios_of_widths (Page.columnWidths headerRow dataRows tableWidth).
Proof.
  intro NZ. unfold Page.columnWidths.
  assert (R : forall cells,
             ratios_of_widths
               (map (fun c => Page.node_width (node c) / tableWidth) cells)).
  { intro cells. exists (map (fun c => Page.node_width (node c)) cells), tableWidth.
    split; [exact NZ|]. rewrite map_map. reflexivity. }
  destruct headerRow as [hr|]; [apply R|].
  destruct dataRows as [|first rest]; [|destruct (negb _); apply R].
  exists [], tableWidth. split; [exact NZ|reflexivity].
Qed.

Lemma extractTable_sound loc d st :
  sound st -> flow_sound (Page.extractTable host offset loc d st).
Proof.
  intro S. unfold Page.extractTable.
  destruct (String.eqb _ _); [|exact S].
  destruct (_ || _)%bool eqn:Empty; [exact S|].
  apply orb_false_iff in Empty. destruct Empty as [Wide _].
  apply Qeq_bool_false in Wide.
  match goal with
  | |- context [let '(_, _) := ?header in _] =>
      assert (H : Forall (Forall floored_cell) (fst header) /\ sound (snd header));
      [|destruct header as [headerData st0]]
  end.
  { destruct (hd_error _); simpl.
    - split; [|auto with sound].
      constructor; [|constructor]. apply Forall_flat_map. apply headerCell_floored.
    - split; [constructor|exact S]. }
  simpl in H. destruct H as [HF HS].
  destruct (Page.dataRowsData host _ st0) as [bodyData st1|exn] eqn:Body;
    [|exact I].
  destruct (dataRowsData_sound _ _ _ _ Body) as [BF BS].
  simpl. apply sound_add_processed, sound_push_elements.
  - constructor; [|constructor]. split; [apply position_of_adjustRect|].
    split; [apply Forall_app; split; assumption|].
    apply columnWidths_ratios. exact Wide.
  - apply sound_add_processed. exact (same_output_sound _ _ BS HS).
Qed.

Lemma baseStyleOf_fontSize c rotation :
  6 <= s_fontSize (Page.baseStyleOf host c rotation).
Proof. apply Q.le_max_r. Qed.

Lemma unrotated_position d rect :
  0 <= rect_left rect -> 0 <= rect_top rect ->
  anchored (Page.inInches (Page.getPositionAndSize d rect None)).
Proof.
  intros L T. split; simpl; apply pxToInch_nonneg; assumption.
Qed.

Lemma extractText_sound loc d st :
  sound st -> flow_sound (Page.extractText host offset loc d st).
Proof.
  intro S. unfold Page.extractText.
  destruct (negb _); [exact S|].
  destruct (_ && _)%bool; [simpl; auto with sound|].
  destruct (_ && _)%bool; [simpl; auto with sound|].
  destruct (_ || _)%bool; [exact S|].
  destruct (_ && _)%bool; [simpl; auto with sound|].
  destruct (adjustRect_anchored offset (boundingClientRect d)) as [L [T _]].
  set (rotation := Page.getRotation host _ _).
  assert (P : forall style, s_rotate style = rotation ->
             s_rotate style = None ->
             anchored
               (Page.inInches
                  (Page.getPositionAndSize d
                     (Page.adjustRect offset (boundingClientRect d)) rotation))).
  { intros style E N. rewrite E in N. rewrite N.
    apply unrotated_position; assumption. }
  cbv beta zeta iota delta [flow_sound]. apply sound_add_processed.
  destruct (_ && _)%bool.
  - match goal with |- context [let '(_, _) := ?parsed in _] =>
      assert (C : sound (snd parsed)); [|destruct parsed as [content st0]] end.
    { destruct (_ && _)%bool; [exact S|].
      destruct (Page.parseInlineFormatting _ _ _ _ _ _ _) as [runs ps]. exact S. }
    simpl in C. apply sound_push_elements; [|exact C].
    constructor; [|constructor].
    destruct (is_truthy_opt _); split;
      solve [apply P; reflexivity | apply baseStyleOf_fontSize].
  - destruct (negb _).
    + destruct (Page.parseInlineFormatting _ _ _ _ _ _ _) as [runs ps].
      apply sound_push_elements; [|auto with sound].
      constructor; [|constructor].
      split; [apply P; reflexivity|apply baseStyleOf_fontSize].
    + apply sound_push_elements; [|exact S].
      constructor; [|constructor].
      split; [apply P; reflexivity|apply baseStyleOf_fontSize].
Qed.

Lemma visit_sound loc st : sound st -> flow_sound (Page.visit host offset loc st).
Proof.
  intro S. unfold Page.visit. destruct (node loc) as [data|d kids]; [exact S|].
  destruct (Page.is_processed _ _); [exact S|].
  pose proof (checkTextTag_sound d st S) as H1.
  destruct (Page.checkTextTag d st) as [s1|s1|e1]; simpl; try exact H1.
  pose proof (extractPlaceholder_sound d s1 H1) as H2.
  destruct (Page.extractPlaceholder offset d s1) as [s2|s2|e2]; simpl; try exact H2.
  pose proof (extractImage_sound d s2 H2) as H3.
  destruct (Page.extractImage offset d s2) as [s3|s3|e3]; simpl; try exact H3.
  pose proof (extractContainer_sound d kids s3 H3) as H4.
  destruct (Page.extractContainer host offset d kids s3) as [s4|s4|e4]; simpl;
    try exact H4.
  pose proof (extractList_sound loc d s4 H4) as H5.
  destruct (Page.extractList host offset loc d s4) as [s5|s5|e5]; simpl; try exact H5.
  pose proof (extractTable_sound loc d s5 H5) as H6.
  destruct (Page.extractTable host offset loc d s5) as [s6|s6|e6]; simpl; try exact H6.
  apply extractText_sound. exact H6.
Qed.

Lemma visitAll_sound all st st' :
  sound st -> Page.visitAll host offset all st = inl st' -> sound st'.
Proof.
  revert st. induction all as [|loc rest IH]; intros st S H.
  - simpl in H. injection H as <-. exact S.
  - simpl in H. pose proof (visit_sound loc st S) as V.
    destruct (Page.visit host offset loc st) as [s|s|e]; try discriminate;
      exact (IH _ V H).
Qed.

End Soundness.

Lemma extractSlideData_sound host doc slideData :
  Page.extractSlideData host doc = inl slideData ->
  Forall well_formed (elements slideData)
  /\ Forall anchored_placeholder (placeholders slideData).
Proof.
  unfold Page.extractSlideData. intro H.
  destruct (Page.visitAll _ _ _ _) as [st|exn] eqn:V; [|discriminate].
  injection H as <-. simpl.
  apply (visitAll_sound _ _ _ _ _) in V; [exact V|].
  split; constructor.
Qed.


(** Text blocks, list blocks and table cells respect the 6pt floor; the
    predicate says nothing of a table block's own style. *)
Lemma extracted_font_sizes_floored host doc slideData :
  Page.extractSlideData host doc = inl slideData ->
  Forall floored_element (elements slideData).
Proof.
  intro H. apply extractSlideData_sound in H. destruct H as [H _].
  apply (Forall_impl floored_element) in H; [exact H|].
  intros [ | | | | | ]; simpl; tauto.
Qed.

(** C8 (the code departs from it): the style of a table block takes the
    computed font size unfloored.  A table set in 8px has a style font size
    of 5.6pt, below 6, while its cells are floored to 6pt. *)
Theorem C8_table_style_font_size_unfloored :
  exists size : Q,
    table_fontSizes
      (extracted_elements (Page.extractSlideData Sample.host Sample.small_print_table))
    = [size]
    /\ size == 56 # 10 /\ size < 6
    /\ Forall (fun cellSize => cellSize == 6)
         (cell_fontSizes
            (extracted_elements
               (Page.extractSlideData Sample.host Sample.small_print_table))).
Proof.
  eexists. split; [vm_compute; reflexivity|].
  split; [reflexivity|]. split; [reflexivity|].
  vm_compute. repeat constructor; discriminate.
Qed.



(** The ratios of an extracted table add up to the total of the cell
    widths they come from, over the table's width. *)
Lemma total_ratios (widths : list Q) (tableWidth : Q) :
  ~ tableWidth == 0 ->
  total (map (fun w => w / tableWidth) widths) * tableWidth == total widths.
Proof.
  intro NZ. induction widths as [|w rest IH]; simpl.
  - ring.
  - unfold total in *. simpl. rewrite <- IH. field. exact NZ.
Qed.

(** ** Validation and atomicity (html2pptx) *)

Lemma rowErrors_nil expectedCols rowIdx data :
  Driver.rowErrors expectedCols rowIdx data = [] ->
  Forall (fun row => length row = expectedCols) data.
Proof.
  revert rowIdx. induction data as [|row rest IH]; intros rowIdx H.
  - constructor.
  - simpl in H. apply app_eq_nil in H. destruct H as [Here There].
    constructor; [|exact (IH _ There)].
    destruct (Nat.eqb (length row) expectedCols) eqn:E; [|discriminate].
    apply Nat.eqb_eq. exact E.
Qed.

Lemma tableErrors_nil data colWidths position style :
  Driver.tableErrors (TableEl data colWidths position style) = [] ->
  colWidths <> [] /\ data <> []
  /\ Forall (fun row => length row = length colWidths) data.
Proof.
  simpl. intro H.
  apply app_eq_nil in H. destruct H as [W H].
  apply app_eq_nil in H. destruct H as [D R].
  destruct colWidths as [|w ws]; [discriminate|].
  destruct data as [|row rows]; [discriminate|].
  simpl in R. repeat split; try discriminate.
  apply (rowErrors_nil _ 0%nat). exact R.
Qed.

Lemma flat_map_nil {A B} (f : A -> list B) l a :
  flat_map f l = [] -> In a l -> f a = [].
Proof.
  induction l as [|x rest IH]; simpl; intros H I; [contradiction|].
  apply app_eq_nil in H. destruct H as [Hx Hrest].
  destruct I as [<-|I]; [exact Hx|exact (IH Hrest I)].
Qed.

Lemma validationErrors_nil_tables bodyDimensions slideData presLayout :
  Driver.validationErrors bodyDimensions slideData presLayout = [] ->
  flat_map Driver.tableErrors (elements slideData) = [].
Proof.
  unfold Driver.validationErrors. intro H.
  repeat (apply app_eq_nil in H; destruct H as [_ H]). exact H.
Qed.

(** When [html2pptx] returns, the extraction has resolved and validation
    has found nothing. *)
Lemma html2pptx_Ok host htmlFile presLayout options result doc deck value deck' :
  Driver.html2pptx host htmlFile presLayout options (Driver.Rendered result doc) deck
    = (Driver.Ok value, deck') ->
  exists slideData,
    Page.extractSlideData host doc = inl slideData
    /\ Driver.validationErrors (Driver.getBodyDimensions result) slideData presLayout
       = [].
Proof.
  unfold Driver.html2pptx, Driver.rethrow. intro H.
  destruct (Page.extractSlideData host doc) as [slideData|exn].
  - exists slideData. split; [reflexivity|].
    destruct (Driver.validationErrors _ slideData presLayout) as [|e es];
      [reflexivity|].
    simpl in H. destruct (startsWith _ _); discriminate.
  - destruct (startsWith _ _); discriminate.
Qed.

(** C6, as stated, fails: a two-column table laid out with the default
    cell spacing passes validation, each row has two cells, and its
    column-width ratios sum to 0.97. *)
Lemma C6_column_ratios_counterexample :
  (exists value deck',
      Driver.html2pptx Sample.host "slide.html" None Sample.fresh_slide
        (Driver.Rendered Sample.fitting_body Sample.spaced_table) []
      = (Driver.Ok value, deck'))
  /\ (exists total,
        column_ratio_sums
          (extracted_elements (Page.extractSlideData Sample.host Sample.spaced_table))
        = [total]
        /\ total == 97 # 100
        /\ ~ Qabs (total - 1) <= 1 # 100).
Proof.
  split.
  - eexists. eexists. vm_compute. reflexivity.
  - eexists. split; [vm_compute; reflexivity|].
    split; [reflexivity|]. intro H. vm_compute in H. apply H. reflexivity.
Qed.

(** C1, as stated, fails: with exactly one finding the error carries the
    finding itself (after the file name), not a numbered list. *)
Lemma C1_single_finding_counterexample :
  let findings :=
    Driver.validationErrors
      (Driver.getBodyDimensions (Sample.body_scrolling 501))
      (mkSlideData (BackgroundColor "FFFFFF") [] [] []) None in
  let run :=
    Driver.html2pptx Sample.host "slide.html" None Sample.fresh_slide
      (Driver.Rendered (Sample.body_scrolling 501) (Sample.document [])) [] in
  Page.extractSlideData Sample.host (Sample.document [])
    = inl (mkSlideData (BackgroundColor "FFFFFF") [] [] [])
  /\ findings =
     ["HTML content overflows by 50.0pt vertically (exceeds 100pt padding tolerance)"%string]
  /\ run =
     (Driver.Error
        "slide.html: HTML content overflows by 50.0pt vertically (exceeds 100pt padding tolerance)",
      [])
  /\ fst run <> Driver.rethrow "slide.html" (spec_compositeMessage findings).
Proof.
  repeat split; try (vm_compute; reflexivity).
  vm_compute. discriminate.
Qed.

Lemma rethrow_is_error htmlFile message :
  exists final,
    Driver.rethrow htmlFile message = Driver.Error final
    /\ (final = message \/ final = (htmlFile ++ ": " ++ message)%string).
Proof.
  unfold Driver.rethrow. destruct (startsWith message htmlFile); simpl;
    eexists; split; try reflexivity; [left|right]; reflexivity.
Qed.

Lemma addBackground_setup host slideData target deck :
  exists setup,
    Driver.addBackground host slideData target deck = (deck ++ setup)%list
    /\ forallb is_setup_call setup = true.
Proof.
  unfold Driver.addBackground.
  destruct (background slideData) as [path|value];
    [destruct (nonempty path)|destruct (nonempty value)];
    first [ eexists; split; [reflexivity|reflexivity]
          | exists []; split; [symmetry; apply app_nil_r|reflexivity] ].
Qed.

(** C1 (amended): when validation leaves at least one finding,
    [html2pptx] ends in a single error and the deck is what it was: no
    slide is added, no background is set and no element is added.  The
    error's message is the finding itself when there is exactly one, and
    the numbered list of all findings when there are two or more (in both
    cases after the file name).  On every input the deck is either
    untouched or extended by the slide set-up followed by exactly one call
    per extracted element, in order. *)
Theorem C1_validation_failure_is_atomic :
  forall (host : Host) (htmlFile : string) (presLayout : option Driver.Layout)
         (options : Driver.Options) (rendering : Driver.Rendering)
         (deck : Driver.Deck),
    let run := Driver.html2pptx host htmlFile presLayout options rendering deck in
    (forall result doc slideData,
        rendering = Driver.Rendered result doc ->
        Page.extractSlideData host doc = inl slideData ->
        let findings :=
          Driver.validationErrors (Driver.getBodyDimensions result) slideData
            presLayout in
        findings <> [] ->
        snd run = deck
        /\ fst run = Driver.rethrow htmlFile (Driver.errorMessage findings)
        /\ exists message,
             fst run = Driver.Error message
             /\ (message = Driver.errorMessage findings
                 \/ message = (htmlFile ++ ": " ++ Driver.errorMessage findings)%string))
    /\ (forall only, Driver.errorMessage [only] = only)
    /\ (forall first second more,
          Driver.errorMessage (first :: second :: more) =
          spec_compositeMessage (first :: second :: more))
    /\ (snd run = deck
        \/ exists result doc slideData target setup,
             rendering = Driver.Rendered result doc
             /\ Page.extractSlideData host doc = inl slideData
             /\ Driver.validationErrors (Driver.getBodyDimensions result) slideData
                  presLayout = []
             /\ forallb is_setup_call setup = true
             /\ snd run =
                (deck ++ setup ++ map (Driver.addElement host target)
                                      (elements slideData))%list).
Proof.
  intros host htmlFile presLayout options rendering deck run.
  split; [|split; [reflexivity|split; [reflexivity|]]].
  - intros result doc slideData -> E findings F.
    subst run. unfold Driver.html2pptx. rewrite E. fold findings.
    destruct findings as [|e es] eqn:Fs; [contradiction|].
    simpl negb. cbv iota.
    split; [reflexivity|]. split; [reflexivity|].
    apply rethrow_is_error.
  - subst run. unfold Driver.html2pptx.
    destruct rendering as [result doc|exn]; [|left; reflexivity].
    destruct (Page.extractSlideData host doc) as [slideData|exn] eqn:E;
      [|left; reflexivity].
    destruct (Driver.validationErrors _ slideData presLayout) as [|e es] eqn:V;
      [|left; reflexivity].
    simpl negb. cbv iota.
    destruct (Driver.checkMode options); [left; reflexivity|].
    right. exists result, doc, slideData.
    destruct (Driver.slide options).
    + destruct (addBackground_setup host slideData Driver.CallerSlide deck)
        as [setup [B S]].
      exists Driver.CallerSlide, setup.
      repeat split; try assumption.
      simpl. unfold Driver.addElements. rewrite B. apply eq_sym, app_assoc.
    + destruct (addBackground_setup host slideData Driver.AddedSlide
                  (deck ++ [Driver.AddSlide])%list) as [setup [B S]].
      exists Driver.AddedSlide, (Driver.AddSlide :: setup).
      repeat split; try assumption.
      simpl. unfold Driver.addElements. rewrite B.
      rewrite <- !app_assoc. reflexivity.
Qed.

Lemma C1_validation_failure_is_atomic_witness :
  let run :=
    Driver.html2pptx Sample.host "slide.html" None Sample.fresh_slide
      (Driver.Rendered (Sample.body_scrolling 501) (Sample.document []))
      [Driver.AddSlide] in
  snd run = [Driver.AddSlide]
  /\ fst run =
     Driver.Error
       "slide.html: HTML content overflows by 50.0pt vertically (exceeds 100pt padding tolerance)".
Proof.
  pose proof (C1_validation_failure_is_atomic Sample.host "slide.html" None
                Sample.fresh_slide
                (Driver.Rendered (Sample.body_scrolling 501) (Sample.document []))
                [Driver.AddSlide]) as H.
  cbv zeta in H. destruct H as [Fail _].
  destruct (Fail (Sample.body_scrolling 501) (Sample.document [])
              (mkSlideData (BackgroundColor "FFFFFF") [] [] []) eq_refl)
    as [Same [Thrown _]].
  - vm_compute. reflexivity.
  - vm_compute. discriminate.
  - split; [exact Same|]. rewrite Thrown. vm_compute. reflexivity.
Defined.

(** * Further properties *)

(** ** Failure, check mode and the target slide of [html2pptx] *)

Lemma prefix_append p s : prefix p (p ++ s) = true.
Proof.
  induction p as [|c rest IH]; simpl; [destruct s; reflexivity|].
  destruct (ascii_dec c c) as [_|N]; [exact IH|contradiction].
Qed.

Lemma rethrow_starts_with_file htmlFile message :
  exists final,
    Driver.rethrow htmlFile message = Driver.Error final
    /\ startsWith final htmlFile = true.
Proof.
  unfold Driver.rethrow. destruct (startsWith message htmlFile) eqn:S; simpl.
  - exists message. split; [reflexivity|exact S].
  - eexists. split; [reflexivity|]. apply prefix_append.
Qed.

Lemma rethrow_never_returns htmlFile message value :
  Driver.rethrow htmlFile message <> Driver.Ok value.
Proof. unfold Driver.rethrow. destruct (negb _); discriminate. Qed.

Lemma html2pptx_error_inv :
  forall (host : Host) (htmlFile : string) (presLayout : option Driver.Layout)
         (options : Driver.Options) (rendering : Driver.Rendering)
         (deck : Driver.Deck) (message : string),
    fst (Driver.html2pptx host htmlFile presLayout options rendering deck)
      = Driver.Error message ->
    snd (Driver.html2pptx host htmlFile presLayout options rendering deck) = deck
    /\ startsWith message htmlFile = true.
Proof.
  intros host htmlFile presLayout options rendering deck message.
  unfold Driver.html2pptx.
  assert (R : forall m, Driver.rethrow htmlFile m = Driver.Error message ->
                        startsWith message htmlFile = true).
  { intros m H. destruct (rethrow_starts_with_file htmlFile m) as [final [E S]].
    rewrite E in H. injection H as <-. exact S. }
  destruct rendering as [result doc|exn]; [|simpl; intro H; split; [reflexivity|eauto]].
  destruct (Page.extractSlideData host doc) as [slideData|exn];
    [|simpl; intro H; split; [reflexivity|eauto]].
  destruct (negb _); [simpl; intro H; split; [reflexivity|eauto]|].
  destruct (Driver.checkMode options); [simpl; discriminate|].
  destruct (Driver.slide options); simpl; discriminate.
Qed.

(** In check mode the deck is handed back as it came, and the outcome does
    not depend on the deck. *)
Lemma html2pptx_check_inv :
  forall (host : Host) (htmlFile : string) (presLayout : option Driver.Layout)
         (slide : bool) (rendering : Driver.Rendering) (deck : Driver.Deck),
    let run :=
      Driver.html2pptx host htmlFile presLayout (Driver.mkOptions slide true)
        rendering deck in
    snd run = deck
    /\ fst run =
       fst (Driver.html2pptx host htmlFile presLayout (Driver.mkOptions slide true)
              rendering []).
Proof.
  intros host htmlFile presLayout slide rendering deck run. subst run.
  unfold Driver.html2pptx.
  destruct rendering as [result doc|exn]; [|split; reflexivity].
  destruct (Page.extractSlideData host doc) as [slideData|exn];
    [|split; reflexivity].
  destruct (negb _); split; reflexivity.
Qed.

(** The two modes fail alike: the checks come before the mode is looked
    at. *)
Lemma html2pptx_modes_fail_alike :
  forall (host : Host) (htmlFile : string) (presLayout : option Driver.Layout)
         (slide : bool) (rendering : Driver.Rendering) (deck : Driver.Deck),
    match fst (Driver.html2pptx host htmlFile presLayout (Driver.mkOptions slide true)
                 rendering deck),
          fst (Driver.html2pptx host htmlFile presLayout (Driver.mkOptions slide false)
                 rendering deck) with
    | Driver.Error dry, Driver.Error real => dry = real
    | Driver.Ok dry, Driver.Ok real =>
        Driver.ret_placeholders dry = Driver.ret_placeholders real
        /\ Driver.ret_slide dry = None /\ Driver.ret_checkMode dry = true
        /\ Driver.ret_checkMode real = false
    | _, _ => False
    end.
Proof.
  intros host htmlFile presLayout slide rendering deck.
  unfold Driver.html2pptx.
  destruct rendering as [result doc|exn];
    [|cbn [fst]; unfold Driver.rethrow; destruct (negb _); reflexivity].
  destruct (Page.extractSlideData host doc) as [slideData|exn];
    [|cbn [fst]; unfold Driver.rethrow; destruct (negb _); reflexivity].
  destruct (negb (is_nil _)).
  - cbn [fst]. unfold Driver.rethrow. destruct (negb _); reflexivity.
  - simpl. destruct slide; simpl; repeat split.
Qed.

Lemma slides_added_app a b :
  slides_added (a ++ b) = (slides_added a + slides_added b)%nat.
Proof. unfold slides_added. rewrite filter_app, length_app. reflexivity. Qed.

Lemma addElement_target host target el :
  call_target (Driver.addElement host target el) = Some target.
Proof.
  destruct el; simpl; try reflexivity.
  destruct (Driver.textBox _ _). reflexivity.
Qed.

Lemma addBackground_target host slideData target deck :
  exists calls,
    Driver.addBackground host slideData target deck = (deck ++ calls)%list
    /\ Forall (fun c => call_target c = Some target) calls.
Proof.
  unfold Driver.addBackground.
  destruct (background slideData) as [p|v];
    [destruct (nonempty p)|destruct (nonempty v)];
    first [ eexists; split; [reflexivity|repeat constructor]
          | exists []; split; [symmetry; apply app_nil_r|constructor] ].
Qed.

Lemma targeted_calls_add_no_slide target calls :
  Forall (fun c => call_target c = Some target) calls ->
  slides_added calls = 0%nat.
Proof.
  unfold slides_added. induction 1 as [|c rest C _ IH]; [reflexivity|].
  simpl. destruct c; simpl in *; try exact IH. discriminate.
Qed.

(** What a successful run appends to the deck. *)
Lemma html2pptx_ok_calls :
  forall (host : Host) (htmlFile : string) (presLayout : option Driver.Layout)
         (options : Driver.Options) (rendering : Driver.Rendering)
         (deck : Driver.Deck) (value : Driver.Returned),
    fst (Driver.html2pptx host htmlFile presLayout options rendering deck)
      = Driver.Ok value ->
    let fresh := negb (Driver.checkMode options || Driver.slide options) in
    exists calls,
      snd (Driver.html2pptx host htmlFile presLayout options rendering deck)
      = (deck ++ (if fresh then [Driver.AddSlide] else []) ++ calls)%list
      /\ Forall (fun c => call_target c = Driver.ret_slide value) calls
      /\ Driver.ret_slide value =
         (if Driver.checkMode options then None
          else Some (if Driver.slide options then Driver.CallerSlide
                     else Driver.AddedSlide))
      /\ (Driver.checkMode options = true -> calls = []).
Proof.
  intros host htmlFile presLayout options rendering deck value.
  cbv zeta. unfold Driver.html2pptx.
  destruct rendering as [result doc|exn];
    [|intro H; exfalso; exact (rethrow_never_returns _ _ _ H)].
  destruct (Page.extractSlideData host doc) as [slideData|exn];
    [|intro H; exfalso; exact (rethrow_never_returns _ _ _ H)].
  destruct (negb (is_nil _));
    [intro H; exfalso; exact (rethrow_never_returns _ _ _ H)|].
  destruct (Driver.checkMode options).
  - intros H. injection H as <-. exists []. simpl.
    repeat split; [symmetry; apply app_nil_r|constructor].
  - destruct (Driver.slide options); intros H; injection H as <-;
      cbn [fst snd Driver.ret_slide orb negb].
    + destruct (addBackground_target host slideData Driver.CallerSlide deck)
        as [calls [B T]].
      exists (calls ++ map (Driver.addElement host Driver.CallerSlide)
                        (elements slideData))%list.
      unfold Driver.addElements. rewrite B.
      split; [simpl; symmetry; apply app_assoc|].
      split; [|split; [reflexivity|discriminate]].
      apply Forall_app. split; [exact T|].
      apply Forall_map, Forall_forall. intros el _. apply addElement_target.
    + destruct (addBackground_target host slideData Driver.AddedSlide
                  (deck ++ [Driver.AddSlide])%list) as [calls [B T]].
      exists (calls ++ map (Driver.addElement host Driver.AddedSlide)
                        (elements slideData))%list.
      unfold Driver.addElements. rewrite B.
      split; [rewrite <- !app_assoc; reflexivity|].
      split; [|split; [reflexivity|discriminate]].
      apply Forall_app. split; [exact T|].
      apply Forall_map, Forall_forall. intros el _. apply addElement_target.
Qed.

Lemma html2pptx_ok_slides :
  forall (host : Host) (htmlFile : string) (presLayout : option Driver.Layout)
         (rendering : Driver.Rendering) (deck : Driver.Deck)
         (value : Driver.Returned),
    fst (Driver.html2pptx host htmlFile presLayout (Driver.mkOptions false false)
           rendering deck) = Driver.Ok value ->
    slides_added
      (snd (Driver.html2pptx host htmlFile presLayout (Driver.mkOptions false false)
              rendering deck))
    = S (slides_added deck).
Proof.
  intros host htmlFile presLayout rendering deck value H.
  destruct (html2pptx_ok_calls _ _ _ _ _ _ _ H) as [calls [E [T [V _]]]].
  rewrite E. cbn [Driver.checkMode Driver.slide orb negb] in *.
  rewrite V in T.
  rewrite !slides_added_app, (targeted_calls_add_no_slide _ _ T).
  unfold slides_added at 2. simpl. lia.
Qed.

Lemma html2pptx_outcome_any_deck host htmlFile presLayout options rendering deck deck' :
  fst (Driver.html2pptx host htmlFile presLayout options rendering deck)
  = fst (Driver.html2pptx host htmlFile presLayout options rendering deck').
Proof.
  unfold Driver.html2pptx.
  destruct rendering as [result doc|exn]; [|reflexivity].
  destruct (Page.extractSlideData host doc) as [slideData|exn]; [|reflexivity].
  destruct (negb _); [reflexivity|].
  destruct (Driver.checkMode options); [reflexivity|].
  destruct (Driver.slide options); reflexivity.
Qed.

(** X1.  Whatever makes [html2pptx] fail (the page load, the extraction or
    a validation finding), the deck is handed back untouched and the
    message of the error starts with the file name; passing such a message
    through the outer [catch] again adds no second prefix. *)
Theorem html2pptx_errors_name_the_file :
  forall (host : Host) (htmlFile : string) (presLayout : option Driver.Layout)
         (options : Driver.Options) (rendering : Driver.Rendering)
         (deck : Driver.Deck) (message : string),
    fst (Driver.html2pptx host htmlFile presLayout options rendering deck)
      = Driver.Error message ->
    snd (Driver.html2pptx host htmlFile presLayout options rendering deck) = deck
    /\ startsWith message htmlFile = true
    /\ Driver.rethrow htmlFile message = Driver.Error message.
Proof.
  intros host htmlFile presLayout options rendering deck message H.
  destruct (html2pptx_error_inv _ _ _ _ _ _ _ H) as [Same Named].
  split; [exact Same|]. split; [exact Named|].
  unfold Driver.rethrow. rewrite Named. reflexivity.
Qed.

Lemma html2pptx_errors_name_the_file_witness :
  let run :=
    Driver.html2pptx Sample.host "slide.html" None Sample.fresh_slide
      (Driver.RenderFault "net::ERR_FILE_NOT_FOUND") [Driver.AddSlide] in
  snd run = [Driver.AddSlide]
  /\ startsWith "slide.html: net::ERR_FILE_NOT_FOUND" "slide.html" = true
  /\ Driver.rethrow "slide.html" "slide.html: net::ERR_FILE_NOT_FOUND"
     = Driver.Error "slide.html: net::ERR_FILE_NOT_FOUND".
Proof.
  apply (html2pptx_errors_name_the_file Sample.host "slide.html" None
           Sample.fresh_slide (Driver.RenderFault "net::ERR_FILE_NOT_FOUND")
           [Driver.AddSlide]).
  vm_compute. reflexivity.
Defined.

(** X2.  Check mode is a dry run of the other mode: it never touches the
    deck, it fails exactly when a real run on the same input fails, with
    the same message, and when it returns it reports the placeholders the
    real run reports, with no slide. *)
Theorem html2pptx_check_mode_is_a_dry_run :
  forall (host : Host) (htmlFile : string) (presLayout : option Driver.Layout)
         (slide : bool) (rendering : Driver.Rendering) (deck : Driver.Deck),
    let dry :=
      Driver.html2pptx host htmlFile presLayout (Driver.mkOptions slide true)
        rendering deck in
    let real :=
      Driver.html2pptx host htmlFile presLayout (Driver.mkOptions slide false)
        rendering deck in
    snd dry = deck
    /\ (forall message,
          fst dry = Driver.Error message <-> fst real = Driver.Error message)
    /\ (forall value,
          fst dry = Driver.Ok value ->
          Driver.ret_slide value = None
          /\ Driver.ret_checkMode value = true
          /\ exists value',
               fst real = Driver.Ok value'
               /\ Driver.ret_placeholders value' = Driver.ret_placeholders value
               /\ Driver.ret_checkMode value' = false).
Proof.
  intros host htmlFile presLayout slide rendering deck dry real.
  pose proof (html2pptx_modes_fail_alike host htmlFile presLayout slide rendering deck)
    as Alike.
  fold dry in Alike. fold real in Alike.
  split; [apply html2pptx_check_inv|].
  destruct (fst dry) as [d|d], (fst real) as [r|r]; try contradiction.
  - destruct Alike as [P [S [C C']]]. split.
    + intro message. split; discriminate.
    + intros value H. injection H as <-. repeat split; try assumption.
      exists r. repeat split; [symmetry; exact P|exact C'].
  - subst r. split.
    + intro message. split; intro H; exact H.
    + intros value H. discriminate.
Qed.

(** X3.  A run that returns appends to the deck one [addSlide] exactly
    when it is neither in check mode nor given a slide, and after it only
    calls on the slide it returns: the caller's slide when one was given,
    the new slide otherwise.  In check mode it appends nothing and returns
    no slide. *)
Theorem html2pptx_acts_on_one_slide :
  forall (host : Host) (htmlFile : string) (presLayout : option Driver.Layout)
         (options : Driver.Options) (rendering : Driver.Rendering)
         (deck : Driver.Deck) (value : Driver.Returned),
    fst (Driver.html2pptx host htmlFile presLayout options rendering deck)
      = Driver.Ok value ->
    let fresh := negb (Driver.checkMode options || Driver.slide options) in
    let after := snd (Driver.html2pptx host htmlFile presLayout options rendering deck) in
    (exists calls,
        after = (deck ++ (if fresh then [Driver.AddSlide] else []) ++ calls)%list
        /\ Forall (fun c => call_target c = Driver.ret_slide value) calls
        /\ (Driver.checkMode options = true -> calls = []))
    /\ Driver.ret_slide value =
       (if Driver.checkMode options then None
        else Some (if Driver.slide options then Driver.CallerSlide
                   else Driver.AddedSlide))
    /\ slides_added after = (slides_added deck + (if fresh then 1 else 0))%nat.
Proof.
  intros host htmlFile presLayout options rendering deck value H fresh after.
  destruct (html2pptx_ok_calls _ _ _ _ _ _ _ H) as [calls [E [T [V Dry]]]].
  fold fresh in E. fold after in E.
  split; [exists calls; repeat split; assumption|].
  split; [exact V|].
  rewrite E, !slides_added_app.
  assert (Z : slides_added calls = 0%nat).
  { destruct (Driver.checkMode options) eqn:C.
    - rewrite (Dry eq_refl). reflexivity.
    - rewrite V in T. exact (targeted_calls_add_no_slide _ _ T). }
  rewrite Z. destruct fresh; unfold slides_added; simpl; lia.
Qed.

Lemma html2pptx_acts_on_one_slide_witness :
  let after :=
    snd (Driver.html2pptx Sample.host "slide.html" None (Driver.mkOptions true false)
           (Driver.Rendered Sample.fitting_body Sample.translucent_div)
           [Driver.AddSlide]) in
  (exists calls,
      after = ([Driver.AddSlide] ++ [] ++ calls)%list
      /\ Forall (fun c => call_target c = Some Driver.CallerSlide) calls
      /\ (false = true -> calls = []))
  /\ Some Driver.CallerSlide = Some Driver.CallerSlide
  /\ slides_added after = (1 + 0)%nat.
Proof.
  apply (html2pptx_acts_on_one_slide Sample.host "slide.html" None
           (Driver.mkOptions true false)
           (Driver.Rendered Sample.fitting_body Sample.translucent_div)
           [Driver.AddSlide]
           (Driver.mkReturned (Some Driver.CallerSlide) [] false)).
  vm_compute. reflexivity.
Defined.

(** ** Dimension and margin checks *)

Lemma Qabs_swap a b : Qabs (a - b) == Qabs (b - a).
Proof.
  setoid_replace (b - a) with (- (a - b)) by ring. symmetry. apply Qabs_opp.
Qed.

Lemma closer_of_two (e o l : Q) :
  Qabs (l - (if Qlt_bool (Qabs (e - l)) (Qabs (o - l)) then e else o))
  == Qmin (Qabs (e - l)) (Qabs (o - l)).
Proof.
  destruct (Qlt_bool _ _) eqn:C.
  - apply Qlt_bool_iff in C. rewrite Qabs_swap. symmetry. apply Q.min_l. lra.
  - apply Qlt_bool_false in C. rewrite Qabs_swap. symmetry. apply Q.min_r. exact C.
Qed.

Lemma axis_checked (body : Q) (container : option Q) (layoutEmu : Q) :
  let target := layoutEmu / Driver.EMU_PER_IN in
  let own := body / Driver.PX_PER_IN in
  let effective :=
    if is_truthy_opt container
    then or_else container 0 / Driver.PX_PER_IN else own in
  Qlt_bool 1
    (Qabs (target - (if Qlt_bool (Qabs (effective - target)) (Qabs (own - target))
                     then effective else own))) = true
  <-> 1 < inches_off body container layoutEmu.
Proof.
  intros target own effective.
  assert (E : Qabs (target - (if Qlt_bool (Qabs (effective - target)) (Qabs (own - target))
                     then effective else own))
              == inches_off body container layoutEmu).
  { rewrite closer_of_two. unfold inches_off. fold target. fold own. subst effective.
    destruct (is_truthy_opt container); [reflexivity|]. apply Q.min_id. }
  split; intro T.
  - apply Qlt_bool_iff in T. rewrite E in T. exact T.
  - apply Qlt_bool_iff. rewrite E. exact T.
Qed.

Lemma inches_off_own (body : Q) (container : option Q) (layoutEmu : Q) :
  inches_off body container layoutEmu
  <= Qabs (body / Driver.PX_PER_IN - layoutEmu / Driver.EMU_PER_IN).
Proof.
  unfold inches_off.
  destruct (is_truthy_opt container); [apply Q.le_min_r|apply Qle_refl].
Qed.

(** X4.  Without a presentation layout [validateDimensions] finds
    nothing.  With one, each axis is judged by whichever of the body's
    and the slide container's measure is closer to the layout's: there is
    a finding, and only one, exactly when on some axis even the closer
    measure is more than one inch off. *)
Theorem validateDimensions_judges_the_closer_measure :
  forall (m : Driver.BodyMetrics) (findings : list string)
         (layout : Driver.Layout),
    let bodyDimensions := Driver.mkBodyDimensions m findings in
    let offW := inches_off (Driver.width m) (Driver.containerWidth m)
                  (Driver.layout_width layout) in
    let offH := inches_off (Driver.height m) (Driver.containerHeight m)
                  (Driver.layout_height layout) in
    Driver.validateDimensions bodyDimensions None = []
    /\ (Driver.validateDimensions bodyDimensions (Some layout) = []
        <-> offW <= 1 /\ offH <= 1)
    /\ (length (Driver.validateDimensions bodyDimensions (Some layout)) <= 1)%nat
    /\ offW <= Qabs (Driver.width m / Driver.PX_PER_IN
                     - Driver.layout_width layout / Driver.EMU_PER_IN)
    /\ offH <= Qabs (Driver.height m / Driver.PX_PER_IN
                     - Driver.layout_height layout / Driver.EMU_PER_IN).
Proof.
  intros m findings layout bodyDimensions offW offH.
  split; [reflexivity|].
  pose proof (axis_checked (Driver.width m) (Driver.containerWidth m)
                (Driver.layout_width layout)) as TW.
  pose proof (axis_checked (Driver.height m) (Driver.containerHeight m)
                (Driver.layout_height layout)) as TH.
  cbv zeta in TW, TH. fold offW in TW. fold offH in TH.
  unfold Driver.validateDimensions. cbn [Driver.metrics bodyDimensions].
  cbv zeta.
  match type of TW with ?t = true <-> _ => set (tw := t) in * end.
  match type of TH with ?t = true <-> _ => set (th := t) in * end.
  assert (Quiet : (tw || th)%bool = false <-> offW <= 1 /\ offH <= 1).
  { rewrite orb_false_iff. split.
    - intros [A B]. split.
      + destruct (Qlt_le_dec 1 offW) as [L|L]; [|exact L].
        apply TW in L. congruence.
      + destruct (Qlt_le_dec 1 offH) as [L|L]; [|exact L].
        apply TH in L. congruence.
    - intros [A B]. split.
      + destruct tw; [|reflexivity]. destruct TW as [T _]. specialize (T eq_refl). lra.
      + destruct th; [|reflexivity]. destruct TH as [T _]. specialize (T eq_refl). lra. }
  split; [|split; [|split]].
  - destruct (tw || th)%bool.
    + split; [discriminate|]. intro Q. apply Quiet in Q. discriminate.
    + split; [intros _; apply Quiet; reflexivity|reflexivity].
  - destruct (tw || th)%bool; simpl; lia.
  - apply inches_off_own.
  - apply inches_off_own.
Qed.

(** X5.  [validateTextBoxPosition] finds nothing exactly when every
    list block and every text block of type [p] or [h1] to [h6] either has
    a font size of at most 12pt or ends at least half an inch above the
    bottom of the body (the body's own height, whatever the slide
    container's).  Images, shapes, lines, tables and text blocks of any
    other type are never looked at, and an element leaves at most one
    finding. *)
Theorem validateTextBoxPosition_flags_low_large_text :
  forall (slideData : SlideData) (bodyDimensions : Driver.BodyDimensions),
    let bottom := Driver.height (Driver.metrics bodyDimensions) / Driver.PX_PER_IN in
    let clear (position : Position) (style : Style) :=
      s_fontSize style <= 12
      \/ 1 # 2 <= bottom - (pos_y position + pos_h position) in
    (Driver.validateTextBoxPosition slideData bodyDimensions = []
     <-> Forall (fun el =>
                   match el with
                   | ListEl _ position style => clear position style
                   | TextEl type _ position style =>
                       string_in type ["p"; "h1"; "h2"; "h3"; "h4"; "h5"; "h6"; "list"]%string
                       = true ->
                       clear position style
                   | _ => True
                   end) (elements slideData))
    /\ (length (Driver.validateTextBoxPosition slideData bodyDimensions)
        <= length (elements slideData))%nat
    /\ (forall type text position style,
          In type ["li"; "pre"; "code"; "span"; "i"; "ul"; "ol"]%string ->
          Driver.validateTextBoxPosition
            (mkSlideData (background slideData) [TextEl type text position style]
               (placeholders slideData) (errors slideData)) bodyDimensions = []).
Proof.
  intros slideData bodyDimensions bottom clear.
  unfold Driver.validateTextBoxPosition. fold bottom.
  assert (Margin : forall position style getText,
             (if (Qlt_bool 12 (s_fontSize style)
                  && Qlt_bool (bottom - (pos_y position + pos_h position)) (1 # 2))%bool
              then [Driver.bottomMarginError getText
                      (bottom - (pos_y position + pos_h position))]
              else []) = []
             <-> clear position style).
  { intros position style getText. subst clear. cbv beta.
    destruct (Qlt_bool 12 _) eqn:F; [destruct (Qlt_bool (bottom - _) _) eqn:B|]; simpl.
    - apply Qlt_bool_iff in F, B. split; [discriminate|]. intros [H|H]; lra.
    - apply Qlt_bool_false in B. split; [intros _; right; exact B|reflexivity].
    - apply Qlt_bool_false in F. split; [intros _; left; exact F|reflexivity]. }
  split; [|split].
  - cbn [elements]. induction (elements slideData) as [|el rest IH].
    + split; [constructor|reflexivity].
    + cbn [flat_map]. split.
      * intro H. apply app_eq_nil in H. destruct H as [Here There].
        constructor; [|apply IH; exact There].
        destruct el; try exact I.
        -- exact (proj1 (Margin _ _ _) Here).
        -- intro T. rewrite T in Here. exact (proj1 (Margin _ _ _) Here).
      * intro H. inversion H as [|? ? Here There]; subst.
        destruct IH as [_ IH]. rewrite (IH There), app_nil_r.
        destruct el; try reflexivity.
        -- exact (proj2 (Margin _ _ _) Here).
        -- destruct (string_in _ _); [|reflexivity].
           exact (proj2 (Margin _ _ _) (Here eq_refl)).
  - induction (elements slideData) as [|el rest IH]; [simpl; lia|].
    cbn [flat_map]. rewrite length_app. cbn [length].
    destruct el; cbn [length]; try lia.
    + destruct (_ && _)%bool; cbn [length]; lia.
    + destruct (string_in _ _); [destruct (_ && _)%bool|]; cbn [length]; lia.
  - intros type text position style T. simpl.
    repeat (destruct T as [<-|T]; [reflexivity|]). contradiction.
Qed.

(** ** The emitter *)

Lemma substring_all n t : (String.length t <= n)%nat -> substring 0 n t = t.
Proof.
  revert n. induction t as [|b t IH]; intros n L.
  - destruct n; reflexivity.
  - destruct n; [simpl in L; lia|]. simpl. f_equal. apply IH. simpl in L. lia.
Qed.

Lemma prefix_restores_upto p s n :
  prefix p s = true -> (String.length s <= String.length p + n)%nat ->
  (p ++ substring (String.length p) n s)%string = s.
Proof.
  revert s. induction p as [|c rest IH]; intros s H L.
  - simpl. apply substring_all. exact L.
  - destruct s as [|a s']; [discriminate|].
    simpl in H. destruct (ascii_dec c a) as [->|N]; [|discriminate].
    simpl. f_equal. apply IH; [exact H|]. simpl in L. lia.
Qed.

Lemma prefix_restores p s :
  prefix p s = true -> (p ++ substring (String.length p) (String.length s) s)%string = s.
Proof. intro H. apply prefix_restores_upto; [exact H|lia]. Qed.

(** X6.  A [file://] scheme at the start of an image source or of the
    background path is removed, once, before the path is URI-decoded and
    handed to the deck; a source without the scheme is only decoded. *)
Theorem file_scheme_is_stripped_once :
  forall (host : Host) (target : Driver.Target) (source : string)
         (position : Position),
    (startsWith source "file://" = true ->
     ("file://" ++ Driver.stripFileScheme source)%string = source)
    /\ Driver.stripFileScheme ("file://" ++ source) = source
    /\ (startsWith source "file://" = false -> Driver.stripFileScheme source = source)
    /\ Driver.addElement host target (ImageEl ("file://" ++ source) position)
       = Driver.AddImage target
           (Driver.mkImageOptions (decodeURIComponent host source)
              (pos_x position) (pos_y position) (pos_w position) (pos_h position))
    /\ (forall deck elements placeholders errors,
          Driver.addBackground host
            (mkSlideData (BackgroundImage ("file://" ++ source)) elements placeholders
               errors) target deck
          = (deck ++ [Driver.SetBackgroundPath target (decodeURIComponent host source)])%list).
Proof.
  intros host target source position.
  assert (Round : Driver.stripFileScheme ("file://" ++ source) = source).
  { unfold Driver.stripFileScheme, startsWith. rewrite prefix_append.
    pose proof (prefix_restores "file://" ("file://" ++ source)
                  (prefix_append _ _)) as R.
    change (String.length "file://") with 7%nat in R.
    cbn [append] in R. injection R as R. exact R. }
  split; [|split; [exact Round|split; [|split]]].
  - intro S. unfold Driver.stripFileScheme. rewrite S.
    change 7%nat with (String.length "file://").
    apply prefix_restores. exact S.
  - intro S. unfold Driver.stripFileScheme. rewrite S. reflexivity.
  - cbn [Driver.addElement]. rewrite Round. reflexivity.
  - intros deck elements placeholders errors.
    unfold Driver.addBackground. cbn [background].
    change (nonempty ("file://" ++ source)) with true. cbv iota.
    rewrite Round. reflexivity.
Qed.

Lemma file_scheme_is_stripped_once_witness :
  ("file://" ++ Driver.stripFileScheme "file:///tmp/a.png")%string
  = "file:///tmp/a.png"%string
  /\ Driver.stripFileScheme "/tmp/a.png" = "/tmp/a.png"%string.
Proof.
  destruct (file_scheme_is_stripped_once Sample.host Driver.CallerSlide
              "file:///tmp/a.png" (mkPosition 0 0 1 1)) as [With _].
  destruct (file_scheme_is_stripped_once Sample.host Driver.CallerSlide
              "/tmp/a.png" (mkPosition 0 0 1 1)) as [_ [_ [Without _]]].
  split; [apply With; reflexivity|apply Without; reflexivity].
Defined.

(** X7.  The lines drawn for a non-uniform border: one per edge whose
    width is positive, each emitted as a line shape of positive stroke
    width that is horizontal and as long as the box is wide, or vertical
    and as long as the box is high. *)
Theorem border_lines_follow_the_edges :
  forall (host : Host) (target : Driver.Target) (c : Computed) (rect : Rect),
    length (Page.borderLinesOf c rect)
    = length (filter (Qlt_bool 0)
                [borderTopWidth c; borderRightWidth c; borderBottomWidth c;
                 borderLeftWidth c])
    /\ Forall (fun el =>
                 exists opts,
                   Driver.addElement host target el
                   = Driver.AddShape target Driver.ShapeLine opts
                   /\ ((Driver.ln_h opts == 0
                        /\ Driver.ln_w opts == Page.pxToInch (rect_width rect))
                       \/ (Driver.ln_w opts == 0
                           /\ Driver.ln_h opts == Page.pxToInch (rect_height rect)))
                   /\ 0 < line_width (Driver.ln_line opts))
              (Page.borderLinesOf c rect).
Proof.
  intros host target c rect. unfold Page.borderLinesOf. split.
  - cbn [filter].
    destruct (Qlt_bool 0 (borderTopWidth c)), (Qlt_bool 0 (borderRightWidth c)),
             (Qlt_bool 0 (borderBottomWidth c)), (Qlt_bool 0 (borderLeftWidth c));
      reflexivity.
  - assert (Pt : forall v, Qlt_bool 0 v = true -> 0 < Page.pxToPoints v).
    { intros v H. apply Qlt_bool_iff in H. unfold Page.pxToPoints, Page.PT_PER_PX.
      lra. }
    repeat (apply Forall_app; split);
      match goal with |- context [if ?b then _ else _] => destruct b eqn:E end;
      constructor; try constructor;
      (eexists; split; [reflexivity|]; split; [|apply Pt; exact E]); simpl;
      [left|right|left|right]; split; ring.
Qed.

(** ** The command-line driver *)

(** *** [parseArgs] *)

Lemma parseArg_with_check r arg :
  Generate.parseArg (with_check r) arg = with_check (Generate.parseArg r arg).
Proof.
  unfold Generate.parseArg, with_check. simpl.
  destruct (_ || _)%bool; [reflexivity|].
  destruct (Generate.endsWith arg ".html"); [reflexivity|].
  destruct (Generate.is_unset (Generate.workDir r)); [reflexivity|].
  destruct (Generate.is_unset (Generate.outputFile r)); reflexivity.
Qed.

Lemma fold_parseArg_with_check args r :
  fold_left Generate.parseArg args (with_check r)
  = with_check (fold_left Generate.parseArg args r).
Proof.
  revert r. induction args as [|arg rest IH]; intro r; [reflexivity|].
  simpl. rewrite parseArg_with_check. apply IH.
Qed.

Lemma parseArg_flag r arg :
  is_check_flag arg = true -> Generate.parseArg r arg = with_check r.
Proof.
  unfold is_check_flag, Generate.parseArg, with_check. intros ->. reflexivity.
Qed.

Lemma parseArg_checkMode r arg :
  Generate.checkMode (Generate.parseArg r arg)
  = (is_check_flag arg || Generate.checkMode r)%bool.
Proof.
  unfold Generate.parseArg, is_check_flag.
  destruct (_ || _)%bool; [reflexivity|]. simpl.
  destruct (Generate.endsWith arg ".html"); [reflexivity|].
  destruct (Generate.is_unset (Generate.workDir r)); [reflexivity|].
  destruct (Generate.is_unset (Generate.outputFile r)); reflexivity.
Qed.

Lemma fold_parseArg_checkMode args r :
  Generate.checkMode (fold_left Generate.parseArg args r)
  = (existsb is_check_flag args || Generate.checkMode r)%bool.
Proof.
  revert r. induction args as [|arg rest IH]; intro r; [reflexivity|].
  simpl. rewrite IH, parseArg_checkMode.
  destruct (is_check_flag arg), (existsb is_check_flag rest), (Generate.checkMode r);
    reflexivity.
Qed.

(** X8.  A check flag ([--check] or [--dry-run]) switches check mode on
    wherever it stands among the arguments and is never taken for the
    work directory, the single file or the output file: the other
    arguments are read as if the flag were not there.  Check mode is on
    exactly when some argument is a check flag. *)
Theorem parseArgs_check_flag_anywhere :
  forall (before after : list string) (flag : string),
    is_check_flag flag = true ->
    Generate.parseArgs (before ++ flag :: after)
    = with_check (Generate.parseArgs (before ++ after))
    /\ (forall args,
          Generate.checkMode (Generate.parseArgs args) = existsb is_check_flag args).
Proof.
  intros before after flag F. split.
  - unfold Generate.parseArgs. rewrite !fold_left_app. simpl.
    rewrite (parseArg_flag _ _ F). apply fold_parseArg_with_check.
  - intro args. unfold Generate.parseArgs. rewrite fold_parseArg_checkMode.
    simpl. apply orb_false_r.
Qed.

Lemma parseArgs_check_flag_anywhere_witness :
  Generate.parseArgs ["deck"; "--check"; "out.pptx"]%string
  = with_check (Generate.parseArgs ["deck"; "out.pptx"]%string)
  /\ (forall args,
        Generate.checkMode (Generate.parseArgs args) = existsb is_check_flag args).
Proof.
  apply (parseArgs_check_flag_anywhere ["deck"%string] ["out.pptx"%string] "--check").
  reflexivity.
Defined.

(** *** [collectSlides] *)


Lemma insertSlide_perm s l : Permutation (s :: l) (Generate.insertSlide s l).
Proof.
  induction l as [|x rest IH]; simpl; [apply Permutation_refl|].
  destruct (Nat.leb _ _); [apply Permutation_refl|].
  eapply perm_trans; [apply perm_swap|]. apply perm_skip. exact IH.
Qed.

Lemma sortSlides_perm l : Permutation l (Generate.sortSlides l).
Proof.
  induction l as [|s rest IH]; simpl; [constructor|].
  eapply perm_trans; [apply perm_skip; exact IH|]. apply insertSlide_perm.
Qed.

Lemma insertSlide_sorted s l :
  Sorted by_page l -> Sorted by_page (Generate.insertSlide s l).
Proof.
  induction l as [|x rest IH]; simpl; intro S.
  - repeat constructor.
  - destruct (Nat.leb (Generate.pageNum s) (Generate.pageNum x)) eqn:E.
    + constructor; [exact S|]. constructor. apply Nat.leb_le. exact E.
    + apply Nat.leb_gt in E. inversion S as [|? ? S' H]; subst.
      constructor; [apply IH; exact S'|].
      destruct rest as [|y rest']; simpl.
      * constructor. unfold by_page. lia.
      * destruct (Nat.leb _ _); constructor.
        -- unfold by_page. lia.
        -- inversion H; subst. assumption.
Qed.

Lemma sortSlides_sorted l : Sorted by_page (Generate.sortSlides l).
Proof.
  induction l as [|s rest IH]; simpl; [constructor|].
  apply insertSlide_sorted. exact IH.
Qed.

Lemma insertSlide_stable n s l :
  filter (on_page n) (Generate.insertSlide s l) = filter (on_page n) (s :: l).
Proof.
  induction l as [|x rest IH]; [reflexivity|].
  simpl Generate.insertSlide.
  destruct (Nat.leb (Generate.pageNum s) (Generate.pageNum x)) eqn:E; [reflexivity|].
  apply Nat.leb_gt in E.
  simpl in *. rewrite IH. unfold on_page.
  destruct (Nat.eqb (Generate.pageNum x) n) eqn:X;
    destruct (Nat.eqb (Generate.pageNum s) n) eqn:Y; try reflexivity.
  apply Nat.eqb_eq in X, Y. lia.
Qed.

Lemma sortSlides_stable n l :
  filter (on_page n) (Generate.sortSlides l) = filter (on_page n) l.
Proof.
  induction l as [|s rest IH]; [reflexivity|].
  simpl Generate.sortSlides. rewrite insertSlide_stable. simpl. rewrite IH. reflexivity.
Qed.
Lemma digit_value c : Generate.is_digit c = true -> (nat_of_ascii c - 48 <= 9)%nat.
Proof.
  unfold Generate.is_digit. intro H. apply andb_true_iff in H.
  destruct H as [_ H]. apply Nat.leb_le in H. lia.
Qed.

Lemma matchFilePattern_digits file digits :
  Generate.matchFilePattern file = Some digits ->
  (Generate.parseDigits 0 digits < 1000)%nat
  /\ exists rest, file = (digits ++ String "_" rest)%string
                  /\ Generate.endsWith rest ".html" = true.
Proof.
  unfold Generate.matchFilePattern.
  destruct file as [|a [|b rest]]; try discriminate.
  destruct (Generate.is_digit a) eqn:A; [|discriminate].
  destruct (Generate.is_digit b) eqn:B; [|discriminate].
  apply digit_value in A, B. simpl andb. cbv iota.
  destruct rest as [|c after]; [discriminate|].
  destruct (Generate.is_digit c && Generate.matchTail after)%bool eqn:Three.
  - apply andb_true_iff in Three. destruct Three as [C T].
    apply digit_value in C. intro H. injection H as <-.
    split; [simpl; lia|].
    unfold Generate.matchTail in T. destruct after as [|u rest]; [discriminate|].
    apply andb_true_iff in T. destruct T as [T _].
    apply andb_true_iff in T. destruct T as [U E].
    apply Ascii.eqb_eq in U. subst u. exists rest. split; [reflexivity|exact E].
  - destruct (Generate.matchTail (String c after)) eqn:Two; [|discriminate].
    intro H. injection H as <-. split; [simpl; lia|].
    unfold Generate.matchTail in Two.
    apply andb_true_iff in Two. destruct Two as [T _].
    apply andb_true_iff in T. destruct T as [U E].
    apply Ascii.eqb_eq in U. subst c. exists after. split; [reflexivity|exact E].
Qed.

Lemma matchFilePattern_four_digits a b c d rest :
  Generate.is_digit c = true -> Generate.is_digit d = true ->
  Generate.matchFilePattern (String a (String b (String c (String d rest)))) = None.
Proof.
  intros C D. unfold Generate.matchFilePattern.
  destruct (_ && _)%bool; [|reflexivity].
  assert (N : forall x r, Generate.is_digit x = true ->
                          Generate.matchTail (String x r) = false).
  { intros x r X. unfold Generate.matchTail.
    destruct (Ascii.eqb x "_") eqn:U; [|reflexivity].
    apply Ascii.eqb_eq in U. subst x. discriminate. }
  rewrite (N d rest D), (N c _ C), andb_false_r. reflexivity.
Qed.

Lemma matchFilePattern_one_digit a c rest :
  Generate.is_digit c = false ->
  Generate.matchFilePattern (String a (String c rest)) = None.
Proof.
  intro C. unfold Generate.matchFilePattern. rewrite C, andb_false_r. reflexivity.
Qed.

Lemma matchFilePattern_decimal file digits :
  Generate.matchFilePattern file = Some digits -> all_digits digits = true.
Proof.
  unfold Generate.matchFilePattern.
  destruct file as [|a [|b rest]]; try discriminate.
  destruct (Generate.is_digit a) eqn:A; [|discriminate].
  destruct (Generate.is_digit b) eqn:B; [|discriminate].
  cbn [andb]. destruct rest as [|c after]; [discriminate|].
  destruct (Generate.is_digit c) eqn:C; cbn [andb].
  - destruct (Generate.matchTail after).
    + intro H. injection H as <-. cbn [all_digits]. rewrite A, B, C. reflexivity.
    + destruct (Generate.matchTail _); [|discriminate].
      intro H. injection H as <-. cbn [all_digits]. rewrite A, B. reflexivity.
  - destruct (Generate.matchTail _); [|discriminate].
    intro H. injection H as <-. cbn [all_digits]. rewrite A, B. reflexivity.
Qed.

(** X9.  A file name matches [FILE_PATTERN] only when it starts with two
    or three characters that are all decimal digits, followed by an
    underscore, and ends in [.html]; the page number read from the digits
    is below 1000.  A name with a single leading digit, or with four or
    more, matches nothing. *)
Theorem FILE_PATTERN_takes_two_or_three_digits :
  (forall file digits,
      Generate.matchFilePattern file = Some digits ->
      (Generate.parseDigits 0 digits < 1000)%nat
      /\ (String.length digits = 2 \/ String.length digits = 3)%nat
      /\ all_digits digits = true
      /\ exists rest, file = (digits ++ String "_" rest)%string
                      /\ Generate.endsWith rest ".html" = true)
  /\ (forall a c rest,
        Generate.is_digit c = false ->
        Generate.matchFilePattern (String a (String c rest)) = None)
  /\ (forall a b c d rest,
        Generate.is_digit c = true -> Generate.is_digit d = true ->
        Generate.matchFilePattern (String a (String b (String c (String d rest))))
        = None).
Proof.
  split; [|split].
  - intros file digits M.
    destruct (matchFilePattern_digits _ _ M) as [Small Shape].
    split; [exact Small|].
    split; [|split; [exact (matchFilePattern_decimal _ _ M)|exact Shape]].
    unfold Generate.matchFilePattern in M.
    destruct file as [|a [|b [|c after]]]; try discriminate;
      destruct (_ && _)%bool; try discriminate.
    destruct (_ && _)%bool; [injection M as <-; right; reflexivity|].
    destruct (Generate.matchTail _); [|discriminate].
    injection M as <-. left. reflexivity.
  - apply matchFilePattern_one_digit.
  - apply matchFilePattern_four_digits.
Qed.

Lemma FILE_PATTERN_takes_two_or_three_digits_witness :
  ((Generate.parseDigits 0 "012" < 1000)%nat
   /\ (String.length "012" = 2 \/ String.length "012" = 3)%nat
   /\ all_digits "012" = true
   /\ exists rest, "012_intro.html"%string = ("012" ++ String "_" rest)%string
                   /\ Generate.endsWith rest ".html" = true)
  /\ Generate.matchFilePattern "1_intro.html" = None
  /\ Generate.matchFilePattern "0123_intro.html" = None.
Proof.
  destruct FILE_PATTERN_takes_two_or_three_digits as [Match [One Four]].
  split; [apply (Match "012_intro.html"%string "012"%string); reflexivity|].
  split; [apply One; reflexivity|apply Four; reflexivity].
Defined.

(** X10.  [collectSlides] returns the slides whose file names match, each
    once, in ascending page order; slides with the same page number keep
    the order the directory listed them in.  Every slide is a listed file
    and its path is that file joined to the work directory. *)
Theorem collectSlides_sorted_and_stable :
  forall (world : Generate.World) (workDir : string),
    let slides := Generate.collectSlides world workDir in
    Sorted by_page slides
    /\ Permutation (Generate.matchedSlides world workDir) slides
    /\ (forall n,
          filter (on_page n) slides
          = filter (on_page n) (Generate.matchedSlides world workDir))
    /\ (forall s, In s slides ->
          In (Generate.file s) (Generate.readdirSync world workDir)
          /\ Generate.path s = Generate.path_join world workDir (Generate.file s)
          /\ exists digits,
               Generate.matchFilePattern (Generate.file s) = Some digits
               /\ Generate.pageNum s = Generate.parseDigits 0 digits).
Proof.
  intros world workDir slides. subst slides. unfold Generate.collectSlides.
  split; [apply sortSlides_sorted|].
  split; [apply sortSlides_perm|].
  split; [intro n; apply sortSlides_stable|].
  intros s I.
  apply (Permutation_in _ (Permutation_sym (sortSlides_perm _))) in I.
  unfold Generate.matchedSlides in I. apply in_flat_map in I.
  destruct I as [name [Listed I]].
  destruct (Generate.matchFilePattern name) as [digits|] eqn:M; [|contradiction].
  destruct I as [<-|[]]. simpl.
  repeat split; try assumption.
  exists digits. split; [exact M|reflexivity].
Qed.

(** *** [generatePPTX] *)

Section Batch.

Variable host : Host.
Variable world : Generate.World.
Variable presLayout : option Driver.Layout.

Lemma checkAll_spec slides deck :
  Generate.checkAll host world presLayout slides deck
  = (deck, flat_map (failure_of host world presLayout) slides).
Proof.
  revert deck. induction slides as [|s rest IH]; intro deck; [reflexivity|].
  simpl.
  pose proof (html2pptx_check_inv host (Generate.path s) presLayout false
                (Generate.render world (Generate.path s)) deck) as [Same Outcome].
  cbv zeta in Same, Outcome.
  unfold failure_of at 1, outcome_of. rewrite <- Outcome.
  destruct (Driver.html2pptx host (Generate.path s) presLayout
              (Driver.mkOptions false true)
              (Generate.render world (Generate.path s)) deck) as [[value|message] after].
  - cbn [fst snd] in *. subst after. rewrite IH. reflexivity.
  - cbn [fst snd] in *. subst after. rewrite IH. reflexivity.
Qed.

Lemma failures_nil slides :
  is_nil (flat_map (failure_of host world presLayout) slides)
  = forallb (passes host world presLayout true) slides.
Proof.
  induction slides as [|s rest IH]; [reflexivity|].
  simpl. unfold failure_of at 1, passes at 1.
  destruct (outcome_of host world presLayout true s); [exact IH|reflexivity].
Qed.

Lemma convertAll_spec slides deck :
  match Generate.convertAll host world presLayout slides deck with
  | (after, None) =>
      forallb (passes host world presLayout false) slides = true
      /\ slides_added after = (slides_added deck + length slides)%nat
  | (after, Some (failed, message)) =>
      exists before s later,
        slides = (before ++ s :: later)%list
        /\ forallb (passes host world presLayout false) before = true
        /\ outcome_of host world presLayout false s = Driver.Error message
        /\ failed = Generate.file s
        /\ slides_added after = (slides_added deck + length before)%nat
  end.
Proof.
  revert deck. induction slides as [|s rest IH]; intro deck.
  - simpl. split; [reflexivity|lia].
  - cbn [Generate.convertAll].
    assert (Outcome : outcome_of host world presLayout false s
                      = fst (Driver.html2pptx host (Generate.path s) presLayout
                               (Driver.mkOptions false false)
                               (Generate.render world (Generate.path s)) deck))
      by apply html2pptx_outcome_any_deck.
    pose proof (html2pptx_ok_slides host (Generate.path s) presLayout
                  (Generate.render world (Generate.path s)) deck) as Okay.
    pose proof (html2pptx_error_inv host (Generate.path s) presLayout
                  (Driver.mkOptions false false)
                  (Generate.render world (Generate.path s)) deck) as Failed.
    destruct (Driver.html2pptx host (Generate.path s) presLayout
                (Driver.mkOptions false false)
                (Generate.render world (Generate.path s)) deck)
      as [[value|message] after].
    + cbn [fst snd] in *. pose proof (Okay value eq_refl) as Count.
      assert (Pass : passes host world presLayout false s = true)
        by (unfold passes; rewrite Outcome; reflexivity).
      specialize (IH after).
      destruct (Generate.convertAll host world presLayout rest after)
        as [final [[failed message]|]].
      * destruct IH as [before [s' [later [E [B [O [F C]]]]]]].
        exists (s :: before), s', later.
        split; [rewrite E; reflexivity|].
        split; [cbn [forallb]; rewrite Pass; exact B|].
        split; [exact O|]. split; [exact F|]. cbn [length]. lia.
      * destruct IH as [B C]. split; [cbn [forallb]; rewrite Pass; exact B|].
        cbn [length]. lia.
    + cbn [fst snd] in *. destruct (Failed message eq_refl) as [Same _]. subst after.
      exists [], s, rest.
      split; [reflexivity|]. split; [reflexivity|].
      split; [exact Outcome|].
      split; [reflexivity|]. cbn [length]. lia.
Qed.

Lemma passes_in_both_modes s :
  passes host world presLayout true s = passes host world presLayout false s.
Proof.
  unfold passes, outcome_of.
  pose proof (html2pptx_modes_fail_alike host (Generate.path s) presLayout false
                (Generate.render world (Generate.path s)) []) as Alike.
  destruct (fst (Driver.html2pptx host (Generate.path s) presLayout
                   (Driver.mkOptions false true) _ _)),
           (fst (Driver.html2pptx host (Generate.path s) presLayout
                   (Driver.mkOptions false false) _ _));
    try reflexivity; contradiction.
Qed.

End Batch.

(** X11.  Check mode of [generatePPTX] never adds anything to the
    presentation and never writes a file.  It tries every slide, in page
    order, and collects one entry per failing slide, with the slide's file
    name and the failure's message; it returns [null] when no slide fails
    and exits with status 1 otherwise. *)
Theorem generatePPTX_check_mode_reports_every_failure :
  forall (host : Host) (world : Generate.World) (presLayout : option Driver.Layout)
         (workDir outputFile : string),
    let slides := Generate.collectSlides world workDir in
    let r := Generate.generatePPTX host world presLayout workDir outputFile true in
    Generate.existsSync world workDir = true ->
    slides <> [] ->
    Generate.deck r = []
    /\ Generate.written r = None
    /\ Generate.checkErrors r = flat_map (failure_of host world presLayout) slides
    /\ Generate.finished r =
       (if forallb (passes host world presLayout true) slides
        then Generate.Returns None else Generate.Exits 1).
Proof.
  intros host world presLayout workDir outputFile slides r Exists Some_slides.
  subst r. unfold Generate.generatePPTX. rewrite Exists. fold slides.
  destruct slides as [|s rest] eqn:S; [contradiction|].
  cbn [negb is_nil]. rewrite checkAll_spec, <- failures_nil.
  destruct (flat_map _ _) as [|e es]; repeat split.
Qed.

Lemma generatePPTX_check_mode_reports_every_failure_witness :
  let r := Generate.generatePPTX Sample.host (sample_world true) None "deck" "out.pptx"
             true in
  Generate.deck r = []
  /\ Generate.written r = None
  /\ Generate.checkErrors r
     = flat_map (failure_of Sample.host (sample_world true) None)
         (Generate.collectSlides (sample_world true) "deck")
  /\ Generate.finished r =
     (if forallb (passes Sample.host (sample_world true) None true)
           (Generate.collectSlides (sample_world true) "deck")
      then Generate.Returns None else Generate.Exits 1).
Proof.
  apply (generatePPTX_check_mode_reports_every_failure Sample.host
           (sample_world true) None "deck" "out.pptx").
  - reflexivity.
  - vm_compute. discriminate.
Defined.

(** X12.  Generation mode of [generatePPTX] writes the presentation only
    when every slide converts: it then holds one new slide per file and is
    written once, under the output name, which is returned.  Otherwise the
    run stops at the first slide, in page order, that fails: the error
    names that file and carries its message, nothing is written, and the
    presentation holds one slide per file before the failing one. *)
Theorem generatePPTX_writes_only_complete_decks :
  forall (host : Host) (world : Generate.World) (presLayout : option Driver.Layout)
         (workDir outputFile : string),
    let slides := Generate.collectSlides world workDir in
    let r := Generate.generatePPTX host world presLayout workDir outputFile false in
    Generate.existsSync world workDir = true ->
    slides <> [] ->
    Generate.checkErrors r = []
    /\ ((forallb (passes host world presLayout false) slides = true
         /\ Generate.finished r = Generate.Returns (Some outputFile)
         /\ Generate.written r = Some (outputFile, Generate.deck r)
         /\ slides_added (Generate.deck r) = length slides)
        \/ (exists before s later message,
              slides = (before ++ s :: later)%list
              /\ forallb (passes host world presLayout false) before = true
              /\ outcome_of host world presLayout false s = Driver.Error message
              /\ Generate.finished r =
                 Generate.Throws
                   ("Failed to convert " ++ Generate.file s ++ ": " ++ message)%string
              /\ Generate.written r = None
              /\ slides_added (Generate.deck r) = length before)).
Proof.
  intros host world presLayout workDir outputFile slides r Exists Some_slides.
  subst r. unfold Generate.generatePPTX. rewrite Exists. fold slides.
  destruct slides as [|s rest] eqn:S; [contradiction|].
  cbn [negb is_nil].
  pose proof (convertAll_spec host world presLayout (s :: rest) []) as Spec.
  destruct (Generate.convertAll host world presLayout (s :: rest) [])
    as [after [[failed message]|]].
  - destruct Spec as [before [s' [later [E [B [O [F C]]]]]]].
    split; [reflexivity|]. right. exists before, s', later, message.
    subst failed. repeat split; assumption.
  - destruct Spec as [B C]. split; [reflexivity|]. left.
    repeat split; assumption.
Qed.

Lemma generatePPTX_writes_only_complete_decks_witness :
  let slides := Generate.collectSlides (sample_world true) "deck" in
  let r := Generate.generatePPTX Sample.host (sample_world true) None "deck" "out.pptx"
             false in
  Generate.checkErrors r = []
  /\ ((forallb (passes Sample.host (sample_world true) None false) slides = true
       /\ Generate.finished r = Generate.Returns (Some "out.pptx"%string)
       /\ Generate.written r = Some ("out.pptx"%string, Generate.deck r)
       /\ slides_added (Generate.deck r) = length slides)
      \/ (exists before s later message,
            slides = (before ++ s :: later)%list
            /\ forallb (passes Sample.host (sample_world true) None false) before = true
            /\ outcome_of Sample.host (sample_world true) None false s
               = Driver.Error message
            /\ Generate.finished r =
               Generate.Throws
                 ("Failed to convert " ++ Generate.file s ++ ": " ++ message)%string
            /\ Generate.written r = None
            /\ slides_added (Generate.deck r) = length before)).
Proof.
  apply (generatePPTX_writes_only_complete_decks Sample.host (sample_world true) None
           "deck" "out.pptx").
  - reflexivity.
  - vm_compute. discriminate.
Defined.

(** X13.  Check mode predicts generation mode: on the same directory,
    [generatePPTX] in check mode returns (rather than exits or throws)
    exactly when in generation mode it writes the presentation. *)
Theorem generatePPTX_check_predicts_generation :
  forall (host : Host) (world : Generate.World) (presLayout : option Driver.Layout)
         (workDir outputFile : string),
    let dry := Generate.generatePPTX host world presLayout workDir outputFile true in
    let real := Generate.generatePPTX host world presLayout workDir outputFile false in
    (Generate.finished dry = Generate.Returns None
     <-> Generate.written real = Some (outputFile, Generate.deck real))
    /\ (Generate.written real = None
        <-> exists message, Generate.finished real = Generate.Throws message)
    /\ (forall message,
          Generate.finished dry = Generate.Throws message
          -> Generate.finished real = Generate.Throws message).
Proof.
  intros host world presLayout workDir outputFile dry real.
  subst dry real. unfold Generate.generatePPTX.
  destruct (Generate.existsSync world workDir).
  2:{ cbn [negb]. simpl. repeat split; try discriminate; eauto. }
  cbn [negb].
  destruct (Generate.collectSlides world workDir) as [|s rest] eqn:S.
  { simpl. repeat split; try discriminate; eauto. }
  cbn [is_nil]. rewrite checkAll_spec.
  pose proof (failures_nil host world presLayout (s :: rest)) as Nil.
  pose proof (convertAll_spec host world presLayout (s :: rest) []) as Spec.
  assert (Modes : forallb (passes host world presLayout true) (s :: rest)
                  = forallb (passes host world presLayout false) (s :: rest)).
  { generalize (s :: rest). intro l. induction l as [|x l IH]; [reflexivity|].
    cbn [forallb]. rewrite IH, passes_in_both_modes. reflexivity. }
  destruct (Generate.convertAll host world presLayout (s :: rest) [])
    as [after [[failed message]|]].
  - destruct Spec as [before [s' [later [E [B [O [F C]]]]]]].
    assert (Fails : forallb (passes host world presLayout false) (s :: rest) = false).
    { rewrite E, forallb_app. cbn [forallb]. unfold passes at 2. rewrite O.
      rewrite andb_false_r. reflexivity. }
    rewrite <- Modes, <- Nil in Fails.
    destruct (flat_map _ _) as [|e es]; [discriminate|].
    simpl. repeat split; try discriminate; eauto.
  - destruct Spec as [B _]. rewrite <- Modes, <- Nil in B.
    destruct (flat_map _ _) as [|e es]; [|discriminate].
    simpl. repeat split; try discriminate; try (intros [message H]; discriminate).
Qed.

(** *** [parseArgs], the positional arguments *)

Lemma check_flag_is_no_html_name arg :
  is_check_flag arg = true -> is_html_name arg = false.
Proof.
  unfold is_check_flag. intro F. apply orb_true_iff in F.
  destruct F as [F|F]; apply String.eqb_eq in F; subst arg; reflexivity.
Qed.

Lemma parseArg_cases r arg :
  Generate.parseArg r arg =
  if is_check_flag arg then with_check r
  else if is_html_name arg then
    Generate.mkArgs (Generate.checkMode r) (Generate.workDir r) (Some arg)
      (Generate.outputFile r)
  else if Generate.is_unset (Generate.workDir r) then
    Generate.mkArgs (Generate.checkMode r) (Some arg) (Generate.singleFile r)
      (Generate.outputFile r)
  else if Generate.is_unset (Generate.outputFile r) then
    Generate.mkArgs (Generate.checkMode r) (Generate.workDir r) (Generate.singleFile r)
      (Some arg)
  else r.
Proof. reflexivity. Qed.

Lemma fold_parseArg_singleFile args :
  forall r,
    Generate.singleFile (fold_left Generate.parseArg args r)
    = match rev (filter is_html_name args) with
      | [] => Generate.singleFile r
      | last :: _ => Some last
      end.
Proof.
  induction args as [|a rest IH]; intro r; [reflexivity|].
  cbn [fold_left filter]. rewrite IH, parseArg_cases.
  destruct (is_check_flag a) eqn:F.
  - rewrite (check_flag_is_no_html_name _ F). reflexivity.
  - destruct (is_html_name a).
    + cbn [rev]. destruct (rev (filter is_html_name rest)); reflexivity.
    + destruct (rev (filter is_html_name rest)); [|reflexivity].
      destruct (Generate.is_unset (Generate.workDir r)); [reflexivity|].
      destruct (Generate.is_unset (Generate.outputFile r)); reflexivity.
Qed.

Lemma fold_parseArg_workDir args :
  forall r,
    Generate.workDir (fold_left Generate.parseArg args r)
    = if Generate.is_unset (Generate.workDir r) then
        match find nonempty (filter is_positional args) with
        | Some w => Some w
        | None =>
            if is_nil (filter is_positional args) then Generate.workDir r
            else Some ""%string
        end
      else Generate.workDir r.
Proof.
  induction args as [|a rest IH]; intro r.
  - cbn. destruct (Generate.is_unset _); reflexivity.
  - cbn [fold_left filter]. rewrite IH, parseArg_cases.
    assert (P : is_positional a
                = (negb (is_check_flag a) && negb (is_html_name a))%bool)
      by reflexivity.
    destruct (is_check_flag a) eqn:F;
      [cbn [negb andb] in P; rewrite P; reflexivity|].
    destruct (is_html_name a) eqn:H;
      [cbn [negb andb] in P; rewrite P; reflexivity|].
    cbn [negb andb] in P. rewrite P. cbn [find is_nil].
    destruct (Generate.is_unset (Generate.workDir r)) eqn:U.
    + cbn [Generate.workDir Generate.is_unset]. unfold nonempty at 2.
      destruct (String.eqb a "") eqn:E; cbn [negb]; [|reflexivity].
      apply String.eqb_eq in E. subst a.
      destruct (find nonempty _); [reflexivity|].
      destruct (is_nil _); reflexivity.
    + destruct (Generate.is_unset (Generate.outputFile r));
        cbn [Generate.workDir]; rewrite ?U; reflexivity.
Qed.

Lemma fold_parseArg_outputFile args :
  forall r o,
    Generate.outputFile (fold_left Generate.parseArg args r) = Some o ->
    Generate.outputFile r = Some o \/ (In o args /\ is_positional o = true).
Proof.
  induction args as [|a rest IH]; intros r o H; [left; exact H|].
  cbn [fold_left] in H. apply IH in H. destruct H as [H|[I P]].
  - rewrite parseArg_cases in H.
    assert (P : is_positional a
                = (negb (is_check_flag a) && negb (is_html_name a))%bool)
      by reflexivity.
    destruct (is_check_flag a); [left; exact H|].
    destruct (is_html_name a); [left; exact H|].
    destruct (Generate.is_unset (Generate.workDir r)); [left; exact H|].
    destruct (Generate.is_unset (Generate.outputFile r)); [|left; exact H].
    cbn in H. injection H as <-. right. split; [left; reflexivity|exact P].
  - right. split; [right; exact I|exact P].
Qed.

(** X14.  [parseArgs] sorts the arguments by their form.  The single file
    is the last argument that ends in [.html]; the work directory is the
    first non-empty argument that is neither a check flag nor such a
    name (the empty string if all of those are empty, [null] if there is
    none); the output file, if any, is another argument of that form.  A
    check flag or an [.html] name is never taken for a directory or an
    output file. *)
Theorem parseArgs_sorts_arguments_by_form :
  forall (args : list string),
    let r := Generate.parseArgs args in
    Generate.singleFile r = hd_error (rev (filter is_html_name args))
    /\ Generate.workDir r =
       match find nonempty (filter is_positional args) with
       | Some w => Some w
       | None => if is_nil (filter is_positional args) then None else Some ""%string
       end
    /\ (forall o, Generate.outputFile r = Some o ->
                  In o args /\ is_positional o = true)
    /\ (forall a, is_check_flag a = true \/ is_html_name a = true ->
                  is_positional a = false).
Proof.
  intros args r. subst r. unfold Generate.parseArgs.
  split; [|split; [|split]].
  - rewrite fold_parseArg_singleFile. cbn [Generate.singleFile].
    destruct (rev _); reflexivity.
  - rewrite fold_parseArg_workDir. reflexivity.
  - intros o H. apply fold_parseArg_outputFile in H.
    destruct H as [H|H]; [discriminate|exact H].
  - intros a [F|H]; unfold is_positional.
    + rewrite F. reflexivity.
    + rewrite H. apply andb_false_r.
Qed.

(** ** The options of inline runs *)

(** Induction on a node with the hypothesis on all its children. *)
Lemma Node_nested_ind (P : Node -> Prop) :
  (forall data, P (TextNode data)) ->
  (forall d kids, Forall P kids -> P (ElemNode d kids)) ->
  forall n, P n.
Proof.
  intros Text Elem. fix IH 1. intros [data|d kids]; [apply Text|].
  apply Elem. induction kids as [|k rest IHkids]; constructor.
  - apply IH.
  - exact IHkids.
Qed.

Lemma Forall_update_last {A} (P : A -> Prop) (f : A -> A) l :
  (forall a, P a -> P (f a)) -> Forall P l -> Forall P (update_last f l).
Proof.
  intros F H. induction H as [|a rest Pa Prest IH]; [constructor|].
  destruct rest as [|b rest']; [constructor; [apply F; exact Pa|constructor]|].
  change (update_last f (a :: b :: rest')) with (a :: update_last f (b :: rest')).
  constructor; [exact Pa|exact IH].
Qed.

Lemma Forall_update_first {A} (P : A -> Prop) (f : A -> A) l :
  (forall a, P a -> P (f a)) -> Forall P l -> Forall P (update_first f l).
Proof.
  intros F H. destruct H as [|a rest Pa Prest]; [constructor|].
  constructor; [apply F; exact Pa|exact Prest].
Qed.

Lemma each_run_trim_ends P runs : each_run P runs -> each_run P (Page.trim_ends runs).
Proof.
  intro H. unfold Page.trim_ends, each_run.
  apply Forall_update_last; [intros r Pr; exact Pr|].
  apply Forall_update_first; [intros r Pr; exact Pr|exact H].
Qed.

Section RunOptions.

Variable host : Host.

(** A property of run options that every option the parser sets keeps,
    and that the merge of two option objects keeps. *)
Variable P : RunOptions -> Prop.
Hypothesis keeps_bold : forall v o, P o -> P (set_bold v o).
Hypothesis keeps_italic : forall v o, P o -> P (set_italic v o).
Hypothesis keeps_underline : forall v o, P o -> P (set_underline v o).
Hypothesis keeps_color : forall v o, P o -> P (set_color v o).
Hypothesis keeps_transparency : forall v o, P o -> P (set_transparency v o).
Hypothesis keeps_fontSize : forall v o, P o -> P (set_fontSize v o).
Hypothesis keeps_spread : forall a b, P a -> P b -> P (spread a b).

Lemma with_color_keeps c o : P o -> P (Page.with_color host c o).
Proof.
  intro H. unfold Page.with_color. destruct (_ && _)%bool; [|exact H].
  destruct (Page.extractAlpha _); auto.
Qed.

Lemma add_text_keeps prev text base st :
  P base -> each_run P (Page.ps_runs st) ->
  each_run P (Page.ps_runs (Page.add_text prev text base st)).
Proof.
  intros B H. unfold Page.add_text. destruct (_ && _)%bool; cbn [Page.ps_runs].
  - apply Forall_update_last; [intros r Pr; exact Pr|exact H].
  - apply Forall_app. split; [exact H|]. constructor; [exact B|constructor].
Qed.

Lemma add_icon_keeps prev glyph options st :
  P options -> each_run P (Page.ps_runs st) ->
  each_run P (Page.ps_runs (Page.add_icon prev glyph options st)).
Proof.
  intros B H. unfold Page.add_icon. destruct (_ && _)%bool; cbn [Page.ps_runs].
  - apply Forall_update_last; [|exact H].
    intros r Pr. cbn [run_options]. apply keeps_spread; assumption.
  - apply Forall_app. split; [exact H|]. constructor; [exact B|constructor].
Qed.

Lemma parseNode_keeps n :
  forall base tt preserve prev st,
    P base -> each_run P (Page.ps_runs st) ->
    each_run P (Page.ps_runs (snd (Page.parseNode host n base tt preserve prev st))).
Proof.
  induction n as [data|d kids IH] using Node_nested_ind;
    intros base tt preserve prev st B H.
  - cbn [Page.parseNode]. destruct (_ && _ && _)%bool; [exact H|].
    cbn [snd]. apply add_text_keeps; assumption.
  - cbn [Page.parseNode].
    destruct (String.eqb (tagName d) "BR");
      [cbn [snd]; apply add_text_keeps; assumption|].
    destruct (nonempty _); [|exact H].
    destruct (string_in _ _); [|exact H].
    destruct (if (_ && _)%bool then _ else None) as [glyph|].
    + cbn [snd]. apply add_icon_keeps; [|exact H].
      apply keeps_fontSize, with_color_keeps, B.
    + cbn [snd Page.ps_runs]. apply each_run_trim_ends.
      assert (O : P (set_fontSize (Page.pxToPoints (fontSize (computed d)))
                       (Page.with_color host (computed d)
                          (let options := base in
                           let options :=
                             if (Page.isBold (computed d)
                                 && negb (Page.shouldSkipBold (fontFamily (computed d))))%bool
                             then set_bold true options else options in
                           let options :=
                             if String.eqb (fontStyle (computed d)) "italic"
                             then set_italic true options else options in
                           if includes (textDecoration (computed d)) "underline"
                           then set_underline true options else options)))).
      { apply keeps_fontSize, with_color_keeps. cbv zeta.
        destruct (includes _ _); [apply keeps_underline|];
          (destruct (String.eqb (fontStyle _) _); [apply keeps_italic|]);
          (destruct (_ && _)%bool; [apply keeps_bold|]); exact B. }
      cbv zeta in O.
      match goal with
      | |- each_run P (Page.ps_runs (?each kids ?start ?st0)) =>
          assert (Each : forall l prev0 s,
                     Forall (fun n => forall base tt preserve prev st,
                                 P base -> each_run P (Page.ps_runs st) ->
                                 each_run P
                                   (Page.ps_runs
                                      (snd (Page.parseNode host n base tt preserve prev st))))
                            l ->
                     each_run P (Page.ps_runs s) ->
                     each_run P (Page.ps_runs (each l prev0 s)));
          [|apply Each; [exact IH|exact H]]
      end.
      intros l prev0 s L. revert prev0 s.
      induction L as [|k rest Hk Hrest IHrest]; intros prev0 s S0; [exact S0|].
      match goal with
      | |- context [Page.parseNode host k ?o ?t preserve prev0 s] =>
          specialize (Hk o t preserve prev0 s O S0);
          destruct (Page.parseNode host k o t preserve prev0 s) as [prev1 st1]
      end.
      apply IHrest. exact Hk.
Qed.

Lemma parseNodes_keeps kids :
  forall base tt preserve prev st,
    P base -> each_run P (Page.ps_runs st) ->
    each_run P (Page.ps_runs (Page.parseNodes host kids base tt preserve prev st)).
Proof.
  induction kids as [|k rest IH]; intros base tt preserve prev st B H; [exact H|].
  cbn [Page.parseNodes].
  pose proof (parseNode_keeps k base tt preserve prev st B H) as K.
  destruct (Page.parseNode host k base tt preserve prev st) as [prev1 st1].
  apply IH; [exact B|exact K].
Qed.

Lemma parseInlineFormatting_keeps element base runs tt preserve errors :
  P base -> each_run P runs ->
  each_run P (fst (Page.parseInlineFormatting host element base runs tt preserve errors)).
Proof.
  intros B H. unfold Page.parseInlineFormatting. cbn [fst Page.ps_runs].
  unfold Page.nonempty_runs, each_run. apply Forall_forall. intros r I.
  apply filter_In in I. destruct I as [I _]. revert r I. apply Forall_forall.
  apply each_run_trim_ends, parseNodes_keeps; [exact B|exact H].
Qed.

End RunOptions.

Lemma update_last_app {A} (f : A -> A) front x :
  update_last f (front ++ [x]) = (front ++ [f x])%list.
Proof.
  induction front as [|a rest IH]; [reflexivity|].
  destruct rest as [|b rest']; [reflexivity|].
  change (update_last f ((a :: b :: rest') ++ [x]))
    with (a :: update_last f ((b :: rest') ++ [x])).
  rewrite IH. reflexivity.
Qed.

Lemma snoc_of_cons {A} (a : A) l : exists front last, a :: l = (front ++ [last])%list.
Proof.
  revert a. induction l as [|b rest IH]; intro a.
  - exists [], a. reflexivity.
  - destruct (IH b) as [front [last E]]. exists (a :: front), last.
    rewrite E. reflexivity.
Qed.

(** What the list branch makes of the runs of one item. *)
Lemma item_runs_marked isLast runs :
  each_run (fun o => o_breakLine o = Some false /\ o_bullet o = None) runs ->
  item_runs isLast
    (let runs :=
       update_first
         (fun r => mkRun (Page.stripListBullet (run_text r))
                         (set_bullet 3 (run_options r))) runs in
     if negb isLast then update_last (set_options (set_breakLine true)) runs
     else runs).
Proof.
  intro H. cbv zeta. destruct H as [|first others [B0 U0] Others].
  { destruct isLast; split; left; reflexivity. }
  cbn [update_first].
  set (first' := mkRun (Page.stripListBullet (run_text first))
                       (set_bullet 3 (run_options first))).
  assert (Breaks : each_run (fun o => o_breakLine o = Some false) (first' :: others)).
  { constructor; [exact B0|].
    eapply Forall_impl; [|exact Others]. intros r [B _]. exact B. }
  assert (Bullets : each_run (fun o => o_bullet o = None) others).
  { eapply Forall_impl; [|exact Others]. intros r [_ U]. exact U. }
  destruct isLast; cbn [negb].
  - split; right.
    + destruct (snoc_of_cons first' others) as [front [last E]].
      exists front, last. split; [exact E|].
      rewrite E in Breaks. apply Forall_app in Breaks. destruct Breaks as [F L].
      split; [exact F|]. inversion L; subst. assumption.
    + exists first', others. repeat split. exact Bullets.
  - split; right.
    + destruct (snoc_of_cons first' others) as [front [last E]].
      rewrite E, update_last_app. eexists front, _.
      split; [reflexivity|].
      rewrite E in Breaks. apply Forall_app in Breaks. destruct Breaks as [F _].
      split; [exact F|reflexivity].
    + destruct others as [|second more].
      * eexists _, []. split; [reflexivity|]. split; [reflexivity|constructor].
      * change (update_last (set_options (set_breakLine true))
                  (first' :: second :: more))
          with (first' :: update_last (set_options (set_breakLine true))
                            (second :: more)).
        eexists first', _. split; [reflexivity|]. split; [reflexivity|].
        apply Forall_update_last; [|exact Bullets].
        intros r U. exact U.
Qed.

(** *** The runs do not depend on the errors collected so far *)

Lemma add_text_runs prev text base st st' :
  Page.ps_runs st = Page.ps_runs st' ->
  Page.ps_runs (Page.add_text prev text base st)
  = Page.ps_runs (Page.add_text prev text base st').
Proof.
  intro E. unfold Page.add_text. rewrite E.
  destruct (_ && _)%bool; reflexivity.
Qed.

Lemma add_icon_runs prev glyph options st st' :
  Page.ps_runs st = Page.ps_runs st' ->
  Page.ps_runs (Page.add_icon prev glyph options st)
  = Page.ps_runs (Page.add_icon prev glyph options st').
Proof.
  intro E. unfold Page.add_icon. rewrite E.
  destruct (_ && _)%bool; reflexivity.
Qed.

Lemma parseNode_runs host n :
  forall base tt preserve prev st st',
    Page.ps_runs st = Page.ps_runs st' ->
    fst (Page.parseNode host n base tt preserve prev st)
    = fst (Page.parseNode host n base tt preserve prev st')
    /\ Page.ps_runs (snd (Page.parseNode host n base tt preserve prev st))
       = Page.ps_runs (snd (Page.parseNode host n base tt preserve prev st')).
Proof.
  induction n as [data|d kids IH] using Node_nested_ind;
    intros base tt preserve prev st st' E.
  - cbn [Page.parseNode]. destruct (_ && _ && _)%bool; cbn [fst snd].
    + split; [reflexivity|exact E].
    + split; [reflexivity|apply add_text_runs; exact E].
  - cbn [Page.parseNode].
    destruct (String.eqb (tagName d) "BR");
      [cbn [fst snd]; split; [reflexivity|apply add_text_runs; exact E]|].
    destruct (nonempty _); [|split; [reflexivity|exact E]].
    destruct (string_in _ _); [|split; [reflexivity|exact E]].
    destruct (if (_ && _)%bool then _ else None) as [glyph|].
    + cbn [fst snd]. split; [reflexivity|apply add_icon_runs; exact E].
    + cbn [fst snd Page.ps_runs]. split; [reflexivity|]. f_equal.
      match goal with
      | |- Page.ps_runs (?each kids false ?s0) = Page.ps_runs (?each kids false ?s0') =>
          assert (Each : forall l prev0 s s',
                     Forall (fun n => forall base tt preserve prev st st',
                                 Page.ps_runs st = Page.ps_runs st' ->
                                 fst (Page.parseNode host n base tt preserve prev st)
                                 = fst (Page.parseNode host n base tt preserve prev st')
                                 /\ Page.ps_runs
                                      (snd (Page.parseNode host n base tt preserve prev st))
                                    = Page.ps_runs
                                        (snd (Page.parseNode host n base tt preserve prev
                                                st')))
                            l ->
                     Page.ps_runs s = Page.ps_runs s' ->
                     Page.ps_runs (each l prev0 s) = Page.ps_runs (each l prev0 s'));
          [|apply Each; [exact IH|cbn [Page.ps_runs]; exact E]]
      end.
      intros l prev0 s s' L. revert prev0 s s'.
      induction L as [|k rest Hk Hrest IHrest]; intros prev0 s s' S0; [exact S0|].
      match goal with
      | |- context [Page.parseNode host k ?o ?t preserve prev0 s] =>
          specialize (Hk o t preserve prev0 s s' S0);
          destruct (Page.parseNode host k o t preserve prev0 s) as [prev1 st1];
          destruct (Page.parseNode host k o t preserve prev0 s') as [prev1' st1']
      end.
      cbn [fst snd] in Hk. destruct Hk as [<- Runs].
      apply IHrest. exact Runs.
Qed.

Lemma parseNodes_runs host kids :
  forall base tt preserve prev st st',
    Page.ps_runs st = Page.ps_runs st' ->
    Page.ps_runs (Page.parseNodes host kids base tt preserve prev st)
    = Page.ps_runs (Page.parseNodes host kids base tt preserve prev st').
Proof.
  induction kids as [|k rest IH]; intros base tt preserve prev st st' E; [exact E|].
  cbn [Page.parseNodes].
  pose proof (parseNode_runs host k base tt preserve prev st st' E) as K.
  destruct (Page.parseNode host k base tt preserve prev st) as [prev1 st1].
  destruct (Page.parseNode host k base tt preserve prev st') as [prev1' st1'].
  cbn [fst snd] in K. destruct K as [<- Runs].
  apply IH. exact Runs.
Qed.

(** What [parseInlineFormatting] returns is the same whatever the
    [errors] array holds when it is called. *)
Lemma parseInlineFormatting_runs host element base runs tt preserve errors errors' :
  fst (Page.parseInlineFormatting host element base runs tt preserve errors)
  = fst (Page.parseInlineFormatting host element base runs tt preserve errors').
Proof.
  unfold Page.parseInlineFormatting. cbn [fst Page.ps_runs].
  rewrite (parseNodes_runs host (node_children element) base tt preserve false
             (Page.mkParseState runs errors) (Page.mkParseState runs errors')
             eq_refl).
  reflexivity.
Qed.

Lemma map_update_last_same {A B} (g : A -> B) (f : A -> A) l :
  (forall a, g (f a) = g a) -> map g (update_last f l) = map g l.
Proof.
  intro Same. induction l as [|a rest IH]; [reflexivity|].
  destruct rest as [|b rest']; [cbn; rewrite Same; reflexivity|].
  change (update_last f (a :: b :: rest')) with (a :: update_last f (b :: rest')).
  cbn [map] in *. rewrite IH. reflexivity.
Qed.

(** X15.  The runs of a list are the runs of its items, item by item: the
    runs of each item are the runs the inline parser returns for it, with
    the same texts and options, but for a manual bullet stripped from the
    text of the first run and for the [bullet] and [breakLine] keys.  In
    each item that has runs, the first run, and only the first, carries
    the bullet; the last run ends the line exactly when another item
    follows, and no other run does. *)
Theorem list_items_break_between_items :
  forall (host : Host) (liElements : list Located) (errors : list string),
    exists groups,
      fst (Page.listItems host liElements errors) = concat groups
      /\ length groups = length liElements
      /\ Forall2
           (fun li group =>
              map unmarked group
              = map unmarked
                  (update_first (set_text Page.stripListBullet) (item_parse host li)))
           liElements groups
      /\ list_runs groups.
Proof.
  intros host liElements. induction liElements as [|li rest IH]; intro errors.
  - exists []. repeat split. constructor.
  - cbn [Page.listItems].
    pose proof (parseInlineFormatting_keeps host
                  (fun o => o_breakLine o = Some false /\ o_bullet o = None)) as Keeps.
    specialize (Keeps ltac:(intros v o H; exact H) ltac:(intros v o H; exact H)
                      ltac:(intros v o H; exact H) ltac:(intros v o H; exact H)
                      ltac:(intros v o H; exact H) ltac:(intros v o H; exact H)).
    assert (Spread : forall a b,
               o_breakLine a = Some false /\ o_bullet a = None ->
               o_breakLine b = Some false /\ o_bullet b = None ->
               o_breakLine (spread a b) = Some false /\ o_bullet (spread a b) = None).
    { intros a b [A1 A2] [B1 B2]. cbn [spread o_breakLine o_bullet].
      rewrite A1, A2, B1, B2. split; reflexivity. }
    specialize (Keeps Spread (node li) (set_breakLine false no_options) []
                      (fun text => text) false errors
                      (conj eq_refl eq_refl) (Forall_nil _)).
    pose proof (parseInlineFormatting_runs host (node li)
                  (set_breakLine false no_options) [] (fun text => text) false
                  errors []) as Runs.
    fold (item_parse host li) in Runs.
    destruct (Page.parseInlineFormatting host (node li) _ _ _ _ errors) as [runs ps].
    cbn [fst] in Keeps, Runs.
    destruct (IH (Page.ps_errors ps)) as [groups [E [L [F G]]]].
    destruct (Page.listItems host rest (Page.ps_errors ps)) as [items errors'].
    cbn [fst] in E |- *.
    eexists (_ :: groups). split; [cbn [concat]; rewrite <- E; reflexivity|].
    split; [cbn [length]; rewrite L; reflexivity|].
    split.
    + constructor; [|exact F]. rewrite <- Runs.
      assert (First : map unmarked
                        (update_first
                           (fun r => mkRun (Page.stripListBullet (run_text r))
                                       (set_bullet 3 (run_options r))) runs)
                      = map unmarked (update_first (set_text Page.stripListBullet) runs))
        by (destruct runs; reflexivity).
      destruct (negb (is_nil rest)); [|exact First].
      rewrite map_update_last_same by reflexivity. exact First.
    + cbn [list_runs]. split; [|exact G].
      assert (Last : is_nil groups = is_nil rest)
        by (destruct groups, rest; try reflexivity; discriminate).
      rewrite Last. exact (item_runs_marked (is_nil rest) runs Keeps).
Qed.

(** ** Data cells with inline markup *)

Lemma runs_with_colour_have_style_keys runs :
  each_run (fun o => is_some (o_color o) = true) runs ->
  existsb (fun r => Page.hasStyleKey (run_options r)) runs = negb (is_nil runs).
Proof.
  intro H. destruct H as [|r rest C _]; [reflexivity|].
  cbn [existsb is_nil negb]. unfold Page.hasStyleKey. rewrite C.
  rewrite !orb_true_r. reflexivity.
Qed.

(** X16.  A data cell that contains inline markup ([span], [b],
    [strong], [i], [em], [u]) is extracted as the runs of its content
    when there is at least one; when the markup yields no run (it holds no
    text) the cell reaches a branch that reads [td], an identifier the
    script binds nowhere, and the extraction ends in an exception. *)
Theorem data_cell_without_runs_aborts :
  forall (host : Host) (rowBgColor : CssColor) (cell : Located) (d : ElemData)
         (kids : list Node) (st : Page.ExtractState),
    node cell = ElemNode d kids ->
    Page.within ["SPAN"; "B"; "STRONG"; "I"; "EM"; "U"]%string cell <> [] ->
    let color := Page.rgbToHex (Page.getComputedRGBColor host (color (computed d))) in
    let runs :=
      fst (Page.parseInlineFormatting host (node cell)
             (mkRunOptions None None None (Some color) None
                (Some (Page.cellFontSize (computed d)))
                (Some (Page.fontFaceOf (fontFamily (computed d)))) None None)
             [] (fun str => str) false (Page.st_errors st)) in
    (runs = [] -> exists exn, Page.dataCell host rowBgColor cell st = Page.CellsThrow exn)
    /\ (runs <> [] ->
        exists options st',
          Page.dataCell host rowBgColor cell st
          = Page.CellsOk [mkCell (RunList runs) options] st'
          /\ c_bold options = false
          /\ Page.st_elements st' = Page.st_elements st
          /\ Page.st_processed st' = Page.st_processed st).
Proof.
  intros host rowBgColor cell d kids st N Inline color runs.
  pose proof (parseInlineFormatting_keeps host
                (fun o => is_some (o_color o) = true)) as Keeps.
  specialize (Keeps ltac:(intros v o H; exact H) ltac:(intros v o H; exact H)
                    ltac:(intros v o H; exact H) ltac:(intros v o H; reflexivity)
                    ltac:(intros v o H; exact H) ltac:(intros v o H; exact H)).
  assert (Spread : forall a b,
             is_some (o_color a) = true -> is_some (o_color b) = true ->
             is_some (o_color (spread a b)) = true).
  { intros a b A B. cbn [spread o_color]. destruct (o_color b); [reflexivity|exact A]. }
  specialize (Keeps Spread (node cell)
                    (mkRunOptions None None None (Some color) None
                       (Some (Page.cellFontSize (computed d)))
                       (Some (Page.fontFaceOf (fontFamily (computed d)))) None None)
                    [] (fun str => str) false (Page.st_errors st)
                    eq_refl (Forall_nil _)).
  fold runs in Keeps. apply runs_with_colour_have_style_keys in Keeps.
  unfold Page.dataCell. rewrite N.
  destruct (Page.within _ cell) as [|found more] eqn:W; [contradiction|].
  cbn [is_nil negb]. rewrite <- N. fold color.
  subst runs.
  destruct (Page.parseInlineFormatting host (node cell) _ _ _ _ _) as [runs ps].
  cbn [fst] in *. rewrite Keeps. split.
  - intros ->. eexists. reflexivity.
  - intro Some_runs. destruct runs as [|r rest]; [contradiction|].
    cbn [is_nil negb andb]. eexists _, _. split; [reflexivity|].
    repeat split.
Qed.

Lemma data_cell_without_runs_aborts_witness :
  (exists exn,
      Page.dataCell Sample.host (ColorRgba 0 0 0 0) blank_markup_cell
        (Page.mkExtractState [] [] [] []) = Page.CellsThrow exn)
  /\ (exists exn, Page.extractSlideData Sample.host blank_markup_table = inr exn).
Proof.
  split.
  - destruct (data_cell_without_runs_aborts Sample.host (ColorRgba 0 0 0 0)
                blank_markup_cell _ _ (Page.mkExtractState [] [] [] []) eq_refl)
      as [Abort _].
    + vm_compute. discriminate.
    + apply Abort. vm_compute. reflexivity.
  - eexists. vm_compute. reflexivity.
Defined.

(** ** Colours, transparency and shadows *)

Lemma Math_round_between (lo hi : Z) (v : Q) :
  inject_Z lo <= v -> v <= inject_Z hi -> (lo <= Math_round v <= hi)%Z.
Proof.
  intros L H. unfold Math_round. split.
  - rewrite <- (Qfloor_Z lo). apply Qfloor_resp_le. lra.
  - pose proof (Qfloor_le (v + (1 # 2))) as F.
    assert (S : inject_Z (Qfloor (v + (1 # 2))) < inject_Z (hi + 1)).
    { rewrite inject_Z_plus. change (inject_Z 1) with 1. lra. }
    rewrite <- Zlt_Qlt in S. lia.
Qed.

Lemma Math_round_monotone (v w : Q) : v <= w -> (Math_round v <= Math_round w)%Z.
Proof. intro H. unfold Math_round. apply Qfloor_resp_le. lra. Qed.

Lemma Math_round_integer (z : Z) (v : Q) : v == inject_Z z -> Math_round v = z.
Proof.
  intro E. destruct (Math_round_between z z v); [lra..|]. lia.
Qed.

(** X17.  [extractAlpha] turns the alpha of an [rgba()] colour into a
    transparency in percent: a whole number between 0 and 100 for an
    alpha between 0 and 1, 0 for an opaque colour and 100 for a fully
    transparent one, and never larger for a larger alpha.  A colour
    without an alpha channel has no transparency. *)
Theorem extractAlpha_is_a_percentage :
  forall (r g b : Z) (alpha : Q),
    0 <= alpha -> alpha <= 1 ->
    (exists t,
        Page.extractAlpha (ColorRgba r g b alpha) = Some t
        /\ (0 <= t <= 100)%Z
        /\ (alpha == 1 -> t = 0%Z)
        /\ (alpha == 0 -> t = 100%Z)
        /\ (forall r' g' b' alpha' t',
              alpha <= alpha' ->
              Page.extractAlpha (ColorRgba r' g' b' alpha') = Some t' ->
              (t' <= t)%Z))
    /\ Page.extractAlpha (ColorRgb r g b) = None
    /\ Page.extractAlpha ColorTransparent = None
    /\ Page.extractAlpha ColorEmpty = None.
Proof.
  intros r g b alpha Lo Hi. split; [|repeat split].
  eexists. split; [reflexivity|]. split; [|split; [|split]].
  - apply (Math_round_between 0 100); change (inject_Z 0) with 0;
      change (inject_Z 100) with 100; lra.
  - intro E. apply Math_round_integer. rewrite E. reflexivity.
  - intro E. apply Math_round_integer. rewrite E. reflexivity.
  - intros r' g' b' alpha' t' Le H. injection H as <-.
    apply Math_round_monotone. lra.
Qed.

Lemma extractAlpha_is_a_percentage_witness :
  exists t,
    Page.extractAlpha (ColorRgba 255 0 0 (7 # 10)) = Some t /\ (0 <= t <= 100)%Z.
Proof.
  destruct (extractAlpha_is_a_percentage 255 0 0 (7 # 10)) as [[t [E [B _]]] _].
  - vm_compute. discriminate.
  - vm_compute. discriminate.
  - exists t. split; [exact E|exact B].
Defined.

Lemma string_length_append (a b : string) :
  String.length (a ++ b) = (String.length a + String.length b)%nat.
Proof. induction a as [|c a IH]; simpl; [reflexivity|rewrite IH; reflexivity]. Qed.

Lemma hex2_two_digits (n : Z) :
  (0 <= n <= 255)%Z -> String.length (Page.hex2 n) = 2%nat.
Proof.
  intro R.
  assert (All : forallb (fun k => Nat.eqb (String.length (Page.hex2 (Z.of_nat k))) 2)
                  (seq 0 256) = true) by (vm_compute; reflexivity).
  rewrite forallb_forall in All.
  specialize (All (Z.to_nat n)). rewrite Z2Nat.id in All by lia.
  apply Nat.eqb_eq, All, in_seq. lia.
Qed.

(** X18.  [rgbToHex] always yields six characters for a colour whose
    channels are within 0..255.  The alpha channel is dropped, except that
    fully transparent black, like the keyword [transparent], the empty
    string and any syntax other than [rgb()]/[rgba()], comes out as white. *)
Theorem rgbToHex_six_digits :
  forall (c : CssColor),
    byte_channels c ->
    String.length (Page.rgbToHex c) = 6%nat
    /\ (forall r g b alpha,
          c = ColorRgba r g b alpha ->
          Page.rgbToHex c
          = if (Z.eqb r 0 && Z.eqb g 0 && Z.eqb b 0 && Qeq_bool alpha 0)%bool
            then "FFFFFF"%string else Page.rgbToHex (ColorRgb r g b))
    /\ (match c with
        | ColorEmpty | ColorTransparent | ColorOther _ =>
            Page.rgbToHex c = "FFFFFF"%string
        | _ => True
        end).
Proof.
  intros c R. split; [|split].
  - unfold Page.rgbToHex.
    destruct (_ || _)%bool; [reflexivity|].
    destruct c as [| |r g b|r g b alpha|css]; try reflexivity;
      destruct R as [Rr [Rg Rb]];
      rewrite !string_length_append, !hex2_two_digits by assumption; reflexivity.
  - intros r g b alpha ->. unfold Page.rgbToHex. cbn [is_rgba_zero color_is_transparent_kw].
    rewrite orb_false_r. destruct (_ && _)%bool; reflexivity.
  - destruct c; try exact I; reflexivity.
Qed.

Lemma rgbToHex_six_digits_witness :
  String.length (Page.rgbToHex (ColorRgba 255 0 10 (1 # 2))) = 6%nat.
Proof.
  apply (rgbToHex_six_digits (ColorRgba 255 0 10 (1 # 2))).
  vm_compute. repeat split; discriminate.
Defined.

(** X19.  A shape whose background has no alpha channel takes its
    transparency from the element's opacity: none at opacity 1 or above,
    and the rounded percentage, between 0 and 100, for an opacity strictly
    between 0 and 1.  An opacity of exactly 0 counts as no opacity at all:
    the invisible element comes out opaque. *)
Theorem shape_opacity_fallback :
  forall (host : Host) (c : Computed) (r g b : Z),
    backgroundColor c = ColorRgb r g b ->
    (opacity c == 0 -> Page.shapeTransparency host c = None)
    /\ (1 <= opacity c -> Page.shapeTransparency host c = None)
    /\ (0 < opacity c -> opacity c < 1 ->
        Page.shapeTransparency host c
        = Some (Math_round ((1 - opacity c) * 100))
        /\ (0 <= Math_round ((1 - opacity c) * 100) <= 100)%Z).
Proof.
  intros host c r g b B. unfold Page.shapeTransparency, Page.getComputedRGBColor.
  rewrite B. cbn [color_is_empty color_is_transparent_kw is_rgba_zero orb
                  Page.extractAlpha or_else].
  unfold truthy. split; [|split].
  - intro Z. apply Qeq_bool_iff in Z. rewrite Z. reflexivity.
  - intro One. destruct (Qeq_bool (opacity c) 0); cbn [negb].
    + reflexivity.
    + destruct (Qlt_bool (opacity c) 1) eqn:L; [|reflexivity].
      apply Qlt_bool_iff in L. lra.
  - intros Pos Less.
    assert (NZ : Qeq_bool (opacity c) 0 = false) by (apply Qeq_bool_false; lra).
    rewrite NZ. cbn [negb].
    assert (L : Qlt_bool (opacity c) 1 = true) by (apply Qlt_bool_iff; exact Less).
    rewrite L. split; [reflexivity|].
    apply (Math_round_between 0 100); change (inject_Z 0) with 0;
      change (inject_Z 100) with 100; lra.
Qed.

Lemma shape_opacity_fallback_witness :
  Page.shapeTransparency Sample.host
    (mkComputed (ColorRgb 255 0 0) ImageNone 0 0 0 0 0
       (ColorRgb 0 0 0) (ColorRgb 0 0 0) (ColorRgb 0 0 0) (ColorRgb 0 0 0)
       (ColorRgb 0 0 0) (0, UnitPx) ShadowNone 0 (ColorRgb 0 0 0) 16 "Arial"
       (WeightNumber 400) "normal" "none" "start" "none" None
       0 0 0 0 0 0 0 0 TransformNone "horizontal-tb") = None.
Proof.
  refine (proj1 (shape_opacity_fallback Sample.host _ 255 0 0 _) _); reflexivity.
Defined.

(** X20.  [parseBoxShadow] yields a shadow only for an outer shadow with
    at least two lengths.  Its blur is three quarters of the third length
    (0 without one); without a colour it is black at opacity 0.5; with an
    [rgba()] colour the opacity is the alpha, and with an [rgb()] colour
    the opacity is the number that ends the colour, the blue channel.  A
    shadow without offset has angle 0, and the angle is within 0..360
    whenever the host's arctangent is within -180..180 degrees. *)
Theorem parseBoxShadow_outer_shadows_only :
  forall (host : Host),
    Page.parseBoxShadow host ShadowNone = None
    /\ Page.parseBoxShadow host ShadowInset = None
    /\ (forall colour lengths,
          (length lengths < 2)%nat ->
          Page.parseBoxShadow host (ShadowOuter colour lengths) = None)
    /\ (forall colour offsetX offsetY more,
          exists shadow,
            Page.parseBoxShadow host (ShadowOuter colour (offsetX :: offsetY :: more))
            = Some shadow
            /\ shadow_blur shadow = hd 0 more * (3 # 4)
            /\ (colour = None ->
                shadow_color shadow = "000000"%string
                /\ shadow_opacity shadow = 1 # 2)
            /\ (forall r g b alpha,
                  colour = Some (ColorRgba r g b alpha) ->
                  shadow_opacity shadow = alpha)
            /\ (forall r g b,
                  colour = Some (ColorRgb r g b) ->
                  shadow_opacity shadow = inject_Z b)
            /\ (offsetX == 0 -> offsetY == 0 -> shadow_angle shadow = 0%Z)
            /\ (-180 <= atan2_degrees host offsetY offsetX <= 180 ->
                (0 <= shadow_angle shadow <= 360)%Z)).
Proof.
  intro host. split; [reflexivity|]. split; [reflexivity|]. split.
  - intros colour [|a [|b more]] L; try reflexivity. simpl in L. lia.
  - intros colour offsetX offsetY more. eexists. split; [reflexivity|].
    cbn [shadow_blur shadow_color shadow_opacity shadow_angle].
    split; [destruct more; reflexivity|].
    split; [intros ->; split; reflexivity|].
    split; [intros r g b alpha ->; reflexivity|].
    split; [intros r g b ->; reflexivity|].
    split.
    + intros X Y. apply Qeq_bool_iff in X, Y. rewrite X, Y. reflexivity.
    + intros [Lo Hi].
      destruct (negb (Qeq_bool offsetX 0) || negb (Qeq_bool offsetY 0))%bool;
        [|vm_compute; split; discriminate].
      destruct (Qlt_bool _ 0) eqn:Neg.
      * apply Qlt_bool_iff in Neg.
        apply (Math_round_between 0 360); change (inject_Z 0) with 0;
          change (inject_Z 360) with 360; lra.
      * apply Qlt_bool_false in Neg.
        apply (Math_round_between 0 360); change (inject_Z 0) with 0;
          change (inject_Z 360) with 360; lra.
Qed.

(** ** Rotated boxes *)

(** X21.  Whatever the rotation, the box [getPositionAndSize] reports
    has the centre of the rendered rectangle.  Without rotation it is the
    rectangle itself; for a rotation other than a quarter turn its size is
    the element's layout size ([offsetWidth] by [offsetHeight]), not the
    size of the rotated bounding rectangle. *)
Theorem getPositionAndSize_keeps_the_centre :
  forall (el : ElemData) (rect : Rect) (rotation : option Q),
    let box := Page.getPositionAndSize el rect rotation in
    pos_x box + pos_w box / 2 == rect_left rect + rect_width rect / 2
    /\ pos_y box + pos_h box / 2 == rect_top rect + rect_height rect / 2
    /\ (rotation = None ->
        box = mkPosition (rect_left rect) (rect_top rect) (rect_width rect)
                (rect_height rect))
    /\ (forall r, rotation = Some r -> ~ r == 90 -> ~ r == 270 ->
        pos_w box = offsetWidth el /\ pos_h box = offsetHeight el).
Proof.
  intros el rect rotation box. subst box. unfold Page.getPositionAndSize.
  destruct rotation as [r|].
  - destruct (Qeq_bool r 90 || Qeq_bool r 270)%bool eqn:V; cbn [pos_x pos_y pos_w pos_h].
    + split; [field|]. split; [field|]. split; [discriminate|].
      intros r' E N90 N270. injection E as <-.
      apply orb_true_iff in V. destruct V as [V|V]; apply Qeq_bool_iff in V; contradiction.
    + split; [field|]. split; [field|]. split; [discriminate|].
      intros; split; reflexivity.
  - cbn [pos_x pos_y pos_w pos_h]. split; [field|]. split; [field|].
    split; [reflexivity|]. intros r E. discriminate.
Qed.

(** ** The element loop only appends *)

Lemma extends_refl st : extends st st.
Proof.
  repeat split; try (exists []; symmetry; apply app_nil_r). apply incl_refl.
Qed.

Lemma extends_trans a b c : extends a b -> extends b c -> extends a c.
Proof.
  intros [[e1 E1] [[p1 P1] [[r1 R1] I1]]] [[e2 E2] [[p2 P2] [[r2 R2] I2]]].
  repeat split.
  - exists (e1 ++ e2)%list. rewrite E2, E1, app_assoc. reflexivity.
  - exists (p1 ++ p2)%list. rewrite P2, P1, app_assoc. reflexivity.
  - exists (r1 ++ r2)%list. rewrite R2, R1, app_assoc. reflexivity.
  - eapply incl_tran; eassumption.
Qed.

Lemma extends_push_error e st : extends st (Page.push_error e st).
Proof.
  repeat split; cbn; try (exists []; symmetry; apply app_nil_r);
    [exists [e]; reflexivity|apply incl_refl].
Qed.

Lemma extends_more_errors es st :
  extends st (Page.set_errors (Page.st_errors st ++ es)%list st).
Proof.
  repeat split; cbn; try (exists []; symmetry; apply app_nil_r);
    [exists es; reflexivity|apply incl_refl].
Qed.

Lemma extends_push_elements els st : extends st (Page.push_elements els st).
Proof.
  repeat split; cbn; try (exists []; symmetry; apply app_nil_r);
    [exists els; reflexivity|apply incl_refl].
Qed.

Lemma extends_push_placeholder p st : extends st (Page.push_placeholder p st).
Proof.
  repeat split; cbn; try (exists []; symmetry; apply app_nil_r);
    [exists [p]; reflexivity|apply incl_refl].
Qed.

Lemma extends_add_processed ids st : extends st (Page.add_processed ids st).
Proof.
  repeat split; cbn; try (exists []; symmetry; apply app_nil_r).
  apply incl_appr, incl_refl.
Qed.

Create HintDb extends.

#[local] Hint Resolve extends_refl extends_push_error extends_more_errors
  extends_push_elements extends_push_placeholder extends_add_processed : extends.

Lemma extends_step a b c : extends a b -> extends b c -> extends a c.
Proof. apply extends_trans. Qed.

Section Appending.

Variable host : Host.
Variable offset : Q * Q.

Lemma add_text_errors prev text base st :
  Page.ps_errors (Page.add_text prev text base st) = Page.ps_errors st.
Proof. unfold Page.add_text. destruct (_ && _)%bool; reflexivity. Qed.

Lemma add_icon_errors prev glyph options st :
  Page.ps_errors (Page.add_icon prev glyph options st) = Page.ps_errors st.
Proof. unfold Page.add_icon. destruct (_ && _)%bool; reflexivity. Qed.

(** The parser only adds to the [errors] array. *)
Lemma parseNode_errors n :
  forall base tt preserve prev st,
    exists more,
      Page.ps_errors (snd (Page.parseNode host n base tt preserve prev st))
      = (Page.ps_errors st ++ more)%list.
Proof.
  induction n as [data|d kids IH] using Node_nested_ind;
    intros base tt preserve prev st.
  - cbn [Page.parseNode]. destruct (_ && _ && _)%bool; cbn [snd].
    + exists []. symmetry. apply app_nil_r.
    + rewrite add_text_errors. exists []. symmetry. apply app_nil_r.
  - cbn [Page.parseNode].
    assert (Same : forall st0 : Page.ParseState,
               exists more, Page.ps_errors st0 = (Page.ps_errors st0 ++ more)%list)
      by (intro st0; exists []; symmetry; apply app_nil_r).
    destruct (String.eqb (tagName d) "BR").
    { cbn [snd]. rewrite add_text_errors. apply Same. }
    destruct (nonempty _); [|apply Same].
    destruct (string_in _ _); [|apply Same].
    destruct (if (_ && _)%bool then _ else None) as [glyph|].
    { cbn [snd]. rewrite add_icon_errors. apply Same. }
    cbn [snd Page.ps_errors].
    match goal with
    | |- exists more, Page.ps_errors (?each kids ?start ?st0) = _ =>
        assert (Each : forall l prev0 s,
                   Forall (fun n => forall base tt preserve prev st,
                               exists more,
                                 Page.ps_errors
                                   (snd (Page.parseNode host n base tt preserve prev st))
                                 = (Page.ps_errors st ++ more)%list) l ->
                   exists more,
                     Page.ps_errors (each l prev0 s) = (Page.ps_errors s ++ more)%list)
    end.
    { intros l prev0 s L. revert prev0 s.
      induction L as [|k rest Hk Hrest IHrest]; intros prev0 s.
      - exists []. symmetry. apply app_nil_r.
      - match goal with
        | |- context [Page.parseNode host k ?o ?t preserve prev0 s] =>
            destruct (Hk o t preserve prev0 s) as [m1 E1];
            destruct (Page.parseNode host k o t preserve prev0 s) as [prev1 st1]
        end.
        cbn [snd] in E1. destruct (IHrest prev1 st1) as [m2 E2].
        exists (m1 ++ m2)%list. rewrite E2, E1, app_assoc. reflexivity. }
    match goal with
    | |- exists more, Page.ps_errors (?each kids ?start ?st0) = _ =>
        destruct (Each kids start st0 IH) as [more E]
    end.
    rewrite E. cbn [Page.ps_errors]. eexists. rewrite <- app_assoc. reflexivity.
Qed.

Lemma parseNodes_errors kids :
  forall base tt preserve prev st,
    exists more,
      Page.ps_errors (Page.parseNodes host kids base tt preserve prev st)
      = (Page.ps_errors st ++ more)%list.
Proof.
  induction kids as [|k rest IH]; intros base tt preserve prev st.
  - exists []. symmetry. apply app_nil_r.
  - cbn [Page.parseNodes].
    destruct (parseNode_errors k base tt preserve prev st) as [m1 E1].
    destruct (Page.parseNode host k base tt preserve prev st) as [prev1 st1].
    cbn [snd] in E1. destruct (IH base tt preserve prev1 st1) as [m2 E2].
    exists (m1 ++ m2)%list. rewrite E2, E1, app_assoc. reflexivity.
Qed.

Lemma parseInlineFormatting_errors element base runs tt preserve errors :
  exists more,
    Page.ps_errors
      (snd (Page.parseInlineFormatting host element base runs tt preserve errors))
    = (errors ++ more)%list.
Proof.
  unfold Page.parseInlineFormatting. cbn [snd Page.ps_errors].
  apply (parseNodes_errors _ _ _ _ _ (Page.mkParseState runs errors)).
Qed.

Lemma listItems_errors lis :
  forall errors,
    exists more, snd (Page.listItems host lis errors) = (errors ++ more)%list.
Proof.
  induction lis as [|li rest IH]; intro errors.
  - exists []. symmetry. apply app_nil_r.
  - cbn [Page.listItems].
    destruct (parseInlineFormatting_errors (node li) (set_breakLine false no_options)
                [] (fun text => text) false errors) as [m1 E1].
    destruct (Page.parseInlineFormatting host (node li) _ _ _ _ errors) as [runs ps].
    cbn [snd] in E1. destruct (IH (Page.ps_errors ps)) as [m2 E2].
    destruct (Page.listItems host rest (Page.ps_errors ps)) as [items errors'].
    cbn [snd] in *. exists (m1 ++ m2)%list. rewrite E2, E1, app_assoc. reflexivity.
Qed.

Lemma checkTextTag_extends d st : flow_extends st (Page.checkTextTag d st).
Proof.
  unfold Page.checkTextTag.
  destruct (string_in _ _); [|apply extends_refl].
  destruct (_ || _ || _)%bool; [|apply extends_refl].
  destruct (negb _); cbn; auto with extends.
Qed.

Lemma extractPlaceholder_extends d st :
  flow_extends st (Page.extractPlaceholder offset d st).
Proof.
  unfold Page.extractPlaceholder.
  destruct (includes _ _); [|apply extends_refl].
  cbn [flow_extends].
  destruct (_ || _)%bool; (eapply extends_step; [|apply extends_add_processed]);
    auto with extends.
Qed.

Lemma extractImage_extends d st : flow_extends st (Page.extractImage offset d st).
Proof.
  unfold Page.extractImage.
  destruct (String.eqb _ _); [|apply extends_refl].
  destruct (_ && _)%bool; [|apply extends_refl].
  cbn [flow_extends]. eapply extends_step; [|apply extends_add_processed].
  auto with extends.
Qed.

Lemma extractContainer_extends d kids st :
  flow_extends st (Page.extractContainer host offset d kids st).
Proof.
  unfold Page.extractContainer.
  destruct (_ && _)%bool; [|apply extends_refl].
  pose proof (extends_more_errors (Page.unwrapped_text_errors kids) st) as E.
  destruct (Page.imageIsSet _).
  { cbn [flow_extends]. eapply extends_step; [exact E|auto with extends]. }
  destruct (Page.hasBackground (computed d) || _)%bool; [|exact E].
  destruct (_ && _)%bool; [|exact E].
  cbn [flow_extends].
  eapply extends_step; [exact E|].
  eapply extends_step; [|apply extends_add_processed].
  eapply extends_step; [|apply extends_push_elements].
  destruct (_ || _)%bool; auto with extends.
Qed.

Lemma extractList_extends loc d st :
  flow_extends st (Page.extractList host offset loc d st).
Proof.
  unfold Page.extractList.
  destruct (_ || _)%bool; [|apply extends_refl].
  destruct (_ || _)%bool; [apply extends_refl|].
  destruct (listItems_errors (Page.within ["LI"%string] loc) (Page.st_errors st))
    as [more E].
  destruct (Page.listItems host _ _) as [items errors]. cbn [snd] in E. subst errors.
  cbn [flow_extends].
  eapply extends_step; [apply (extends_more_errors more)|].
  eapply extends_step; [|apply extends_add_processed].
  apply extends_push_elements.
Qed.

Lemma dataCell_extends bg cell st cells st' :
  Page.dataCell host bg cell st = Page.CellsOk cells st' -> extends st st'.
Proof.
  unfold Page.dataCell. destruct (node cell) as [data|d kids].
  - intro H. injection H as _ <-. apply extends_refl.
  - destruct (negb _).
    + match goal with
      | |- context [Page.parseInlineFormatting host ?e ?b ?r ?t ?p ?es] =>
          destruct (parseInlineFormatting_errors e b r t p es) as [more E];
          destruct (Page.parseInlineFormatting host e b r t p es) as [runs ps]
      end.
      cbn [snd] in E. destruct (_ && _)%bool; [|discriminate].
      intro H. injection H as _ <-. rewrite E. apply extends_more_errors.
    + intro H. injection H as _ <-.
      destruct (nonempty _); auto with extends.
Qed.

Lemma dataCells_extends bg cells st out st' :
  Page.dataCells host bg cells st = Page.CellsOk out st' -> extends st st'.
Proof.
  revert st out st'. induction cells as [|cell rest IH]; intros st out st' H.
  - simpl in H. injection H as _ <-. apply extends_refl.
  - simpl in H.
    destruct (Page.dataCell host bg cell st) as [here st1|] eqn:Here; [|discriminate].
    destruct (Page.dataCells host bg rest st1) as [there st2|] eqn:There; [|discriminate].
    injection H as _ <-.
    eapply extends_step; [exact (dataCell_extends _ _ _ _ _ Here)|exact (IH _ _ _ There)].
Qed.

Lemma dataRowsData_extends rows st out st' :
  Page.dataRowsData host rows st = Page.RowsOk out st' -> extends st st'.
Proof.
  revert st out st'. induction rows as [|row rest IH]; intros st out st' H.
  - simpl in H. injection H as _ <-. apply extends_refl.
  - simpl in H.
    destruct (Page.dataCells host _ _ st) as [here st1|] eqn:Here; [|discriminate].
    destruct (Page.dataRowsData host rest st1) as [there st2|] eqn:There; [|discriminate].
    injection H as _ <-.
    eapply extends_step; [exact (dataCells_extends _ _ _ _ _ Here)|exact (IH _ _ _ There)].
Qed.

Lemma extractTable_extends loc d st :
  flow_extends st (Page.extractTable host offset loc d st).
Proof.
  unfold Page.extractTable.
  destruct (String.eqb _ _); [|apply extends_refl].
  destruct (_ || _)%bool; [apply extends_refl|].
  match goal with
  | |- context [let '(_, _) := ?header in _] =>
      assert (H : extends st (snd header));
      [|destruct header as [headerData st0]]
  end.
  { destruct (hd_error _); cbn [snd]; auto with extends. }
  cbn [snd] in H.
  destruct (Page.dataRowsData host _ st0) as [bodyData st1|exn] eqn:Body; [|exact I].
  cbn [flow_extends].
  eapply extends_step; [exact H|].
  eapply extends_step; [exact (dataRowsData_extends _ _ _ _ Body)|].
  eapply extends_step; [|apply extends_add_processed].
  eapply extends_step; [|apply extends_push_elements].
  apply extends_add_processed.
Qed.

Lemma extractText_extends loc d st :
  flow_extends st (Page.extractText host offset loc d st).
Proof.
  unfold Page.extractText.
  destruct (negb (string_in _ _)); [apply extends_refl|].
  destruct (_ && _)%bool; [apply extends_add_processed|].
  destruct (_ && _)%bool; [apply extends_add_processed|].
  destruct (_ || _ || _)%bool; [apply extends_refl|].
  destruct (_ && _ && _)%bool; [apply extends_push_error|].
  cbn [flow_extends]. eapply extends_step; [|apply extends_add_processed].
  destruct (_ && _)%bool.
  - destruct (_ && _)%bool; [apply extends_push_elements|].
    match goal with
    | |- context [Page.parseInlineFormatting host ?e ?b ?r ?t ?p ?es] =>
        destruct (parseInlineFormatting_errors e b r t p es) as [more E];
        destruct (Page.parseInlineFormatting host e b r t p es) as [runs ps]
    end.
    cbn [snd] in E. rewrite E.
    eapply extends_step; [apply (extends_more_errors more)|apply extends_push_elements].
  - destruct (negb (is_nil _)); [|apply extends_push_elements].
    match goal with
    | |- context [Page.parseInlineFormatting host ?e ?b ?r ?t ?p ?es] =>
        destruct (parseInlineFormatting_errors e b r t p es) as [more E];
        destruct (Page.parseInlineFormatting host e b r t p es) as [runs ps]
    end.
    cbn [snd] in E. rewrite E.
    eapply extends_step; [apply (extends_more_errors more)|apply extends_push_elements].
Qed.

Lemma and_then_extends st f next :
  flow_extends st f ->
  (forall st1, flow_extends st1 (next st1)) ->
  flow_extends st (Page.and_then f next).
Proof.
  intros F N. destruct f as [st1|st1|exn]; cbn [Page.and_then]; [exact F| |exact I].
  specialize (N st1). destruct (next st1); cbn [flow_extends] in *;
    try exact I; eapply extends_step; eassumption.
Qed.

Lemma visit_extends loc st : flow_extends st (Page.visit host offset loc st).
Proof.
  unfold Page.visit. destruct (node loc) as [data|d kids]; [apply extends_refl|].
  destruct (Page.is_processed _ _); [apply extends_refl|].
  apply and_then_extends; [apply checkTextTag_extends|intro].
  apply and_then_extends; [apply extractPlaceholder_extends|intro].
  apply and_then_extends; [apply extractImage_extends|intro].
  apply and_then_extends; [apply extractContainer_extends|intro].
  apply and_then_extends; [apply extractList_extends|intro].
  apply and_then_extends; [apply extractTable_extends|intro].
  apply extractText_extends.
Qed.

Lemma visitAll_extends all st st' :
  Page.visitAll host offset all st = inl st' -> extends st st'.
Proof.
  revert st. induction all as [|loc rest IH]; intros st H.
  - injection H as <-. apply extends_refl.
  - simpl in H. pose proof (visit_extends loc st) as V.
    destruct (Page.visit host offset loc st) as [st1|st1|exn]; try discriminate;
      (eapply extends_step; [exact V|exact (IH _ H)]).
Qed.

Lemma visitAll_app before after st st2 :
  Page.visitAll host offset (before ++ after) st = inl st2 ->
  exists st1,
    Page.visitAll host offset before st = inl st1
    /\ Page.visitAll host offset after st1 = inl st2.
Proof.
  revert st. induction before as [|loc rest IH]; intros st H.
  - exists st. split; [reflexivity|exact H].
  - simpl in H |- *.
    destruct (Page.visit host offset loc st) as [st1|st1|exn]; try discriminate;
      exact (IH _ H).
Qed.

(** An element that has been processed, and a text node, yield nothing. *)
Lemma visit_processed loc st :
  incl (Page.node_uid (node loc)) (Page.st_processed st) ->
  Page.visit host offset loc st = Page.Return st.
Proof.
  intro P. unfold Page.visit. destruct (node loc) as [data|d kids]; [reflexivity|].
  assert (I : In (uid d) (Page.st_processed st)) by (apply P; left; reflexivity).
  unfold Page.is_processed.
  assert (E : existsb (Nat.eqb (uid d)) (Page.st_processed st) = true).
  { apply existsb_exists. exists (uid d). split; [exact I|apply Nat.eqb_refl]. }
  rewrite E. reflexivity.
Qed.

End Appending.

(** X22.  The element loop only appends.  Whatever the first elements of
    the document have put into [elements], [placeholders] and [errors] is
    still there, in the same places, when the loop ends, and whatever has
    been marked processed stays so; revisiting a processed element changes
    nothing. *)
Theorem extraction_only_appends :
  forall (host : Host) (offset : Q * Q) (before after : list Located)
         (st st2 : Page.ExtractState),
    Page.visitAll host offset (before ++ after) st = inl st2 ->
    exists st1,
      Page.visitAll host offset before st = inl st1
      /\ extends st st1
      /\ extends st1 st2
      /\ (forall loc,
            incl (Page.node_uid (node loc)) (Page.st_processed st1) ->
            Page.visit host offset loc st2 = Page.Return st2).
Proof.
  intros host offset before after st st2 H.
  destruct (visitAll_app _ _ _ _ _ _ H) as [st1 [B A]].
  exists st1. split; [exact B|].
  split; [exact (visitAll_extends _ _ _ _ _ B)|].
  pose proof (visitAll_extends _ _ _ _ _ A) as E.
  split; [exact E|].
  intros loc P. apply visit_processed.
  destruct E as [_ [_ [_ I]]]. eapply incl_tran; eassumption.
Qed.

Lemma extraction_only_appends_witness :
  exists st1,
    Page.visitAll Sample.host (0, 0) [two_item_list] (Page.mkExtractState [] [] [] [])
    = inl st1
    /\ extends (Page.mkExtractState [] [] [] []) st1.
Proof.
  destruct (extraction_only_appends Sample.host (0, 0) [two_item_list]
              (Page.within ["LI"%string] two_item_list)
              (Page.mkExtractState [] [] [] [])
              (Page.add_processed [3; 4; 2]%nat
                 (Page.push_elements
                    (extracted_elements
                       (Page.extractSlideData Sample.host
                          (Sample.document [node two_item_list])))
                    (Page.mkExtractState [] [] [] []))))
    as [st1 [B [E _]]].
  - vm_compute. reflexivity.
  - exists st1. split; [exact B|exact E].
Defined.

(** X23.  A list consumes its items, and a table its rows' cells with
    everything inside them: once the list or table has been extracted,
    visiting one of those elements, at any later point of the loop, adds
    nothing. *)
Theorem lists_and_tables_consume_their_parts :
  forall (host : Host) (offset : Q * Q) (loc : Located) (d : ElemData)
         (st st1 st2 : Page.ExtractState) (later : list Located),
    (Page.extractList host offset loc d st = Page.Return st1
     \/ Page.extractTable host offset loc d st = Page.Return st1) ->
    Page.st_elements st1 <> Page.st_elements st ->
    Page.visitAll host offset later st1 = inl st2 ->
    (String.eqb (tagName d) "UL" || String.eqb (tagName d) "OL"
     || String.eqb (tagName d) "TABLE")%bool = true
    /\ (String.eqb (tagName d) "TABLE" = false ->
        forall li, In li (Page.within ["LI"%string] loc) ->
                   Page.visit host offset li st2 = Page.Return st2)
    /\ (String.eqb (tagName d) "TABLE" = true ->
        forall tr cell,
          In tr (Page.within ["TR"%string] loc) ->
          In cell (Page.within ["TD"; "TH"]%string tr) ->
          Page.visit host offset cell st2 = Page.Return st2
          /\ forall inside,
               In inside (descendants (ancestors cell) (node cell)) ->
               Page.visit host offset inside st2 = Page.Return st2).
Proof.
  intros host offset loc d st st1 st2 later Extracted Pushed Later.
  pose proof (visitAll_extends _ _ _ _ _ Later) as [_ [_ [_ Kept]]].
  assert (Done : forall l, incl (Page.node_uid (node l)) (Page.st_processed st1) ->
                           Page.visit host offset l st2 = Page.Return st2).
  { intros l P. apply visit_processed. eapply incl_tran; eassumption. }
  destruct Extracted as [List|Table].
  - revert List. unfold Page.extractList.
    destruct (String.eqb (tagName d) "UL" || String.eqb (tagName d) "OL")%bool eqn:T;
      [|discriminate].
    destruct (Qeq_bool _ 0 || Qeq_bool _ 0)%bool;
      [intro List; injection List as <-; contradiction|].
    destruct (Page.listItems host _ _) as [items errors].
    intro List. injection List as <-.
    split; [reflexivity|]. split.
    + intros _ li I. apply Done. cbn [Page.add_processed Page.st_processed].
      apply incl_appl, incl_appl. intros id U.
      apply in_flat_map. exists li. split; assumption.
    + intro Is_table. exfalso.
      apply orb_true_iff in T. destruct T as [T|T];
        apply String.eqb_eq in T; rewrite T in Is_table; discriminate.
  - revert Table. unfold Page.extractTable.
    destruct (String.eqb (tagName d) "TABLE") eqn:T; [|discriminate].
    destruct (Qeq_bool _ 0 || Qeq_bool _ 0)%bool;
      [intro Table; injection Table as <-; contradiction|].
    match goal with
    | |- context [let '(_, _) := ?header in _] => destruct header as [headerData st0]
    end.
    destruct (Page.dataRowsData host _ st0) as [bodyData st3|exn]; [|discriminate].
    intro Table. injection Table as <-.
    split; [apply orb_true_r|]. split; [discriminate|].
    intros _ tr cell Tr Cell.
    assert (Inside : forall id,
               In id (Page.node_uid (node cell)
                      ++ flat_map (fun desc => Page.node_uid (node desc))
                           (descendants (ancestors cell) (node cell)))%list ->
               In id (Page.st_processed
                        (Page.add_processed
                           (flat_map
                              (fun tr =>
                                 Page.node_uid (node tr) ++
                                 flat_map
                                   (fun cell =>
                                      Page.node_uid (node cell) ++
                                      flat_map (fun desc => Page.node_uid (node desc))
                                        (descendants (ancestors cell) (node cell)))
                                   (Page.within ["TD"; "TH"]%string tr))
                              (Page.within ["TR"%string] loc))%list
                           (Page.push_elements
                              [TableEl (headerData ++ bodyData)
                                 (Page.columnWidths
                                    (hd_error
                                       (filter Page.isHeadRow
                                          (Page.within ["TR"%string] loc)))
                                    (filter
                                       (fun row =>
                                          negb match parentTag row with
                                               | Some t => String.eqb t "THEAD"
                                               | None => false
                                               end)
                                       (Page.within ["TR"%string] loc))
                                    (rect_width
                                       (Page.adjustRect offset (boundingClientRect d))))
                                 (Page.position_of
                                    (Page.adjustRect offset (boundingClientRect d)))
                                 (mkTableStyle
                                    (Page.pxToPoints (fontSize (computed d)))
                                    (Page.fontFaceOf (fontFamily (computed d)))
                                    (Page.rgbToHex (color (computed d)))
                                    (Page.extractAlpha (color (computed d)))
                                    (Page.rgbToHex (borderColor (computed d)))
                                    (Page.pxToPoints (borderWidth (computed d))))]
                              (Page.add_processed [uid d] st3))))).
    { intros id I. cbn [Page.add_processed Page.st_processed].
      apply in_or_app. left. apply in_flat_map. exists tr. split; [exact Tr|].
      apply in_or_app. right. apply in_flat_map. exists cell. split; assumption. }
    split.
    + apply Done. intros id U. apply Inside. apply in_or_app. left. exact U.
    + intros inside I. apply Done. intros id U. apply Inside.
      apply in_or_app. right. apply in_flat_map. exists inside. split; assumption.
Qed.

Lemma lists_and_tables_consume_their_parts_witness :
  Page.visit Sample.host (0, 0) second_item
    (Page.add_processed [3; 4; 2]%nat
       (Page.push_elements
          (extracted_elements
             (Page.extractSlideData Sample.host (Sample.document [node two_item_list])))
          (Page.mkExtractState [] [] [] [])))
  = Page.Return
      (Page.add_processed [3; 4; 2]%nat
         (Page.push_elements
            (extracted_elements
               (Page.extractSlideData Sample.host
                  (Sample.document [node two_item_list])))
            (Page.mkExtractState [] [] [] []))).
Proof.
  refine (proj1 (proj2 (lists_and_tables_consume_their_parts Sample.host (0, 0)
                          two_item_list
                          (mkElemData 2 "UL" "" "" "" false "" Sample.plain
                             (mkRect 10 10 200 60) 200 60)
                          (Page.mkExtractState [] [] [] []) _ _ [] _ _ _))
            _ second_item _).
  - left. vm_compute. reflexivity.
  - vm_compute. discriminate.
  - reflexivity.
  - reflexivity.
  - vm_compute. right. left. reflexivity.
Defined.

(** X24.  An element whose class contains [placeholder] never becomes an
    element of the slide, whatever its tag and style: visiting it leaves
    [elements] as it is, and either changes nothing (it had been
    processed), or leaves one finding (a text tag with a background,
    border or shadow, or a box of width or height 0), or adds exactly one
    placeholder, named after the element's id or, without one, after the
    number of placeholders found so far. *)
Theorem placeholders_are_not_elements :
  forall (host : Host) (offset : Q * Q) (loc : Located) (d : ElemData)
         (kids : list Node) (st : Page.ExtractState),
    node loc = ElemNode d kids ->
    includes (className d) "placeholder" = true ->
    exists st',
      Page.visit host offset loc st = Page.Return st'
      /\ Page.st_elements st' = Page.st_elements st
      /\ (st' = st
          \/ (exists finding,
                Page.st_errors st' = (Page.st_errors st ++ [finding])%list
                /\ Page.st_placeholders st' = Page.st_placeholders st)
          \/ (exists p,
                Page.st_placeholders st' = (Page.st_placeholders st ++ [p])%list
                /\ Page.st_errors st' = Page.st_errors st
                /\ In (uid d) (Page.st_processed st')
                /\ ph_id p =
                   (if nonempty (elemId d) then elemId d
                    else ("placeholder-" ++
                          string_of_nat (length (Page.st_placeholders st)))%string)
                /\ ~ ph_w p == 0 /\ ~ ph_h p == 0)).
Proof.
  intros host offset loc d kids st N Class.
  unfold Page.visit. rewrite N.
  destruct (Page.is_processed _ _).
  { exists st. split; [reflexivity|]. split; [reflexivity|left; reflexivity]. }
  unfold Page.checkTextTag.
  assert (Placeholder :
            exists st',
              Page.and_then (Page.Continue st)
                (fun st0 =>
                   Page.and_then (Page.extractPlaceholder offset d st0)
                     (fun st1 =>
                        Page.and_then (Page.extractImage offset d st1)
                          (fun st2 =>
                             Page.and_then (Page.extractContainer host offset d kids st2)
                               (fun st3 =>
                                  Page.and_then (Page.extractList host offset loc d st3)
                                    (fun st4 =>
                                       Page.and_then
                                         (Page.extractTable host offset loc d st4)
                                         (fun st5 =>
                                            Page.extractText host offset loc d st5))))))
              = Page.Return st'
              /\ Page.st_elements st' = Page.st_elements st
              /\ (st' = st
                  \/ (exists finding,
                        Page.st_errors st' = (Page.st_errors st ++ [finding])%list
                        /\ Page.st_placeholders st' = Page.st_placeholders st)
                  \/ (exists p,
                        Page.st_placeholders st' = (Page.st_placeholders st ++ [p])%list
                        /\ Page.st_errors st' = Page.st_errors st
                        /\ In (uid d) (Page.st_processed st')
                        /\ ph_id p =
                           (if nonempty (elemId d) then elemId d
                            else ("placeholder-" ++
                                  string_of_nat (length (Page.st_placeholders st)))%string)
                        /\ ~ ph_w p == 0 /\ ~ ph_h p == 0))).
  { cbn [Page.and_then]. unfold Page.extractPlaceholder. rewrite Class.
    destruct (Qeq_bool (rect_width _) 0 || Qeq_bool (rect_height _) 0)%bool eqn:Flat;
      cbn [Page.and_then]; eexists; (split; [reflexivity|]);
      (split; [reflexivity|]); right.
    - left. eexists. split; reflexivity.
    - right. eexists. split; [reflexivity|]. split; [reflexivity|].
      split; [left; reflexivity|]. split; [reflexivity|].
      apply orb_false_iff in Flat. destruct Flat as [W H].
      apply Qeq_bool_false in W, H. cbn [ph_w ph_h].
      unfold Page.pxToInch, Page.PX_PER_IN.
      assert (Scaled : forall v, v / 96 == 0 -> v == 0).
      { intros v E. setoid_replace v with (v / 96 * 96) by field.
        rewrite E. reflexivity. }
      split; intro E; [apply W|apply H]; apply Scaled; exact E. }
  destruct (string_in _ _); [|exact Placeholder].
  destruct (_ || _ || _)%bool; [|exact Placeholder].
  destruct (negb _); cbn [Page.and_then]; eexists; (split; [reflexivity|]).
  - split; [reflexivity|]. right. left. eexists. split; reflexivity.
  - split; [reflexivity|left; reflexivity].
Qed.

Lemma placeholders_are_not_elements_witness :
  exists st',
    Page.visit Sample.host (0, 0) chart_placeholder (Page.mkExtractState [] [] [] [])
    = Page.Return st'
    /\ Page.st_elements st' = [].
Proof.
  destruct (placeholders_are_not_elements Sample.host (0, 0) chart_placeholder
              _ _ (Page.mkExtractState [] [] [] []) eq_refl) as [st' [V [E _]]].
  - vm_compute. reflexivity.
  - exists st'. split; [exact V|exact E].
Defined.

(** ** Column widths, from the page to the deck *)

Lemma columnWidths_of_cells loc tableWidth :
  Page.columnWidths
    (hd_error (filter Page.isHeadRow (Page.within ["TR"%string] loc)))
    (filter (fun row => negb (match parentTag row with
                              | Some t => String.eqb t "THEAD"
                              | None => false
                              end)) (Page.within ["TR"%string] loc))
    tableWidth
  = map (fun cell => Page.node_width (node cell) / tableWidth) (columnCells loc).
Proof.
  unfold Page.columnWidths, columnCells.
  destruct (hd_error _); [reflexivity|].
  destruct (filter _ _) as [|first rest]; [reflexivity|].
  cbv zeta. destruct (negb _); reflexivity.
Qed.

(** X25.  The column widths a table is emitted with are the rendered
    widths, in inches, of the cells that define its columns (the header
    row's [th], else the first data row's [th], else its [td]): the ratios
    computed in the page and the multiplication by the table's width in
    the emitter cancel out.  The table itself is as wide as rendered. *)
Theorem table_columns_keep_cell_widths :
  forall (host : Host) (offset : Q * Q) (loc : Located) (d : ElemData)
         (st st1 : Page.ExtractState) (target : Driver.Target),
    Page.extractTable host offset loc d st = Page.Return st1 ->
    Page.st_elements st1 <> Page.st_elements st ->
    exists data colWidths position style opts,
      Page.st_elements st1
      = (Page.st_elements st ++ [TableEl data colWidths position style])%list
      /\ Driver.addElement host target (TableEl data colWidths position style)
         = Driver.AddTable target data opts
      /\ Driver.tb_w opts
         = Page.pxToInch (rect_width (Page.adjustRect offset (boundingClientRect d)))
      /\ Forall2 (fun w cell => w == Page.pxToInch (Page.node_width (node cell)))
           (Driver.tb_colW opts) (columnCells loc).
Proof.
  intros host offset loc d st st1 target. unfold Page.extractTable.
  destruct (String.eqb (tagName d) "TABLE"); [|discriminate].
  destruct (Qeq_bool _ 0 || Qeq_bool _ 0)%bool eqn:Flat;
    [intro H; injection H as <-; intro C; contradiction|].
  apply orb_false_iff in Flat. destruct Flat as [Wide _].
  apply Qeq_bool_false in Wide.
  rewrite columnWidths_of_cells.
  match goal with
  | |- context [let '(_, _) := ?header in _] =>
      assert (H : Page.st_elements (snd header) = Page.st_elements st);
      [|destruct header as [headerData st0]]
  end.
  { destruct (hd_error _); reflexivity. }
  cbn [snd] in H.
  destruct (Page.dataRowsData host _ st0) as [bodyData st3|exn] eqn:Body;
    [|discriminate].
  destruct (dataRowsData_sound _ _ _ _ _ Body) as [_ [Same _]].
  intros R _. injection R as <-.
  eexists _, _, _, _, _. split.
  { cbn [Page.add_processed Page.push_elements Page.st_elements].
    rewrite Same, H. reflexivity. }
  split; [reflexivity|]. split; [reflexivity|].
  cbn [Driver.tb_colW]. rewrite map_map.
  induction (columnCells loc) as [|cell rest IH]; constructor; [|exact IH].
  cbv beta. cbn [Page.position_of pos_w]. unfold Page.pxToInch, Page.PX_PER_IN.
  change (rect_width (Page.adjustRect offset (boundingClientRect d)))
    with (rect_width (boundingClientRect d)) in *.
  field. exact Wide.
Qed.

Lemma table_columns_keep_cell_widths_witness :
  exists opts,
    Forall2 (fun w cell => w == Page.pxToInch (Page.node_width (node cell)))
      (Driver.tb_colW opts) (columnCells two_column_table)
    /\ Driver.tb_w opts = Page.pxToInch 200.
Proof.
  destruct (table_columns_keep_cell_widths Sample.host (0, 0) two_column_table
              (mkElemData 2 "TABLE" "" "" "" false "" Sample.plain
                 (mkRect 10 10 200 30) 200 30)
              (Page.mkExtractState [] [] [] [])
              (match Page.extractTable Sample.host (0, 0) two_column_table
                       (mkElemData 2 "TABLE" "" "" "" false "" Sample.plain
                          (mkRect 10 10 200 30) 200 30)
                       (Page.mkExtractState [] [] [] []) with
               | Page.Return st1 => st1
               | _ => Page.mkExtractState [] [] [] []
               end)
              Driver.CallerSlide)
    as [data [colWidths [position [style [opts [_ [_ [W C]]]]]]]].
  - vm_compute. reflexivity.
  - vm_compute. discriminate.
  - exists opts. split; [exact C|exact W].
Defined.

(** ** What a tag can become *)




Section Kinds.

Variable host : Host.
Variable offset : Q * Q.











End Kinds.


(** ** A gradient on the body *)

(** X27.  A body whose background image holds a gradient can never be
    converted.  The finding is the first thing the extraction records and
    nothing removes it, so when the extraction returns its errors start
    with it; [html2pptx] then ends in an error (that of validation, or
    the exception that ended the extraction) and leaves the deck
    untouched. *)
Theorem body_gradient_is_rejected :
  forall (host : Host) (htmlFile : string) (presLayout : option Driver.Layout)
         (options : Driver.Options) (result : Driver.BodyMetrics)
         (doc : Page.Document) (deck : Driver.Deck) (url : option string),
    backgroundImage (Page.bodyStyle doc) = ImageLayers true url ->
    (forall slideData,
        Page.extractSlideData host doc = inl slideData ->
        exists more, errors slideData = Page.gradientError :: more)
    /\ exists message,
         Driver.html2pptx host htmlFile presLayout options
           (Driver.Rendered result doc) deck
         = (Driver.Error message, deck).
Proof.
  intros host htmlFile presLayout options result doc deck url G.
  assert (First : forall slideData,
             Page.extractSlideData host doc = inl slideData ->
             exists more, errors slideData = Page.gradientError :: more).
  { intro slideData. unfold Page.extractSlideData. rewrite G.
    destruct (Page.visitAll host _ _ _) as [st|exn] eqn:V; [|discriminate].
    intro H. injection H as <-. cbn [errors].
    destruct (visitAll_extends _ _ _ _ _ V) as [_ [_ [[more E] _]]].
    exists more. exact E. }
  split; [exact First|].
  unfold Driver.html2pptx.
  destruct (Page.extractSlideData host doc) as [slideData|exn].
  - destruct (First slideData eq_refl) as [more E].
    assert (Found : is_nil (Driver.validationErrors (Driver.getBodyDimensions result)
                              slideData presLayout) = false).
    { unfold Driver.validationErrors. rewrite E.
      destruct (Driver.bd_errors _); [|reflexivity].
      destruct (Driver.validateDimensions _ _); [|reflexivity].
      destruct (Driver.validateTextBoxPosition _ _); reflexivity. }
    rewrite Found. cbn [negb].
    destruct (rethrow_is_error htmlFile
                (Driver.errorMessage
                   (Driver.validationErrors (Driver.getBodyDimensions result)
                      slideData presLayout))) as [final [R _]].
    exists final. rewrite R. reflexivity.
  - destruct (rethrow_is_error htmlFile exn) as [final [R _]].
    exists final. rewrite R. reflexivity.
Qed.

Lemma body_gradient_is_rejected_witness :
  exists message,
    Driver.html2pptx Sample.host "slide.html" None Sample.fresh_slide
      (Driver.Rendered Sample.fitting_body gradient_body) [Driver.AddSlide]
    = (Driver.Error message, [Driver.AddSlide]).
Proof.
  apply (body_gradient_is_rejected Sample.host "slide.html" None Sample.fresh_slide
           Sample.fitting_body gradient_body [Driver.AddSlide] (Some "bg.png"%string)).
  reflexivity.
Defined.

(** ** Where the extracted blocks come from *)

Lemma borderLinesOf_lines c rect : Forall is_line (Page.borderLinesOf c rect).
Proof.
  unfold Page.borderLinesOf.
  repeat (apply Forall_app; split);
    match goal with |- context [if ?c then _ else _] => destruct c end;
    repeat constructor.
Qed.



Section Provenance.

Variable host : Host.
Variable offset : Q * Q.
Variable all : list Located.

Lemma traced_push_error e st :
  traced host offset all st -> traced host offset all (Page.push_error e st).
Proof. intro H. exact H. Qed.

Lemma traced_set_errors es st :
  traced host offset all st -> traced host offset all (Page.set_errors es st).
Proof. intro H. exact H. Qed.

Lemma traced_add_processed ids st :
  traced host offset all st -> traced host offset all (Page.add_processed ids st).
Proof. intro H. exact H. Qed.

Lemma traced_push_elements els st :
  Forall (extracted_from host offset all) els ->
  traced host offset all st -> traced host offset all (Page.push_elements els st).
Proof.
  intros E [A B]. split; [|exact B]. simpl. apply Forall_app. split; assumption.
Qed.

Lemma traced_push_placeholder p st :
  placeholder_from offset all p ->
  traced host offset all st -> traced host offset all (Page.push_placeholder p st).
Proof.
  intros P [A B]. split; [exact A|]. simpl. apply Forall_app. split; [exact B|].
  constructor; [exact P|constructor].
Qed.

Lemma same_output_traced st st' :
  same_output st st' -> traced host offset all st -> traced host offset all st'.
Proof. intros [E P] [A B]. split; [rewrite E|rewrite P]; assumption. Qed.

Create HintDb traced.

#[local] Hint Resolve traced_push_error traced_set_errors traced_add_processed
  traced_push_elements traced_push_placeholder : traced.

Section Here.

Variable loc : Located.
Variable d : ElemData.
Variable kids : list Node.
Hypothesis Here : In loc all.
Hypothesis Node : node loc = ElemNode d kids.

Lemma read_here el :
  read_from host offset loc d el -> extracted_from host offset all el.
Proof. intro R. exists loc, d, kids. split; [exact Here|]. split; [exact Node|exact R]. Qed.

Lemma checkTextTag_traced st :
  traced host offset all st -> flow_traced host offset all (Page.checkTextTag d st).
Proof.
  intro S. unfold Page.checkTextTag.
  repeat match goal with |- context [if ?c then _ else _] => destruct c end;
    simpl; auto with traced.
Qed.

Lemma extractPlaceholder_traced st :
  traced host offset all st ->
  flow_traced host offset all (Page.extractPlaceholder offset d st).
Proof.
  intro S. unfold Page.extractPlaceholder.
  destruct (includes _ _); [|exact S].
  simpl. apply traced_add_processed.
  destruct (_ || _)%bool; [apply traced_push_error; exact S|].
  apply traced_push_placeholder; [|exact S].
  exists loc, d, kids. split; [exact Here|]. split; [exact Node|reflexivity].
Qed.

Lemma extractImage_traced st :
  traced host offset all st ->
  flow_traced host offset all (Page.extractImage offset d st).
Proof.
  intro S. unfold Page.extractImage.
  destruct (String.eqb _ _); [|exact S].
  destruct (_ && _)%bool; [|exact S].
  simpl. apply traced_add_processed, traced_push_elements; [|exact S].
  constructor; [|constructor]. apply read_here. reflexivity.
Qed.

Lemma borderLinesOf_traced :
  Forall (extracted_from host offset all)
    (Page.borderLinesOf (computed d) (Page.adjustRect offset (boundingClientRect d))).
Proof.
  apply Forall_forall. intros el I. apply read_here.
  pose proof (borderLinesOf_lines (computed d)
                (Page.adjustRect offset (boundingClientRect d))) as L.
  rewrite Forall_forall in L. specialize (L el I).
  destruct el; try contradiction. exact I.
Qed.

Lemma extractContainer_traced st :
  traced host offset all st ->
  flow_traced host offset all (Page.extractContainer host offset d kids st).
Proof.
  intro S. unfold Page.extractContainer.
  destruct (_ && _)%bool; [|exact S].
  destruct (Page.imageIsSet _) eqn:?; [simpl; auto with traced|].
  match goal with |- context [if (?a || ?b)%bool then _ else Page.Continue _] =>
    destruct (a || b)%bool end; [|simpl; auto with traced].
  match goal with |- context [if (?a && ?b)%bool then Page.Return _ else _] =>
    destruct (a && b)%bool end; [|simpl; auto with traced].
  simpl. apply traced_add_processed, traced_push_elements.
  - match goal with |- context [if ?c then Page.borderLinesOf _ _ else _] =>
      destruct c end; [apply borderLinesOf_traced|constructor].
  - match goal with |- context [if ?c then Page.push_elements _ _ else _] =>
      destruct c end; [|auto with traced].
    apply traced_push_elements; [|auto with traced].
    constructor; [|constructor]. apply read_here. reflexivity.
Qed.

Lemma extractList_traced st :
  traced host offset all st ->
  flow_traced host offset all (Page.extractList host offset loc d st).
Proof.
  intro S. unfold Page.extractList.
  destruct (_ || _)%bool; [|exact S].
  destruct (_ || _)%bool; [exact S|].
  destruct (Page.listItems _ _ _) as [items errors].
  simpl. apply traced_add_processed, traced_push_elements; [|auto with traced].
  constructor; [|constructor]. apply read_here. reflexivity.
Qed.

Lemma extractTable_traced st :
  traced host offset all st ->
  flow_traced host offset all (Page.extractTable host offset loc d st).
Proof.
  intro S. unfold Page.extractTable.
  destruct (String.eqb (tagName d) "TABLE") eqn:Tag; [|exact S].
  apply String.eqb_eq in Tag.
  destruct (Qeq_bool _ 0 || Qeq_bool _ 0)%bool eqn:Empty; [exact S|].
  apply orb_false_iff in Empty. destruct Empty as [Wide _].
  apply Qeq_bool_false in Wide.
  rewrite columnWidths_of_cells.
  match goal with
  | |- context [let '(_, _) := ?header in _] =>
      assert (H : traced host offset all (snd header));
      [|destruct header as [headerData st0]]
  end.
  { destruct (hd_error _); simpl; auto with traced. }
  simpl in H.
  destruct (Page.dataRowsData host _ st0) as [bodyData st1|exn] eqn:Body;
    [|exact I].
  destruct (dataRowsData_sound _ _ _ _ _ Body) as [_ BS].
  simpl. apply traced_add_processed, traced_push_elements.
  - constructor; [|constructor]. apply read_here.
    split; [exact Tag|]. split; [reflexivity|]. split; [exact Wide|reflexivity].
  - apply traced_add_processed. exact (same_output_traced _ _ BS H).
Qed.

Lemma extractText_traced st :
  traced host offset all st ->
  flow_traced host offset all (Page.extractText host offset loc d st).
Proof.
  intro S. unfold Page.extractText.
  destruct (negb _); [exact S|].
  destruct (_ && _)%bool; [simpl; auto with traced|].
  destruct (_ && _)%bool; [simpl; auto with traced|].
  destruct (_ || _)%bool; [exact S|].
  destruct (_ && _)%bool; [simpl; auto with traced|].
  cbv beta zeta iota delta [flow_traced]. apply traced_add_processed.
  destruct (_ && _)%bool.
  - match goal with |- context [let '(_, _) := ?parsed in _] =>
      assert (C : traced host offset all (snd parsed));
      [|destruct parsed as [content st0]] end.
    { destruct (_ && _)%bool; [exact S|].
      destruct (Page.parseInlineFormatting _ _ _ _ _ _ _) as [runs ps]. exact S. }
    simpl in C. apply traced_push_elements; [|exact C].
    constructor; [|constructor]. apply read_here.
    destruct (is_truthy_opt _); split; reflexivity.
  - destruct (negb _).
    + destruct (Page.parseInlineFormatting _ _ _ _ _ _ _) as [runs ps].
      apply traced_push_elements; [|auto with traced].
      constructor; [|constructor]. apply read_here. split; reflexivity.
    + apply traced_push_elements; [|exact S].
      constructor; [|constructor]. apply read_here. split; reflexivity.
Qed.

End Here.

Lemma visit_traced loc st :
  In loc all ->
  traced host offset all st -> flow_traced host offset all (Page.visit host offset loc st).
Proof.
  intros I S. unfold Page.visit. destruct (node loc) as [data|d kids] eqn:N; [exact S|].
  destruct (Page.is_processed _ _); [exact S|].
  pose proof (checkTextTag_traced d st S) as H1.
  destruct (Page.checkTextTag d st) as [s1|s1|e1]; simpl; try exact H1.
  pose proof (extractPlaceholder_traced loc d kids I N s1 H1) as H2.
  destruct (Page.extractPlaceholder offset d s1) as [s2|s2|e2]; simpl; try exact H2.
  pose proof (extractImage_traced loc d kids I N s2 H2) as H3.
  destruct (Page.extractImage offset d s2) as [s3|s3|e3]; simpl; try exact H3.
  pose proof (extractContainer_traced loc d kids I N s3 H3) as H4.
  destruct (Page.extractContainer host offset d kids s3) as [s4|s4|e4]; simpl;
    try exact H4.
  pose proof (extractList_traced loc d kids I N s4 H4) as H5.
  destruct (Page.extractList host offset loc d s4) as [s5|s5|e5]; simpl; try exact H5.
  pose proof (extractTable_traced loc d kids I N s5 H5) as H6.
  destruct (Page.extractTable host offset loc d s5) as [s6|s6|e6]; simpl; try exact H6.
  apply (extractText_traced loc d kids I N). exact H6.
Qed.

Lemma visitAll_traced rest st st' :
  incl rest all ->
  traced host offset all st ->
  Page.visitAll host offset rest st = inl st' -> traced host offset all st'.
Proof.
  revert st. induction rest as [|loc rest IH]; intros st Sub S H.
  - simpl in H. injection H as <-. exact S.
  - simpl in H.
    pose proof (visit_traced loc st (Sub loc (or_introl eq_refl)) S) as V.
    assert (Sub' : incl rest all) by (intros l I; apply Sub; right; exact I).
    destruct (Page.visit host offset loc st) as [s|s|e]; try discriminate;
      exact (IH _ Sub' V H).
Qed.

End Provenance.

(** Every block and placeholder of the slide data was read from an
    element of the document. *)
Lemma extractSlideData_traced host doc slideData :
  Page.extractSlideData host doc = inl slideData ->
  Forall (extracted_from host (Page.containerOffsetOf doc) (Page.allElements doc))
    (elements slideData)
  /\ Forall (placeholder_from (Page.containerOffsetOf doc) (Page.allElements doc))
       (placeholders slideData).
Proof.
  unfold Page.extractSlideData. intro H.
  destruct (Page.visitAll _ _ _ _) as [st|exn] eqn:V; [|discriminate].
  injection H as <-. cbn [elements placeholders].
  apply (visitAll_traced host _ (Page.allElements doc)) in V; [exact V| |].
  - intros l I. exact I.
  - split; constructor.
Qed.

(** ** From the rendered boxes to the reported positions *)

(** C5, as stated, fails: a vertical paragraph 20px wide and 200px high
    whose rendered box starts 10px to the left of the slide container is
    reported with its width and height swapped, but its centre is reported
    10px to the right of the container's edge, while the centre of the
    rendered box lies on that edge (10px in, 40px on the page, less the
    container's 50px): the left of the box is clamped at 0 before the box
    is turned. *)
Lemma C5_clipped_box_counterexample :
  exists position style r,
    extracted_elements (Page.extractSlideData Sample.host clipped_vertical)
    = [TextEl "p" (PlainText "Vertical") position style]
    /\ s_rotate style = Some r /\ r == 90
    /\ pos_w position == Page.pxToInch 200
    /\ pos_h position == Page.pxToInch 20
    /\ pos_x position + pos_w position / 2 == Page.pxToInch 10
    /\ ~ pos_x position + pos_w position / 2 == Page.pxToInch (40 - 50 + 20 / 2)
    /\ ~ pos_x position + pos_w position / 2 == Page.pxToInch (40 + 20 / 2).
Proof.
  eexists _, _, _. split; [vm_compute; reflexivity|].
  split; [vm_compute; reflexivity|].
  repeat split; try (vm_compute; reflexivity);
    intro H; vm_compute in H; discriminate.
Qed.

(** C5 (amended): every text element reported with a derived rotation of
    exactly 90 or 270 degrees comes from an element of the page with that
    derived rotation; its reported width is the rendered height and its
    reported height the rendered width, in inches; and its centre is the
    centre of the rendered box once the left and top of that box, taken
    relative to the slide container, have been clamped at 0.  So the
    reported box has the centre of the rendered box, relative to the
    container, along each axis on which the rendered box does not start
    before the container's origin. *)
Theorem C5_quarter_turn_swaps_box :
  forall (host : Host) (doc : Page.Document) (slideData : SlideData),
    Page.extractSlideData host doc = inl slideData ->
    forall (type : string) (text : TextContent) (position : Position)
           (style : Style) (r : Q),
      In (TextEl type text position style) (elements slideData) ->
      s_rotate style = Some r ->
      r == 90 \/ r == 270 ->
      exists loc d kids,
        In loc (Page.allElements doc)
        /\ node loc = ElemNode d kids
        /\ Page.getRotation host (transform (computed d)) (writingMode (computed d))
           = Some r
        /\ let rendered := boundingClientRect d in
           let left := rect_left rendered - fst (Page.containerOffsetOf doc) in
           let top := rect_top rendered - snd (Page.containerOffsetOf doc) in
           pos_w position == Page.pxToInch (rect_height rendered)
           /\ pos_h position == Page.pxToInch (rect_width rendered)
           /\ pos_x position + pos_w position / 2
              == Page.pxToInch (Math_max 0 left + rect_width rendered / 2)
           /\ pos_y position + pos_h position / 2
              == Page.pxToInch (Math_max 0 top + rect_height rendered / 2)
           /\ (0 <= left ->
               pos_x position + pos_w position / 2
               == Page.pxToInch (left + rect_width rendered / 2))
           /\ (0 <= top ->
               pos_y position + pos_h position / 2
               == Page.pxToInch (top + rect_height rendered / 2)).
Proof.
  intros host doc slideData H type text position style r I Rot Quarter.
  destruct (extractSlideData_traced _ _ _ H) as [E _].
  rewrite Forall_forall in E.
  destruct (E _ I) as [loc [d [kids [Here [N [Derived Box]]]]]].
  exists loc, d, kids. split; [exact Here|]. split; [exact N|].
  split; [rewrite <- Derived; exact Rot|].
  rewrite Rot in Box. subst position.
  destruct (quarter_turn_box d
              (Page.adjustRect (Page.containerOffsetOf doc) (boundingClientRect d))
              r Quarter) as [_ [W [Hh [CX CY]]]].
  cbv zeta. split; [exact W|]. split; [exact Hh|].
  split; [exact CX|]. split; [exact CY|].
  split; intro Inside.
  - rewrite CX. cbn [rect_left rect_width Page.adjustRect].
    unfold Math_max, Page.pxToInch. pose proof (Q.max_r _ _ Inside) as M.
    rewrite M. reflexivity.
  - rewrite CY. cbn [rect_top rect_height Page.adjustRect].
    unfold Math_max, Page.pxToInch. pose proof (Q.max_r _ _ Inside) as M.
    rewrite M. reflexivity.
Qed.

Lemma C5_quarter_turn_swaps_box_witness :
  exists position style,
    extracted_elements (Page.extractSlideData Sample.host inner_vertical)
    = [TextEl "p" (PlainText "Vertical") position style]
    /\ exists loc d kids,
         In loc (Page.allElements inner_vertical)
         /\ node loc = ElemNode d kids
         /\ Page.getRotation Sample.host (transform (computed d))
              (writingMode (computed d)) = Some 90
         /\ let rendered := boundingClientRect d in
            let left := rect_left rendered - fst (Page.containerOffsetOf inner_vertical) in
            let top := rect_top rendered - snd (Page.containerOffsetOf inner_vertical) in
            pos_w position == Page.pxToInch (rect_height rendered)
            /\ pos_h position == Page.pxToInch (rect_width rendered)
            /\ pos_x position + pos_w position / 2
               == Page.pxToInch (Math_max 0 left + rect_width rendered / 2)
            /\ pos_y position + pos_h position / 2
               == Page.pxToInch (Math_max 0 top + rect_height rendered / 2)
            /\ (0 <= left ->
                pos_x position + pos_w position / 2
                == Page.pxToInch (left + rect_width rendered / 2))
            /\ (0 <= top ->
                pos_y position + pos_h position / 2
                == Page.pxToInch (top + rect_height rendered / 2)).
Proof.
  eexists _, _. split; [vm_compute; reflexivity|].
  refine (C5_quarter_turn_swaps_box Sample.host inner_vertical _ _
            "p"%string (PlainText "Vertical") _ _ 90 _ _ _).
  - vm_compute. reflexivity.
  - vm_compute. left. reflexivity.
  - vm_compute. reflexivity.
  - left. reflexivity.
Defined.



(** ** Validated tables *)

(** C6 (amended): in a document that passes validation every table block
    has at least one column-width ratio and one row, and every row (header
    and data) has exactly as many cells as there are ratios; a row with a
    different cell count always leaves a finding.  The ratios of a table
    block are the rendered widths of the cells that define the columns of
    a [table] element of the page (the header row's [th], else the first
    data row's [th], else its [td]), each divided by the rendered width of
    that table, which is not 0; so they add up to the total of those cell
    widths over the table's width, whatever that is. *)
Theorem C6_validated_tables_are_rectangular :
  forall (host : Host) (htmlFile : string) (presLayout : option Driver.Layout)
         (options : Driver.Options) (result : Driver.BodyMetrics)
         (doc : Page.Document) (deck : Driver.Deck)
         (value : Driver.Returned) (deck' : Driver.Deck),
    Driver.html2pptx host htmlFile presLayout options (Driver.Rendered result doc) deck
      = (Driver.Ok value, deck') ->
    exists slideData,
      Page.extractSlideData host doc = inl slideData
      /\ (forall data colWidths position style,
            In (TableEl data colWidths position style) (elements slideData) ->
            colWidths <> [] /\ data <> []
            /\ Forall (fun row => length row = length colWidths) data)
      /\ (forall bodyDimensions layout sd data colWidths position style row,
            In (TableEl data colWidths position style) (elements sd) ->
            In row data -> length row <> length colWidths ->
            Driver.validationErrors bodyDimensions sd layout <> [])
      /\ (forall data colWidths position style,
            In (TableEl data colWidths position style) (elements slideData) ->
            exists table d kids,
              In table (Page.allElements doc)
              /\ node table = ElemNode d kids
              /\ tagName d = "TABLE"%string
              /\ let tableWidth := rect_width (boundingClientRect d) in
                 let widths :=
                   map (fun cell => Page.node_width (node cell)) (columnCells table) in
                 ~ tableWidth == 0
                 /\ colWidths = map (fun w => w / tableWidth) widths
                 /\ total colWidths * tableWidth == total widths).
Proof.
  intros host htmlFile presLayout options result doc deck value deck' H.
  destruct (html2pptx_Ok _ _ _ _ _ _ _ _ _ H) as [slideData [E V]].
  exists slideData. split; [exact E|].
  split; [|split].
  - intros data colWidths position style I.
    apply (tableErrors_nil data colWidths position style).
    exact (flat_map_nil _ _ _ (validationErrors_nil_tables _ _ _ V) I).
  - intros bodyDimensions layout sd data colWidths position style row I R M V'.
    pose proof (flat_map_nil _ _ _ (validationErrors_nil_tables _ _ _ V') I) as T.
    apply tableErrors_nil in T. destruct T as [_ [_ T]].
    rewrite Forall_forall in T. exact (M (T row R)).
  - intros data colWidths position style I.
    destruct (extractSlideData_traced _ _ _ E) as [W _].
    rewrite Forall_forall in W.
    destruct (W _ I) as [table [d [kids [Here [N [Tag [_ [NZ Ratios]]]]]]]].
    exists table, d, kids. split; [exact Here|]. split; [exact N|].
    split; [exact Tag|]. cbv zeta.
    assert (R : colWidths
                = map (fun w => w / rect_width (boundingClientRect d))
                    (map (fun cell => Page.node_width (node cell))
                       (columnCells table)))
      by (rewrite map_map; exact Ratios).
    split; [exact NZ|]. split; [exact R|].
    rewrite R. apply total_ratios. exact NZ.
Qed.

Lemma C6_validated_tables_are_rectangular_witness :
  exists slideData,
    Page.extractSlideData Sample.host Sample.spaced_table = inl slideData
    /\ (forall data colWidths position style,
          In (TableEl data colWidths position style) (elements slideData) ->
          colWidths <> [] /\ data <> []
          /\ Forall (fun row => length row = length colWidths) data)
    /\ (forall bodyDimensions layout sd data colWidths position style row,
          In (TableEl data colWidths position style) (elements sd) ->
          In row data -> length row <> length colWidths ->
          Driver.validationErrors bodyDimensions sd layout <> [])
    /\ (forall data colWidths position style,
          In (TableEl data colWidths position style) (elements slideData) ->
          exists table d kids,
            In table (Page.allElements Sample.spaced_table)
            /\ node table = ElemNode d kids
            /\ tagName d = "TABLE"%string
            /\ let tableWidth := rect_width (boundingClientRect d) in
               let widths :=
                 map (fun cell => Page.node_width (node cell)) (columnCells table) in
               ~ tableWidth == 0
               /\ colWidths = map (fun w => w / tableWidth) widths
               /\ total colWidths * tableWidth == total widths).
Proof.
  eapply (C6_validated_tables_are_rectangular Sample.host "slide.html" None
            Sample.fresh_slide Sample.fitting_body Sample.spaced_table []).
  vm_compute. reflexivity.
Defined.
